(** * University records store: the enrollment / grading core

    A shallow embedding of the two FastAPI programs
    [simple_university_management/main.py] and
    [enhanced_university_management/main.py], and the proofs of the
    properties their specification states about them.

    Conventions of the embedding.
    - Python [int] is [Z]; Python [str] is [string], read as ASCII text.
    - Python [float] is an IEEE-754 binary64 value ([spec_float] with
      precision 53 and maximal exponent 1024); [round(x, 2)] is modelled
      exactly (module [PyFloat]).
    - The dictionaries of professors, students and courses are finite maps
      keyed by the integer id.  The enrollment dictionary is an
      insertion-ordered dictionary ([odict]), because
      [get_enrollment_key_by_ids] returns the first match in iteration
      order.
    - An endpoint is a computation in a state-and-exception monad whose
      state survives a raised exception: what a handler wrote before it
      raised stays written, as in Python.
    - The objects stored in the dictionaries are mutated in place by the
      source ([course.enrolled_students += 1]); the embedding writes the
      updated record back under the same key. *)

From Stdlib Require Import ZArith Lia Ascii String.
From Stdlib Require Import Floats.SpecFloat.
From stdpp Require Import gmap strings list fin_maps pretty sorting.

Local Open Scope Z_scope.

(* ===================================================================== *)
(** * Python floats *)
(* ===================================================================== *)

Module PyFloat.

Definition float : Type := spec_float.

Definition prec : Z := 53.
Definition emax : Z := 1024.

(** [float(n)] for a Python int [n] (round to nearest, ties to even). *)
Definition of_int (n : Z) : float := binary_normalize prec emax n 0 false.

Definition add (x y : float) : float := SFadd prec emax x y.
Definition mul (x y : float) : float := SFmul prec emax x y.
(** [x / y]; Python raises [ZeroDivisionError] when [y] is zero, and the
    source only divides under the guard [total_credits > 0]. *)
Definition div (x y : float) : float := SFdiv prec emax x y.
Definition ltb (x y : float) : bool := SFltb x y.

Definition zero : float := S754_zero false.
Definition two : float := of_int 2.

(** Nearest integer to [n / d] for [d > 0], ties to the even integer. *)
Definition div_half_even (n d : Z) : Z :=
  let q := n `div` d in
  let r := n `mod` d in
  match (2 * r) ?= d with
  | Lt => q
  | Gt => q + 1
  | Eq => if Z.even q then q else q + 1
  end.

(** [round(x, 2)]: CPython prints the exact binary value of [x] with two
    decimals (correctly rounded, ties to even) and reads the decimal back
    as the nearest double.  Zeros, infinities and NaN are returned as
    they are. *)
Definition round2 (x : float) : float :=
  match x with
  | S754_finite s m e =>
      let hundredths :=
        if 0 <=? e then 100 * Z.pos m * 2 ^ e
        else div_half_even (100 * Z.pos m) (2 ^ (- e)) in
      match hundredths with
      | Z.pos h => SFdiv prec emax (S754_finite s h 0) (S754_finite false 100 0)
      | _ => S754_zero s
      end
  | _ => x
  end.

(** The double nearest to the decimal [h / 100], for tests and examples. *)
Definition of_hundredths (h : Z) : float := div (of_int h) (of_int 100).

Global Arguments of_int : simpl never.
Global Arguments add : simpl never.
Global Arguments mul : simpl never.
Global Arguments div : simpl never.
Global Arguments ltb : simpl never.
Global Arguments round2 : simpl never.
Global Arguments two : simpl never.
Global Arguments of_hundredths : simpl never.

(** [x == y] and [x <= y] on floats; every comparison with NaN is false. *)
Definition eqb (x y : float) : bool := SFeqb x y.
Definition leb (x y : float) : bool := SFleb x y.

Definition one : float := of_int 1.
Definition three : float := of_int 3.
Definition four : float := of_int 4.

(** A Python int as the float operand that has exactly its value. *)
Definition exact (n : Z) : float :=
  match n with
  | Z0 => S754_zero false
  | Zpos p => S754_finite false p 0
  | Zneg p => S754_finite true p 0
  end.

Inductive error := ZeroDivisionError | OverflowError.

(** [a / b] for two Python ints: the double nearest to the quotient of
    the integers, [OverflowError] when that is beyond the doubles. *)
Definition truediv (a b : Z) : error + float :=
  if b =? 0 then inl ZeroDivisionError
  else match SFdiv prec emax (exact a) (exact b) with
       | S754_infinity _ => inl OverflowError
       | q => inr q
       end.

(** A JSON number that is a Python [int] or a Python [float]. *)
Inductive number := Int (n : Z) | Float (x : float).

Global Arguments eqb : simpl never.
Global Arguments leb : simpl never.
Global Arguments one : simpl never.
Global Arguments three : simpl never.
Global Arguments four : simpl never.
Global Arguments truediv : simpl never.

End PyFloat.



(* ===================================================================== *)
(** * Python strings *)
(* ===================================================================== *)

Module PyStr.

Definition is_upper (c : ascii) : bool :=
  let n := N_of_ascii c in ((65 <=? n) && (n <=? 90))%N.

Definition is_lower (c : ascii) : bool :=
  let n := N_of_ascii c in ((97 <=? n) && (n <=? 122))%N.

Definition is_digit (c : ascii) : bool :=
  let n := N_of_ascii c in ((48 <=? n) && (n <=? 57))%N.

Definition upper_char (c : ascii) : ascii :=
  if is_lower c then ascii_of_N (N_of_ascii c - 32) else c.

(** [s.upper()] on ASCII text. *)
Fixpoint upper (s : string) : string :=
  match s with
  | EmptyString => EmptyString
  | String c s' => String (upper_char c) (upper s')
  end.

(** Truthiness of a string: [bool(s)]. *)
Definition truthy (s : string) : bool :=
  match s with EmptyString => false | _ => true end.

(** Longest prefix of characters satisfying [p], and the rest. *)
Fixpoint span (p : ascii -> bool) (s : string) : string * string :=
  match s with
  | EmptyString => (EmptyString, EmptyString)
  | String c s' =>
      if p c then let '(a, b) := span p s' in (String c a, b)
      else (EmptyString, s)
  end.

Definition newline : ascii := ascii_of_N 10.

(** At the end of the subject, [$] of [re.match] (no [MULTILINE]) matches
    the empty rest, and also just before one final newline. *)
Definition at_dollar (rest : string) : bool :=
  match rest with
  | EmptyString => true
  | String c EmptyString => bool_decide (c = newline)
  | _ => false
  end.

(** [\d{3}$]: exactly three digits, then [$]. *)
Definition three_digits_then_end (rest : string) : bool :=
  match rest with
  | String d1 (String d2 (String d3 tail)) =>
      is_digit d1 && is_digit d2 && is_digit d3 && at_dollar tail
  | _ => false
  end.

(** [re.match(r'^[A-Z]{2,4}\d{3}$', v)] is not [None].  Letters and
    digits are disjoint classes, so the greedy run of letters is the only
    split that can succeed. *)
Definition match_course_code (v : string) : bool :=
  let '(letters, rest) := span is_upper v in
  let n := String.length letters in
  (2 <=? n)%nat && (n <=? 4)%nat && three_digits_then_end rest.

(** Every character of [s] satisfies [p]. *)
Fixpoint all_chars (p : ascii -> bool) (s : string) : bool :=
  match s with
  | EmptyString => true
  | String c s' => p c && all_chars p s'
  end.

(** The pattern [^[A-Z]{2,4}\d{3}$] read as a description of the text:
    two to four capital letters, then three digits, then the end of the
    text or one newline that ends it. *)
Definition course_code_pattern (v : string) : Prop :=
  exists letters digits tail,
    v = letters +:+ digits +:+ tail
    /\ (2 <= String.length letters <= 4)%nat
    /\ all_chars is_upper letters = true
    /\ String.length digits = 3%nat
    /\ all_chars is_digit digits = true
    /\ (tail = EmptyString \/ tail = String newline EmptyString).

Definition lower_char (c : ascii) : ascii :=
  if is_upper c then ascii_of_N (N_of_ascii c + 32) else c.

(** [s.lower()] on ASCII text. *)
Fixpoint lower (s : string) : string :=
  match s with
  | EmptyString => EmptyString
  | String c s' => String (lower_char c) (lower s')
  end.

(** [sep.join(parts)] *)
Fixpoint join (sep : string) (parts : list string) : string :=
  match parts with
  | [] => EmptyString
  | p :: rest =>
      match rest with
      | [] => p
      | _ :: _ => p +:+ sep +:+ join sep rest
      end
  end.

End PyStr.


(* ===================================================================== *)
(** * Insertion-ordered dictionaries *)
(* ===================================================================== *)

(** A Python [dict] iterates in insertion order.  [odict] keeps the items
    in that order; the keys of a dictionary are pairwise distinct
    ([od_wf]). *)
Abbreviation odict K V := (list (K * V)).

Section odict.
Context {K V : Type} `{EqDecision K}.

Definition od_keys (d : odict K V) : list K := d.*1.
Definition od_values (d : odict K V) : list V := d.*2.

Definition od_wf (d : odict K V) : Prop := NoDup (od_keys d).

(** [d.get(k)] *)
Fixpoint od_get (k : K) (d : odict K V) : option V :=
  match d with
  | [] => None
  | (k', v) :: d' => if decide (k = k') then Some v else od_get k d'
  end.

(** [k in d] *)
Definition od_mem (k : K) (d : odict K V) : bool := bool_decide (is_Some (od_get k d)).

(** [d[k] = v]: an existing key keeps its position, a new key goes last. *)
Fixpoint od_set (k : K) (v : V) (d : odict K V) : odict K V :=
  match d with
  | [] => [(k, v)]
  | (k', v') :: d' =>
      if decide (k = k') then (k, v) :: d' else (k', v') :: od_set k v d'
  end.

(** [del d[k]], for a key that is present. *)
Fixpoint od_del (k : K) (d : odict K V) : odict K V :=
  match d with
  | [] => []
  | (k', v') :: d' =>
      if decide (k = k') then d' else (k', v') :: od_del k d'
  end.

End odict.


(* ===================================================================== *)
(** * Python lists and the iteration order of the id dictionaries *)
(* ===================================================================== *)

Module PyList.

(** The position a slice bound [i] stands for in a list of length [n]:
    a negative bound counts from the end, and every bound is clipped to
    the list. *)
Definition clamp (n i : Z) : Z :=
  if i <? 0 then Z.max (i + n) 0 else Z.min i n.

(** [l[start:stop]] *)
Definition slice {A} (start stop : Z) (l : list A) : list A :=
  let n := Z.of_nat (length l) in
  let a := clamp n start in
  let b := clamp n stop in
  take (Z.to_nat (b - a)) (drop (Z.to_nat a) l).

(** [sum(l)] *)
Definition sum (l : list Z) : Z := foldl Z.add 0 l.

(** [min(l)] and [max(l)]; [None] stands for the [ValueError] that an
    empty list raises. *)
Definition min (l : list Z) : option Z :=
  match l with [] => None | x :: l' => Some (foldl Z.min x l') end.

Definition max (l : list Z) : option Z :=
  match l with [] => None | x :: l' => Some (foldl Z.max x l') end.

End PyList.

(** The dictionaries of professors, students and courses receive their
    keys from counters that only grow, and assigning to a key that is
    present keeps its position: these dictionaries iterate in the order of
    their ids. *)
Definition key_le {V} (a b : Z * V) : Prop := a.1 <= b.1.

#[global] Instance key_le_dec {V} (a b : Z * V) : Decision (key_le a b).
Proof. unfold key_le. apply _. Defined.

(** [d.items()] and [d.values()] *)
Definition dict_items {V} (m : gmap Z V) : list (Z * V) :=
  merge_sort key_le (map_to_list m).

Definition dict_values {V} (m : gmap Z V) : list V := (dict_items m).*2.

(* ===================================================================== *)
(** * Handlers: state that survives exceptions *)
(* ===================================================================== *)

(** A handler reads and writes the global [db] and may raise.  The state
    component of the result is the store as the handler left it, also when
    it raised. *)
Section handler_monad.
Context {S E : Type}.

Definition handler (A : Type) : Type := S -> (E + A) * S.

Definition ret {A} (a : A) : handler A := fun s => (inr a, s).

Definition bind {A B} (m : handler A) (k : A -> handler B) : handler B :=
  fun s =>
    match m s with
    | (inl e, s') => (inl e, s')
    | (inr a, s') => k a s'
    end.

Definition raise {A} (e : E) : handler A := fun s => (inl e, s).

Definition get : handler S := fun s => (inr s, s).

Definition modify (f : S -> S) : handler unit := fun s => (inr tt, f s).

(** [for x in xs: body(x)] *)
Fixpoint for_each {A} (xs : list A) (body : A -> handler unit) : handler unit :=
  match xs with
  | [] => ret tt
  | x :: xs' => bind (body x) (fun _ => for_each xs' body)
  end.

End handler_monad.

Global Arguments handler : clear implicits.

Notation "'let!' x ':=' m 'in' k" := (bind m (fun x => k))
  (at level 10, x pattern, m at level 100, k at level 200).
Notation "m ';;!' k" := (bind m (fun _ => k))
  (at level 100, k at level 200, right associativity).

(** [datetime.date], compared as Python compares dates. *)
Record date := Date { year_of : Z; month_of : Z; day_of : Z }.

Definition date_gtb (a b : date) : bool :=
  (year_of b <? year_of a)
  || ((year_of a =? year_of b)
      && ((month_of b <? month_of a)
          || ((month_of a =? month_of b) && (day_of b <? day_of a)))).

(** What FastAPI answers to a request with a JSON body: 422 when the body
    does not validate against the pydantic model of the parameter (the
    endpoint is then not called), and otherwise whatever the endpoint
    returned or raised. *)
Inductive http_result (E A : Type) :=
| Unprocessable
| Handled (r : E + A).

Global Arguments Unprocessable {E A}.
Global Arguments Handled {E A} r.

(* ===================================================================== *)
(** * enhanced_university_management/main.py *)
(* ===================================================================== *)

Module Enhanced.

(** ** Exceptions

    [NotFound] and [Conflict] are the two [AppException] subclasses; the
    human-readable [detail] and the [extra_info] keywords are left out.
    [KeyError] is Python's own, raised by [d[k]] on a missing key. *)
Inductive exception :=
| NotFound (resource : string) (resource_id : string)
| Conflict (error_code : string)
| KeyError.

(** ** Pydantic models *)

Module Professor.
Record t := mk
  { id : Z; name : string; email : string; department : string;
    hire_date : date }.

(** One [key, value] item of [ProfessorUpdate.model_dump(exclude_unset=True)]. *)
Inductive attr :=
| Name (v : string) | Email (v : string) | Department (v : string).

Definition setattr (p : t) (a : attr) : t :=
  match a with
  | Name v => mk (id p) v (email p) (department p) (hire_date p)
  | Email v => mk (id p) (name p) v (department p) (hire_date p)
  | Department v => mk (id p) (name p) (email p) v (hire_date p)
  end.
End Professor.

Record ProfessorCreate := mkProfessorCreate
  { pc_name : string; pc_email : string; pc_department : string;
    pc_hire_date : date }.

(** A field of an update model is [None] when the request did not set
    it.  (A request can also set a field to JSON [null]; such payloads
    are outside this model.) *)
Record ProfessorUpdate := mkProfessorUpdate
  { pu_name : option string; pu_email : option string;
    pu_department : option string }.

Module Course.
Record t := mk
  { id : Z; name : string; code : string; credits : Z; max_capacity : Z;
    professor_id : Z; enrolled_students : Z }.

Inductive attr :=
| Name (v : string) | Code (v : string) | Credits (v : Z)
| MaxCapacity (v : Z) | ProfessorId (v : Z).

Definition setattr (c : t) (a : attr) : t :=
  match a with
  | Name v =>
      mk (id c) v (code c) (credits c) (max_capacity c) (professor_id c)
         (enrolled_students c)
  | Code v =>
      mk (id c) (name c) v (credits c) (max_capacity c) (professor_id c)
         (enrolled_students c)
  | Credits v =>
      mk (id c) (name c) (code c) v (max_capacity c) (professor_id c)
         (enrolled_students c)
  | MaxCapacity v =>
      mk (id c) (name c) (code c) (credits c) v (professor_id c)
         (enrolled_students c)
  | ProfessorId v =>
      mk (id c) (name c) (code c) (credits c) (max_capacity c) v
         (enrolled_students c)
  end.

(** [c.enrolled_students += n] *)
Definition add_enrolled (n : Z) (c : t) : t :=
  mk (id c) (name c) (code c) (credits c) (max_capacity c) (professor_id c)
     (enrolled_students c + n).
End Course.

Record CourseCreate := mkCourseCreate
  { cc_name : string; cc_code : string; cc_credits : Z; cc_max_capacity : Z;
    cc_professor_id : Z }.

Record CourseUpdate := mkCourseUpdate
  { cu_name : option string; cu_code : option string; cu_credits : option Z;
    cu_max_capacity : option Z; cu_professor_id : option Z }.

Module Student.
Record t := mk
  { id : Z; name : string; email : string; major : string; year : Z;
    gpa : PyFloat.float; academic_probation : bool }.

Inductive attr :=
| Name (v : string) | Email (v : string) | Major (v : string) | Year (v : Z).

Definition setattr (s : t) (a : attr) : t :=
  match a with
  | Name v => mk (id s) v (email s) (major s) (year s) (gpa s) (academic_probation s)
  | Email v => mk (id s) (name s) v (major s) (year s) (gpa s) (academic_probation s)
  | Major v => mk (id s) (name s) (email s) v (year s) (gpa s) (academic_probation s)
  | Year v => mk (id s) (name s) (email s) (major s) v (gpa s) (academic_probation s)
  end.

(** [s.gpa = g; s.academic_probation = s.gpa < 2.0] *)
Definition set_gpa (g : PyFloat.float) (s : t) : t :=
  mk (id s) (name s) (email s) (major s) (year s) g (PyFloat.ltb g PyFloat.two).
End Student.

Record StudentCreate := mkStudentCreate
  { sc_name : string; sc_email : string; sc_major : string; sc_year : Z }.

Record StudentUpdate := mkStudentUpdate
  { su_name : option string; su_email : option string;
    su_major : option string; su_year : option Z }.

Module Enrollment.
Record t := mk
  { id : string; student_id : Z; course_id : Z; enrollment_date : date;
    grade : option string }.

(** [e.grade = g] *)
Definition set_grade (g : string) (e : t) : t :=
  mk (id e) (student_id e) (course_id e) (enrollment_date e) (Some g).
End Enrollment.

Record EnrollmentCreate := mkEnrollmentCreate
  { ec_student_id : Z; ec_course_id : Z }.

Record EnrollmentSuccessResponse := mkEnrollmentSuccessResponse
  { r_enrollment_id : string; r_student : Student.t; r_course : Course.t;
    r_enrollment_date : date }.

(** [model_dump(exclude_unset=True).items()], in field order. *)
Definition dump_professor_update (u : ProfessorUpdate) : list Professor.attr :=
  option_list (Professor.Name <$> pu_name u)
  ++ option_list (Professor.Email <$> pu_email u)
  ++ option_list (Professor.Department <$> pu_department u).

Definition dump_student_update (u : StudentUpdate) : list Student.attr :=
  option_list (Student.Name <$> su_name u)
  ++ option_list (Student.Email <$> su_email u)
  ++ option_list (Student.Major <$> su_major u)
  ++ option_list (Student.Year <$> su_year u).

Definition dump_course_update (u : CourseUpdate) : list Course.attr :=
  option_list (Course.Name <$> cu_name u)
  ++ option_list (Course.Code <$> cu_code u)
  ++ option_list (Course.Credits <$> cu_credits u)
  ++ option_list (Course.MaxCapacity <$> cu_max_capacity u)
  ++ option_list (Course.ProfessorId <$> cu_professor_id u).

(** ** Field validators *)

(** [CourseBase.validate_course_code]: the pattern is matched against
    the value as it was sent; a value that matched is returned
    uppercased.  [inl tt] stands for the raised [ValueError]. *)
Definition validate_course_code (v : string) : unit + string :=
  if negb (PyStr.match_course_code v) then inl tt
  else inr (PyStr.upper v).

(** [ProfessorCreate.hire_date_not_in_future] *)
Definition hire_date_not_in_future (today v : date) : unit + date :=
  if date_gtb v today then inl tt else inr v.

(** Building a [CourseCreate] from the request body: the [Field]
    bounds and the [code] validator.  [inl] lists the rejected fields. *)
Definition parse_CourseCreate (name code : string) (credits max_capacity professor_id : Z)
  : list string + CourseCreate :=
  let errs :=
    (match validate_course_code code with inl _ => ["code"] | inr _ => [] end)
    ++ (if (1 <=? credits) && (credits <=? 6) then [] else ["credits"])
    ++ (if 1 <=? max_capacity then [] else ["max_capacity"]) in
  match errs, validate_course_code code with
  | [], inr code' => inr (mkCourseCreate name code' credits max_capacity professor_id)
  | _, _ => inl errs
  end.

(** ** The in-memory database *)

Record db := mkDb
  { professors : gmap Z Professor.t;
    students : gmap Z Student.t;
    courses : gmap Z Course.t;
    enrollments : odict string Enrollment.t;
    next_professor_id : Z;
    next_student_id : Z;
    next_course_id : Z;
    next_enrollment_id : Z }.

Definition set_professors (f : gmap Z Professor.t -> gmap Z Professor.t) (st : db) : db :=
  mkDb (f (professors st)) (students st) (courses st) (enrollments st)
       (next_professor_id st) (next_student_id st) (next_course_id st)
       (next_enrollment_id st).
Definition set_students (f : gmap Z Student.t -> gmap Z Student.t) (st : db) : db :=
  mkDb (professors st) (f (students st)) (courses st) (enrollments st)
       (next_professor_id st) (next_student_id st) (next_course_id st)
       (next_enrollment_id st).
Definition set_courses (f : gmap Z Course.t -> gmap Z Course.t) (st : db) : db :=
  mkDb (professors st) (students st) (f (courses st)) (enrollments st)
       (next_professor_id st) (next_student_id st) (next_course_id st)
       (next_enrollment_id st).
Definition set_enrollments
  (f : odict string Enrollment.t -> odict string Enrollment.t) (st : db) : db :=
  mkDb (professors st) (students st) (courses st) (f (enrollments st))
       (next_professor_id st) (next_student_id st) (next_course_id st)
       (next_enrollment_id st).
Definition bump_next_professor_id (st : db) : db :=
  mkDb (professors st) (students st) (courses st) (enrollments st)
       (next_professor_id st + 1) (next_student_id st) (next_course_id st)
       (next_enrollment_id st).
Definition bump_next_student_id (st : db) : db :=
  mkDb (professors st) (students st) (courses st) (enrollments st)
       (next_professor_id st) (next_student_id st + 1) (next_course_id st)
       (next_enrollment_id st).
Definition bump_next_course_id (st : db) : db :=
  mkDb (professors st) (students st) (courses st) (enrollments st)
       (next_professor_id st) (next_student_id st) (next_course_id st + 1)
       (next_enrollment_id st).
Definition bump_next_enrollment_id (st : db) : db :=
  mkDb (professors st) (students st) (courses st) (enrollments st)
       (next_professor_id st) (next_student_id st) (next_course_id st)
       (next_enrollment_id st + 1).

(** The module-level [db] literal; [boot] is [date.today()] when the
    module is loaded (the default of [ENR1]'s [enrollment_date]). *)
Definition init_db (boot : date) : db :=
  mkDb
    {[ 1 := Professor.mk 1 "Dr. Alan Turing" "alan.turing@bletchleypark.edu"
              "Computer Science" (Date 1936 9 30) ]}
    {[ 1 := Student.mk 1 "Joan Clarke" "joan.clarke@example.com" "Mathematics" 2
              PyFloat.zero false ]}
    {[ 1 := Course.mk 1 "Introduction to Cryptography" "CS101" 3 30 1 1 ]}
    [("ENR1", Enrollment.mk "ENR1" 1 1 boot None)]
    2 2 2 2.

Definition GRADE_TO_POINTS (g : string) : option PyFloat.float :=
  if decide (g = "A") then Some (PyFloat.of_int 4)
  else if decide (g = "B") then Some (PyFloat.of_int 3)
  else if decide (g = "C") then Some (PyFloat.of_int 2)
  else if decide (g = "D") then Some (PyFloat.of_int 1)
  else if decide (g = "F") then Some PyFloat.zero
  else None.

(** ** Helper functions *)

Abbreviation endpoint := (handler db exception).

(** Truthiness of an [Optional[str]]: [None] and the empty string are
    false. *)
Definition truthy_opt (o : option string) : bool :=
  match o with Some s => PyStr.truthy s | None => false end.

(** [[e for e in db["enrollments"].values()
      if e.student_id == student_id and e.grade]] *)
Definition student_enrollments (student_id : Z) (d : odict string Enrollment.t)
  : list Enrollment.t :=
  filter (fun e => Enrollment.student_id e = student_id
                   /\ truthy_opt (Enrollment.grade e) = true)
         (od_values d).

(** One iteration of the loop of [calculate_gpa] on the pair
    [(total_points, total_credits)]. *)
Definition gpa_step (cs : gmap Z Course.t) (acc : PyFloat.float * Z)
    (e : Enrollment.t) : PyFloat.float * Z :=
  match cs !! Enrollment.course_id e, Enrollment.grade e ≫= GRADE_TO_POINTS with
  | Some course, Some points =>
      (PyFloat.add acc.1 (PyFloat.mul points (PyFloat.of_int (Course.credits course))),
       acc.2 + Course.credits course)
  | _, _ => acc
  end.

(** The value [calculate_gpa] assigns to [student.gpa]. *)
Definition computed_gpa (st : db) (student_id : Z) : PyFloat.float :=
  let '(total_points, total_credits) :=
    fold_left (gpa_step (courses st))
              (student_enrollments student_id (enrollments st))
              (PyFloat.zero, 0) in
  if 0 <? total_credits
  then PyFloat.round2 (PyFloat.div total_points (PyFloat.of_int total_credits))
  else PyFloat.zero.

Definition calculate_gpa (student_id : Z) : endpoint unit :=
  let! st := get in
  match students st !! student_id with
  | None => ret tt
  | Some student =>
      modify (set_students
                (insert student_id
                   (Student.set_gpa (computed_gpa st student_id) student)))
  end.

(** [p.email == email and p.id != current_id] for some professor [p]. *)
Definition professor_holds (st : db) (email : string) (current_id : option Z) : Prop :=
  map_Exists (fun _ p => Professor.email p = email
                         /\ Some (Professor.id p) <> current_id) (professors st).

Definition student_holds (st : db) (email : string) (current_id : option Z) : Prop :=
  map_Exists (fun _ s => Student.email s = email
                         /\ Some (Student.id s) <> current_id) (students st).

Definition EMAIL_ALREADY_EXISTS : exception := Conflict "EMAIL_ALREADY_EXISTS".

Definition check_unique_email (email : string) (current_id : option Z) : endpoint unit :=
  let! st := get in
  (if decide (professor_holds st email current_id)
   then raise EMAIL_ALREADY_EXISTS else ret tt) ;;!
  (if decide (student_holds st email current_id)
   then raise EMAIL_ALREADY_EXISTS else ret tt).

(** The loop of [get_enrollment_key_by_ids] over [items()]. *)
Fixpoint find_enrollment_key (student_id course_id : Z)
    (items : list (string * Enrollment.t)) : option string :=
  match items with
  | [] => None
  | (id, enrollment) :: rest =>
      if decide (Enrollment.student_id enrollment = student_id
                 /\ Enrollment.course_id enrollment = course_id)
      then Some id
      else find_enrollment_key student_id course_id rest
  end.

Definition get_enrollment_key_by_ids (st : db) (student_id course_id : Z)
  : option string :=
  find_enrollment_key student_id course_id (enrollments st).

(** [db["enrollments"][eid]] *)
Definition enrollment_at (eid : string) : endpoint Enrollment.t :=
  let! st := get in
  match od_get eid (enrollments st) with
  | Some e => ret e
  | None => raise KeyError
  end.

(** [del db["enrollments"][eid]] *)
Definition del_enrollment (eid : string) : endpoint unit :=
  let! st := get in
  if od_mem eid (enrollments st)
  then modify (set_enrollments (od_del eid))
  else raise KeyError.

(** [db["courses"][course_id].enrolled_students -= 1], under the guard
    [course_id in db["courses"]]. *)
Definition decrement_if_present (course_id : Z) : endpoint unit :=
  let! st := get in
  match courses st !! course_id with
  | Some course =>
      modify (set_courses (insert course_id (Course.add_enrolled (-1) course)))
  | None => ret tt
  end.

Definition not_found_int (resource : string) (i : Z) : exception :=
  NotFound resource (pretty i).

Definition not_found_enrollment (student_id course_id : Z) : exception :=
  NotFound "Enrollment"
    ("student_id: " +:+ pretty student_id +:+ ", course_id: " +:+ pretty course_id).

(** ** Professor endpoints *)

Definition create_professor (professor_data : ProfessorCreate) : endpoint Professor.t :=
  check_unique_email (pc_email professor_data) None ;;!
  let! st := get in
  let new_professor :=
    Professor.mk (next_professor_id st) (pc_name professor_data)
      (pc_email professor_data) (pc_department professor_data)
      (pc_hire_date professor_data) in
  modify (set_professors (insert (next_professor_id st) new_professor)) ;;!
  modify bump_next_professor_id ;;!
  ret new_professor.

Definition update_professor (professor_id : Z) (professor_update : ProfessorUpdate)
  : endpoint Professor.t :=
  let! st := get in
  match professors st !! professor_id with
  | None => raise (not_found_int "Professor" professor_id)
  | Some professor =>
      (match pu_email professor_update with
       | Some e =>
           if PyStr.truthy e then check_unique_email e (Some professor_id) else ret tt
       | None => ret tt
       end) ;;!
      let professor' :=
        fold_left Professor.setattr (dump_professor_update professor_update) professor in
      modify (set_professors (insert professor_id professor')) ;;!
      ret professor'
  end.

Definition delete_professor (professor_id : Z) : endpoint unit :=
  let! st := get in
  if decide (is_Some (professors st !! professor_id)) then
    if decide (map_Exists (fun _ c => Course.professor_id c = professor_id) (courses st))
    then raise (Conflict "PROFESSOR_HAS_COURSES")
    else modify (set_professors (delete professor_id))
  else raise (not_found_int "Professor" professor_id).

(** ** Student endpoints *)

Definition create_student (student_data : StudentCreate) : endpoint Student.t :=
  check_unique_email (sc_email student_data) None ;;!
  let! st := get in
  let new_student :=
    Student.mk (next_student_id st) (sc_name student_data) (sc_email student_data)
      (sc_major student_data) (sc_year student_data) PyFloat.zero false in
  modify (set_students (insert (next_student_id st) new_student)) ;;!
  modify bump_next_student_id ;;!
  ret new_student.

Definition update_student (student_id : Z) (student_update : StudentUpdate)
  : endpoint Student.t :=
  let! st := get in
  match students st !! student_id with
  | None => raise (not_found_int "Student" student_id)
  | Some student =>
      (match su_email student_update with
       | Some e =>
           if PyStr.truthy e then check_unique_email e (Some student_id) else ret tt
       | None => ret tt
       end) ;;!
      let student' :=
        fold_left Student.setattr (dump_student_update student_update) student in
      modify (set_students (insert student_id student')) ;;!
      ret student'
  end.

(** Keys of the enrollments that satisfy [P], in dictionary order. *)
Definition keys_where (P : Enrollment.t -> Prop) `{forall e, Decision (P e)}
    (d : odict string Enrollment.t) : list string :=
  od_keys (filter (fun kv => P kv.2) d).

Definition delete_student (student_id : Z) : endpoint unit :=
  let! st := get in
  if decide (is_Some (students st !! student_id)) then
    let enrollments_to_delete :=
      keys_where (fun e => Enrollment.student_id e = student_id) (enrollments st) in
    for_each enrollments_to_delete (fun eid =>
      let! e := enrollment_at eid in
      decrement_if_present (Enrollment.course_id e) ;;!
      del_enrollment eid) ;;!
    modify (set_students (delete student_id))
  else raise (not_found_int "Student" student_id).

(** ** Course endpoints *)

Definition create_course (course_data : CourseCreate) : endpoint Course.t :=
  let! st := get in
  if decide (is_Some (professors st !! cc_professor_id course_data)) then
    let new_course :=
      Course.mk (next_course_id st) (cc_name course_data) (cc_code course_data)
        (cc_credits course_data) (cc_max_capacity course_data)
        (cc_professor_id course_data) 0 in
    modify (set_courses (insert (next_course_id st) new_course)) ;;!
    modify bump_next_course_id ;;!
    ret new_course
  else raise (not_found_int "Professor" (cc_professor_id course_data)).

Definition update_course (course_id : Z) (course_update : CourseUpdate)
  : endpoint Course.t :=
  let! st := get in
  match courses st !! course_id with
  | None => raise (not_found_int "Course" course_id)
  | Some course =>
      match cu_professor_id course_update with
      | Some pid =>
          if decide (is_Some (professors st !! pid)) then ret tt
          else raise (not_found_int "Professor" pid)
      | None => ret tt
      end ;;!
      let course' :=
        fold_left Course.setattr (dump_course_update course_update) course in
      modify (set_courses (insert course_id course')) ;;!
      ret course'
  end.

Definition delete_course (course_id : Z) : endpoint unit :=
  let! st := get in
  if decide (is_Some (courses st !! course_id)) then
    let enrollments_to_delete :=
      keys_where (fun e => Enrollment.course_id e = course_id) (enrollments st) in
    for_each enrollments_to_delete del_enrollment ;;!
    modify (set_courses (delete course_id))
  else raise (not_found_int "Course" course_id).

(** ** Enrollment endpoints *)

Definition ENROLLMENT_CAPACITY_EXCEEDED : exception :=
  Conflict "ENROLLMENT_CAPACITY_EXCEEDED".
Definition DUPLICATE_ENROLLMENT : exception := Conflict "DUPLICATE_ENROLLMENT".

(** [f"ENR{n}"] *)
Definition enrollment_key (n : Z) : string := "ENR" +:+ pretty n.

(** [today] is [date.today()] at the time of the call. *)
Definition enroll_student_in_course (today : date) (enrollment_data : EnrollmentCreate)
  : endpoint EnrollmentSuccessResponse :=
  let! st := get in
  match students st !! ec_student_id enrollment_data with
  | None => raise (not_found_int "Student" (ec_student_id enrollment_data))
  | Some student =>
      match courses st !! ec_course_id enrollment_data with
      | None => raise (not_found_int "Course" (ec_course_id enrollment_data))
      | Some course =>
          if Course.max_capacity course <=? Course.enrolled_students course
          then raise ENROLLMENT_CAPACITY_EXCEEDED
          else if truthy_opt
                    (get_enrollment_key_by_ids st (Student.id student) (Course.id course))
          then raise DUPLICATE_ENROLLMENT
          else
            let enrollment_id := enrollment_key (next_enrollment_id st) in
            let new_enrollment :=
              Enrollment.mk enrollment_id (ec_student_id enrollment_data)
                (ec_course_id enrollment_data) today None in
            modify (set_enrollments (od_set enrollment_id new_enrollment)) ;;!
            let course' := Course.add_enrolled 1 course in
            modify (set_courses (insert (ec_course_id enrollment_data) course')) ;;!
            modify bump_next_enrollment_id ;;!
            ret (mkEnrollmentSuccessResponse enrollment_id student course' today)
      end
  end.

(** [grade] has passed the [Query(..., regex="^[A-DF]$")] constraint. *)
Definition update_enrollment_grade (student_id course_id : Z) (grade : string)
  : endpoint Enrollment.t :=
  let! st := get in
  match get_enrollment_key_by_ids st student_id course_id with
  | Some enrollment_id =>
      if PyStr.truthy enrollment_id then
        let! enrollment := enrollment_at enrollment_id in
        let enrollment' := Enrollment.set_grade (PyStr.upper grade) enrollment in
        modify (set_enrollments (od_set enrollment_id enrollment')) ;;!
        calculate_gpa student_id ;;!
        ret enrollment'
      else raise (not_found_enrollment student_id course_id)
  | None => raise (not_found_enrollment student_id course_id)
  end.

Definition drop_course (student_id course_id : Z) : endpoint unit :=
  let! st := get in
  match get_enrollment_key_by_ids st student_id course_id with
  | Some enrollment_id =>
      if PyStr.truthy enrollment_id then
        decrement_if_present course_id ;;!
        del_enrollment enrollment_id ;;!
        calculate_gpa student_id
      else raise (not_found_enrollment student_id course_id)
  | None => raise (not_found_enrollment student_id course_id)
  end.

(** ** The service as a transition system

    A request names an endpoint and carries its parameters, already
    parsed by FastAPI.  The parameters are not constrained further here,
    so the states reachable below include every state the running
    service can reach. *)
Inductive request :=
| CreateProfessor (professor_data : ProfessorCreate)
| UpdateProfessor (professor_id : Z) (professor_update : ProfessorUpdate)
| DeleteProfessor (professor_id : Z)
| CreateStudent (student_data : StudentCreate)
| UpdateStudent (student_id : Z) (student_update : StudentUpdate)
| DeleteStudent (student_id : Z)
| CreateCourse (course_data : CourseCreate)
| UpdateCourse (course_id : Z) (course_update : CourseUpdate)
| DeleteCourse (course_id : Z)
| Enroll (enrollment_data : EnrollmentCreate)
| Grade (student_id course_id : Z) (grade : string)
| Drop (student_id course_id : Z).

(** The store after serving a request on [today]. *)
Definition serve (today : date) (r : request) (st : db) : db :=
  match r with
  | CreateProfessor d => (create_professor d st).2
  | UpdateProfessor i u => (update_professor i u st).2
  | DeleteProfessor i => (delete_professor i st).2
  | CreateStudent d => (create_student d st).2
  | UpdateStudent i u => (update_student i u st).2
  | DeleteStudent i => (delete_student i st).2
  | CreateCourse d => (create_course d st).2
  | UpdateCourse i u => (update_course i u st).2
  | DeleteCourse i => (delete_course i st).2
  | Enroll d => (enroll_student_in_course today d st).2
  | Grade s c g => (update_enrollment_grade s c g st).2
  | Drop s c => (drop_course s c st).2
  end.

Inductive reachable : db -> Prop :=
| reachable_init boot : reachable (init_db boot)
| reachable_serve st today r : reachable st -> reachable (serve today r st).

(** ** Predicates of the specification *)

(** Number of live enrollments whose [course_id] is [course_id]. *)
Definition live_enrollments (course_id : Z) (d : odict string Enrollment.t) : Z :=
  Z.of_nat (length (filter (fun kv => Enrollment.course_id kv.2 = course_id) d)).

(** The [(student_id, course_id)] pairs of the live enrollments. *)
Definition pairs (d : odict string Enrollment.t) : list (Z * Z) :=
  (fun kv => (Enrollment.student_id kv.2, Enrollment.course_id kv.2)) <$> d.

(** A live enrollment links the pair. *)
Definition enrolled (st : db) (student_id course_id : Z) : Prop :=
  (student_id, course_id) ∈ pairs (enrollments st).

#[global] Instance enrolled_dec st student_id course_id :
  Decision (enrolled st student_id course_id).
Proof. unfold enrolled. apply _. Defined.

(** [enrolled_students] agrees with the enrollments, for the courses
    whose id satisfies [P]. *)
Definition counts_ok_on (P : Z -> Prop) (st : db) : Prop :=
  forall k c, P k -> courses st !! k = Some c ->
    Course.enrolled_students c = live_enrollments k (enrollments st).

Definition counts_ok : db -> Prop := counts_ok_on (fun _ => True).

(** The structural invariant of the store. *)
Record consistent (st : db) : Prop := mkConsistent
  { student_ids : forall k s, students st !! k = Some s -> Student.id s = k;
    course_ids : forall k c, courses st !! k = Some c ->
                   Course.id c = k /\ k < next_course_id st;
    enrollment_keys : od_wf (enrollments st);
    enrollment_keys_issued : forall k e, (k, e) ∈ enrollments st ->
                   exists n, k = enrollment_key n /\ n < next_enrollment_id st;
    enrollment_refs : forall k e, (k, e) ∈ enrollments st ->
                   is_Some (students st !! Enrollment.student_id e)
                   /\ is_Some (courses st !! Enrollment.course_id e);
    pairs_distinct : NoDup (pairs (enrollments st)) }.

Definition wf (st : db) : Prop := consistent st /\ counts_ok st.

(** No two distinct records among professors and students hold the same
    email. *)
Definition emails_unique (st : db) : Prop :=
  (forall k1 k2 p1 p2, professors st !! k1 = Some p1 -> professors st !! k2 = Some p2 ->
      Professor.email p1 = Professor.email p2 -> k1 = k2)
  /\ (forall k1 k2 s1 s2, students st !! k1 = Some s1 -> students st !! k2 = Some s2 ->
      Student.email s1 = Student.email s2 -> k1 = k2)
  /\ (forall k1 k2 p s, professors st !! k1 = Some p -> students st !! k2 = Some s ->
      Professor.email p <> Student.email s).

(** Some professor or student holds [email]. *)
Definition email_in_use (st : db) (email : string) : Prop :=
  (exists k p, professors st !! k = Some p /\ Professor.email p = email)
  \/ (exists k s, students st !! k = Some s /\ Student.email s = email).

(** The value of a field after an update that may have set it. *)
Definition patched {A} (new : option A) (old : A) : A := default old new.

(** ** The stores the helpers and endpoints produce *)

(** The store after [calculate_gpa(student_id)]. *)
Definition with_gpa (student_id : Z) (st : db) : db :=
  match students st !! student_id with
  | Some student =>
      set_students
        (insert student_id (Student.set_gpa (computed_gpa st student_id) student)) st
  | None => st
  end.

(** The store after the guarded [enrolled_students -= 1]. *)
Definition decremented (course_id : Z) (st : db) : db :=
  match courses st !! course_id with
  | Some course =>
      set_courses (insert course_id (Course.add_enrolled (-1) course)) st
  | None => st
  end.

(** The store after a successful [enroll_student_in_course]. *)
Definition enrolled_state (today : date) (s c : Z) (course : Course.t) (st : db) : db :=
  bump_next_enrollment_id
    (set_courses (insert c (Course.add_enrolled 1 course))
       (set_enrollments
          (od_set (enrollment_key (next_enrollment_id st))
             (Enrollment.mk (enrollment_key (next_enrollment_id st)) s c today None))
          st)).

(** ** The attributes of an [AppException]

    [NotFound.__init__] and [Conflict.__init__] fix the status code and
    the error code that [app_exception_handler] copies into the
    response.  [KeyError] is no [AppException]: the handler does not see
    it. *)
Definition status_code (e : exception) : option Z :=
  match e with
  | NotFound _ _ => Some 404
  | Conflict _ => Some 409
  | KeyError => None
  end.

(** [f"{resource.upper()}_NOT_FOUND"] for [NotFound]. *)
Definition error_code (e : exception) : option string :=
  match e with
  | NotFound resource _ => Some (PyStr.upper resource +:+ "_NOT_FOUND")
  | Conflict code => Some code
  | KeyError => None
  end.

(** The exception a request ends with, if it raises. *)
Definition error_of {A} (r : exception + A) : option exception :=
  match r with inl e => Some e | inr _ => None end.

Definition raised (today : date) (r : request) (st : db) : option exception :=
  match r with
  | CreateProfessor d => error_of (create_professor d st).1
  | UpdateProfessor i u => error_of (update_professor i u st).1
  | DeleteProfessor i => error_of (delete_professor i st).1
  | CreateStudent d => error_of (create_student d st).1
  | UpdateStudent i u => error_of (update_student i u st).1
  | DeleteStudent i => error_of (delete_student i st).1
  | CreateCourse d => error_of (create_course d st).1
  | UpdateCourse i u => error_of (update_course i u st).1
  | DeleteCourse i => error_of (delete_course i st).1
  | Enroll d => error_of (enroll_student_in_course today d st).1
  | Grade s c g => error_of (update_enrollment_grade s c g st).1
  | Drop s c => error_of (drop_course s c st).1
  end.

(** ** [validation_exception_handler]

    One entry of [exc.errors()]: its location, whose items are field
    names or list positions, and its message. *)
Inductive loc_item := LocStr (s : string) | LocInt (n : Z).

(** [str(x)] *)
Definition str_of_loc (x : loc_item) : string :=
  match x with LocStr s => s | LocInt n => pretty n end.

Record validation_error := mkValidationError
  { loc : list loc_item; msg : string }.

(** [" -> ".join(map(str, error["loc"][1:]))] *)
Definition field_name_of (error : validation_error) : string :=
  PyStr.join " -> " (str_of_loc <$> drop 1 (loc error)).

(** One iteration of the loop: a field name seen for the first time
    gets an empty list, then the message is appended to the list of the
    field name. *)
Definition field_errors_step (field_errors : odict string (list string))
    (error : validation_error) : odict string (list string) :=
  let field_name := field_name_of error in
  match od_get field_name field_errors with
  | None => od_set field_name ([] ++ [msg error]) field_errors
  | Some msgs => od_set field_name (msgs ++ [msg error]) field_errors
  end.

Definition collect_field_errors (errors : list validation_error)
  : odict string (list string) :=
  foldl field_errors_step [] errors.

Record validation_response := mkValidationResponse
  { vr_status_code : Z; vr_detail : string;
    vr_field_errors : odict string (list string); vr_timestamp : string }.

(** [now] is [datetime.now(timezone.utc).isoformat()]. *)
Definition validation_exception_handler (now : string)
    (errors : list validation_error) : validation_response :=
  mkValidationResponse 422 "Validation failed" (collect_field_errors errors) now.

(** ** Read endpoints *)

Definition get_professor (professor_id : Z) : endpoint Professor.t :=
  let! st := get in
  match professors st !! professor_id with
  | None => raise (not_found_int "Professor" professor_id)
  | Some professor => ret professor
  end.

Definition get_student (student_id : Z) : endpoint Student.t :=
  let! st := get in
  match students st !! student_id with
  | None => raise (not_found_int "Student" student_id)
  | Some student => ret student
  end.

Definition get_course (course_id : Z) : endpoint Course.t :=
  let! st := get in
  match courses st !! course_id with
  | None => raise (not_found_int "Course" course_id)
  | Some course => ret course
  end.

(** [xs[start:start + size]] with [start = (page - 1) * size].  The
    [Query] constraints admit [page >= 1] and [1 <= size <= 100]. *)
Definition page_of {A} (page size : Z) (xs : list A) : list A :=
  let start := (page - 1) * size in
  PyList.slice start (start + size) xs.

(** [if flt: xs = [x for x in xs if x.field.lower() == flt.lower()]] for
    an [Optional[str]] parameter: [None] and the empty string do not
    filter. *)
Definition filter_lower {A} (field : A -> string) (flt : option string)
    (xs : list A) : list A :=
  match flt with
  | Some v =>
      if PyStr.truthy v
      then filter (fun x => PyStr.lower (field x) = PyStr.lower v) xs
      else xs
  | None => xs
  end.

(** [if flt: xs = [x for x in xs if x.field == flt]] for an
    [Optional[int]] parameter: [None] and [0] do not filter. *)
Definition filter_int {A} (field : A -> Z) (flt : option Z) (xs : list A) : list A :=
  match flt with
  | Some v => if decide (v = 0) then xs else filter (fun x => field x = v) xs
  | None => xs
  end.

Definition get_all_professors (department : option string) (page size : Z)
  : endpoint (list Professor.t) :=
  let! st := get in
  let professors := dict_values (professors st) in
  let professors := filter_lower Professor.department department professors in
  ret (page_of page size professors).

Definition get_all_students (major : option string) (year : option Z) (page size : Z)
  : endpoint (list Student.t) :=
  let! st := get in
  let students := dict_values (students st) in
  let students := filter_lower Student.major major students in
  let students := filter_int Student.year year students in
  ret (page_of page size students).

(** [{p.id: p.department for p in db["professors"].values()}] *)
Definition prof_depts (st : db) : gmap Z string :=
  foldl (fun m p => <[Professor.id p := Professor.department p]> m) ∅
        (dict_values (professors st)).

Definition get_all_courses (department : option string) (credits : option Z)
    (page size : Z) : endpoint (list Course.t) :=
  let! st := get in
  let courses := dict_values (courses st) in
  let courses :=
    filter_lower (fun c => default "" (prof_depts st !! Course.professor_id c))
                 department courses in
  let courses := filter_int Course.credits credits courses in
  ret (page_of page size courses).

Definition get_all_enrollments : endpoint (list Enrollment.t) :=
  let! st := get in
  ret (od_values (enrollments st)).

Definition get_student_courses (student_id : Z) : endpoint (list Course.t) :=
  let! st := get in
  if decide (is_Some (students st !! student_id)) then
    let enrolled_course_ids :=
      Enrollment.course_id
        <$> filter (fun e => Enrollment.student_id e = student_id)
                   (od_values (enrollments st)) in
    ret (omap (fun cid => courses st !! cid) enrolled_course_ids)
  else raise (not_found_int "Student" student_id).

Definition get_course_roster (course_id : Z) : endpoint (list Student.t) :=
  let! st := get in
  if decide (is_Some (courses st !! course_id)) then
    let enrolled_student_ids :=
      Enrollment.student_id
        <$> filter (fun e => Enrollment.course_id e = course_id)
                   (od_values (enrollments st)) in
    ret (omap (fun sid => students st !! sid) enrolled_student_ids)
  else raise (not_found_int "Course" course_id).

Definition get_professor_teaching_schedule (professor_id : Z)
  : endpoint (list Course.t) :=
  let! st := get in
  if decide (is_Some (professors st !! professor_id)) then
    ret (filter (fun c => Course.professor_id c = professor_id)
                (dict_values (courses st)))
  else raise (not_found_int "Professor" professor_id).

(** ** Analytics endpoints *)

(** The [distribution] dictionary; its five keys are those of the
    literal: ["0.0-0.99"], ["1.0-1.99"], ["2.0-2.99"], ["3.0-4.0"] and
    ["Not Graded"]. *)
Record distribution := mkDistribution
  { from_0 : Z; from_1 : Z; from_2 : Z; from_3 : Z; not_graded : Z }.

(** The number of students a distribution counts. *)
Definition distribution_total (d : distribution) : Z :=
  from_0 d + from_1 d + from_2 d + from_3 d + not_graded d.

(** [any(e.grade for e in db["enrollments"].values()
         if e.student_id == s.id)] *)
Definition any_grade (st : db) (s : Student.t) : bool :=
  bool_decide (Exists (fun e => Enrollment.student_id e = Student.id s
                                /\ truthy_opt (Enrollment.grade e) = true)
                      (od_values (enrollments st))).

(** One iteration of the loop of [get_gpa_distribution]. *)
Definition gpa_bucket (st : db) (d : distribution) (s : Student.t) : distribution :=
  let g := Student.gpa s in
  if PyFloat.eqb g PyFloat.zero && negb (any_grade st s)
  then mkDistribution (from_0 d) (from_1 d) (from_2 d) (from_3 d) (not_graded d + 1)
  else if PyFloat.leb PyFloat.zero g && PyFloat.ltb g PyFloat.one
  then mkDistribution (from_0 d + 1) (from_1 d) (from_2 d) (from_3 d) (not_graded d)
  else if PyFloat.leb PyFloat.one g && PyFloat.ltb g PyFloat.two
  then mkDistribution (from_0 d) (from_1 d + 1) (from_2 d) (from_3 d) (not_graded d)
  else if PyFloat.leb PyFloat.two g && PyFloat.ltb g PyFloat.three
  then mkDistribution (from_0 d) (from_1 d) (from_2 d + 1) (from_3 d) (not_graded d)
  else if PyFloat.leb PyFloat.three g && PyFloat.leb g PyFloat.four
  then mkDistribution (from_0 d) (from_1 d) (from_2 d) (from_3 d + 1) (not_graded d)
  else d.

Definition get_gpa_distribution : endpoint distribution :=
  let! st := get in
  ret (foldl (gpa_bucket st) (mkDistribution 0 0 0 0 0) (dict_values (students st))).

(** What [get_course_enrollment_stats] returns: the message when there
    is no course, and otherwise the five statistics. *)
Inductive enrollment_stats :=
| NoCourses (message : string)
| Stats (total_courses total_enrollment : Z)
        (average_enrollment_per_course : PyFloat.number)
        (min_enrollment max_enrollment : Z).

(** The only exception this endpoint can raise comes from the division
    [total / count]. *)
Definition get_course_enrollment_stats : handler db PyFloat.error enrollment_stats :=
  let! st := get in
  if decide (courses st = ∅) then ret (NoCourses "No courses available.")
  else
    let enrollments := Course.enrolled_students <$> dict_values (courses st) in
    let count := Z.of_nat (length enrollments) in
    let total := PyList.sum enrollments in
    let! average :=
      (if 0 <? count
       then match PyFloat.truediv total count with
            | inl e => raise e
            | inr q => ret (PyFloat.Float (PyFloat.round2 q))
            end
       else ret (PyFloat.Int 0)) in
    ret (Stats count total average
           (default 0 (PyList.min enrollments))
           (default 0 (PyList.max enrollments))).

(** ** Further invariants of the store *)

(** Every record sits under its own id, and every id in use was issued
    by its counter. *)
Record ids_issued (st : db) : Prop := mkIdsIssued
  { professor_ids_issued : forall k p, professors st !! k = Some p ->
      Professor.id p = k /\ k < next_professor_id st;
    student_ids_issued : forall k s, students st !! k = Some s ->
      Student.id s = k /\ k < next_student_id st;
    course_ids_issued : forall k c, courses st !! k = Some c ->
      Course.id c = k /\ k < next_course_id st }.

(** The professor of every course is a live professor. *)
Definition professors_live (st : db) : Prop :=
  forall k c, courses st !! k = Some c ->
    is_Some (professors st !! Course.professor_id c).

(** Within the professors, and within the students, a non-empty email
    has one holder. *)
Definition emails_distinct_within (st : db) : Prop :=
  (forall k1 k2 p1 p2, professors st !! k1 = Some p1 -> professors st !! k2 = Some p2 ->
      Professor.email p1 = Professor.email p2 -> Professor.email p1 <> "" -> k1 = k2)
  /\ (forall k1 k2 s1 s2, students st !! k1 = Some s1 -> students st !! k2 = Some s2 ->
      Student.email s1 = Student.email s2 -> Student.email s1 <> "" -> k1 = k2).

(** The courses of [st1] are those of [st] up to [enrolled_students]:
    what a cascading delete may change in the courses it does not remove. *)
Definition courses_recounted (st st1 : db) : Prop :=
  forall k, option_Forall2 (fun c1 c => exists n, c1 = Course.add_enrolled n c)
              (courses st1 !! k) (courses st !! k).

End Enhanced.


(* ===================================================================== *)
(** * simple_university_management/main.py *)
(* ===================================================================== *)

Module Simple.

(** [HTTPException(status_code, detail)], with the static part of the
    detail text, and Python's [KeyError]. *)
Inductive exception :=
| HTTPException (status_code : Z) (detail : string)
| KeyError.

(** ** Pydantic models *)

Module Professor.
Record t := mk
  { id : Z; name : string; email : string; department : string;
    hire_date : date }.

Inductive attr :=
| Name (v : string) | Email (v : string) | Department (v : string).

Definition setattr (p : t) (a : attr) : t :=
  match a with
  | Name v => mk (id p) v (email p) (department p) (hire_date p)
  | Email v => mk (id p) (name p) v (department p) (hire_date p)
  | Department v => mk (id p) (name p) (email p) v (hire_date p)
  end.
End Professor.

(** [ProfessorCreate] and [ProfessorUpdate] are both [ProfessorBase]:
    every field is required. *)
Record ProfessorBase := mkProfessorBase
  { pb_name : string; pb_email : string; pb_department : string }.

Module Course.
Record t := mk
  { id : Z; name : string; code : string; credits : Z; max_capacity : Z;
    professor_id : Z; enrolled_students : Z }.

Inductive attr :=
| Name (v : string) | Code (v : string) | Credits (v : Z)
| MaxCapacity (v : Z) | ProfessorId (v : Z).

Definition setattr (c : t) (a : attr) : t :=
  match a with
  | Name v =>
      mk (id c) v (code c) (credits c) (max_capacity c) (professor_id c)
         (enrolled_students c)
  | Code v =>
      mk (id c) (name c) v (credits c) (max_capacity c) (professor_id c)
         (enrolled_students c)
  | Credits v =>
      mk (id c) (name c) (code c) v (max_capacity c) (professor_id c)
         (enrolled_students c)
  | MaxCapacity v =>
      mk (id c) (name c) (code c) (credits c) v (professor_id c)
         (enrolled_students c)
  | ProfessorId v =>
      mk (id c) (name c) (code c) (credits c) (max_capacity c) v
         (enrolled_students c)
  end.

Definition add_enrolled (n : Z) (c : t) : t :=
  mk (id c) (name c) (code c) (credits c) (max_capacity c) (professor_id c)
     (enrolled_students c + n).
End Course.

Record CourseCreate := mkCourseCreate
  { cc_name : string; cc_code : string; cc_credits : Z; cc_max_capacity : Z;
    cc_professor_id : Z }.

(** [CourseUpdate(CourseBase)]: the four base fields are required, only
    [professor_id] may be left unset. *)
Record CourseUpdate := mkCourseUpdate
  { cu_name : string; cu_code : string; cu_credits : Z; cu_max_capacity : Z;
    cu_professor_id : option Z }.

Module Student.
Record t := mk
  { id : Z; name : string; email : string; major : string; year : Z;
    gpa : PyFloat.float }.

Inductive attr :=
| Name (v : string) | Email (v : string) | Major (v : string) | Year (v : Z).

Definition setattr (s : t) (a : attr) : t :=
  match a with
  | Name v => mk (id s) v (email s) (major s) (year s) (gpa s)
  | Email v => mk (id s) (name s) v (major s) (year s) (gpa s)
  | Major v => mk (id s) (name s) (email s) v (year s) (gpa s)
  | Year v => mk (id s) (name s) (email s) (major s) v (gpa s)
  end.

Definition set_gpa (g : PyFloat.float) (s : t) : t :=
  mk (id s) (name s) (email s) (major s) (year s) g.
End Student.

(** [StudentCreate] and [StudentUpdate] are both [StudentBase]. *)
Record StudentBase := mkStudentBase
  { sb_name : string; sb_email : string; sb_major : string; sb_year : Z }.

Module Enrollment.
Record t := mk
  { student_id : Z; course_id : Z; enrollment_date : date;
    grade : option string }.

Definition set_grade (g : string) (e : t) : t :=
  mk (student_id e) (course_id e) (enrollment_date e) (Some g).
End Enrollment.

Record EnrollmentCreate := mkEnrollmentCreate
  { ec_student_id : Z; ec_course_id : Z }.

(** [professor_update.model_dump().items()] *)
Definition dump_professor_update (u : ProfessorBase) : list Professor.attr :=
  [Professor.Name (pb_name u); Professor.Email (pb_email u);
   Professor.Department (pb_department u)].

(** [student_update.model_dump().items()] *)
Definition dump_student_update (u : StudentBase) : list Student.attr :=
  [Student.Name (sb_name u); Student.Email (sb_email u);
   Student.Major (sb_major u); Student.Year (sb_year u)].

(** [course_update.model_dump(exclude_unset=True).items()] *)
Definition dump_course_update (u : CourseUpdate) : list Course.attr :=
  [Course.Name (cu_name u); Course.Code (cu_code u);
   Course.Credits (cu_credits u); Course.MaxCapacity (cu_max_capacity u)]
  ++ option_list (Course.ProfessorId <$> cu_professor_id u).

(** ** The in-memory database *)

Record db := mkDb
  { professors : gmap Z Professor.t;
    students : gmap Z Student.t;
    courses : gmap Z Course.t;
    enrollments : odict (Z * Z) Enrollment.t;
    next_professor_id : Z;
    next_student_id : Z;
    next_course_id : Z }.

Definition set_professors (f : gmap Z Professor.t -> gmap Z Professor.t) (st : db) : db :=
  mkDb (f (professors st)) (students st) (courses st) (enrollments st)
       (next_professor_id st) (next_student_id st) (next_course_id st).
Definition set_students (f : gmap Z Student.t -> gmap Z Student.t) (st : db) : db :=
  mkDb (professors st) (f (students st)) (courses st) (enrollments st)
       (next_professor_id st) (next_student_id st) (next_course_id st).
Definition set_courses (f : gmap Z Course.t -> gmap Z Course.t) (st : db) : db :=
  mkDb (professors st) (students st) (f (courses st)) (enrollments st)
       (next_professor_id st) (next_student_id st) (next_course_id st).
Definition set_enrollments
  (f : odict (Z * Z) Enrollment.t -> odict (Z * Z) Enrollment.t) (st : db) : db :=
  mkDb (professors st) (students st) (courses st) (f (enrollments st))
       (next_professor_id st) (next_student_id st) (next_course_id st).
Definition bump_next_professor_id (st : db) : db :=
  mkDb (professors st) (students st) (courses st) (enrollments st)
       (next_professor_id st + 1) (next_student_id st) (next_course_id st).
Definition bump_next_student_id (st : db) : db :=
  mkDb (professors st) (students st) (courses st) (enrollments st)
       (next_professor_id st) (next_student_id st + 1) (next_course_id st).
Definition bump_next_course_id (st : db) : db :=
  mkDb (professors st) (students st) (courses st) (enrollments st)
       (next_professor_id st) (next_student_id st) (next_course_id st + 1).

(** The module-level [db] literal; [boot] is [date.today()] when the
    module is loaded (the default of the professor's [hire_date]). *)
Definition init_db (boot : date) : db :=
  mkDb
    {[ 1 := Professor.mk 1 "Dr. Alan Turing" "alan.turing@bletchleypark.edu"
              "Computer Science" boot ]}
    {[ 1 := Student.mk 1 "Joan Clarke" "joan.clarke@example.com" "Mathematics" 2
              PyFloat.zero ]}
    {[ 1 := Course.mk 1 "Introduction to Cryptography" "CS101" 3 50 1 0 ]}
    []
    2 2 2.

Definition GRADE_TO_POINTS (g : string) : option PyFloat.float :=
  if decide (g = "A") then Some (PyFloat.of_int 4)
  else if decide (g = "B") then Some (PyFloat.of_int 3)
  else if decide (g = "C") then Some (PyFloat.of_int 2)
  else if decide (g = "D") then Some (PyFloat.of_int 1)
  else if decide (g = "F") then Some PyFloat.zero
  else None.

(** ** Helper functions *)

Abbreviation endpoint := (handler db exception).

Definition truthy_opt (o : option string) : bool :=
  match o with Some s => PyStr.truthy s | None => false end.

Definition student_enrollments (student_id : Z) (d : odict (Z * Z) Enrollment.t)
  : list Enrollment.t :=
  filter (fun e => Enrollment.student_id e = student_id
                   /\ truthy_opt (Enrollment.grade e) = true)
         (od_values d).

Definition gpa_step (cs : gmap Z Course.t) (acc : PyFloat.float * Z)
    (e : Enrollment.t) : PyFloat.float * Z :=
  match cs !! Enrollment.course_id e, Enrollment.grade e ≫= GRADE_TO_POINTS with
  | Some course, Some points =>
      (PyFloat.add acc.1 (PyFloat.mul points (PyFloat.of_int (Course.credits course))),
       acc.2 + Course.credits course)
  | _, _ => acc
  end.

Definition computed_gpa (st : db) (student_id : Z) : PyFloat.float :=
  let '(total_points, total_credits) :=
    fold_left (gpa_step (courses st))
              (student_enrollments student_id (enrollments st))
              (PyFloat.zero, 0) in
  if 0 <? total_credits
  then PyFloat.round2 (PyFloat.div total_points (PyFloat.of_int total_credits))
  else PyFloat.zero.

Definition calculate_gpa (student_id : Z) : endpoint unit :=
  let! st := get in
  match students st !! student_id with
  | None => ret tt
  | Some student =>
      modify (set_students
                (insert student_id
                   (Student.set_gpa (computed_gpa st student_id) student)))
  end.

Definition del_enrollment (key : Z * Z) : endpoint unit :=
  let! st := get in
  if od_mem key (enrollments st)
  then modify (set_enrollments (od_del key))
  else raise KeyError.

Definition decrement_if_present (course_id : Z) : endpoint unit :=
  let! st := get in
  match courses st !! course_id with
  | Some course =>
      modify (set_courses (insert course_id (Course.add_enrolled (-1) course)))
  | None => ret tt
  end.

(** ** Professor endpoints *)

Definition create_professor (today : date) (professor : ProfessorBase)
  : endpoint Professor.t :=
  let! st := get in
  let new_professor :=
    Professor.mk (next_professor_id st) (pb_name professor) (pb_email professor)
      (pb_department professor) today in
  modify (set_professors (insert (next_professor_id st) new_professor)) ;;!
  modify bump_next_professor_id ;;!
  ret new_professor.

Definition update_professor (professor_id : Z) (professor_update : ProfessorBase)
  : endpoint Professor.t :=
  let! st := get in
  match professors st !! professor_id with
  | None => raise (HTTPException 404 "Professor not found")
  | Some professor =>
      let professor' :=
        fold_left Professor.setattr (dump_professor_update professor_update) professor in
      modify (set_professors (insert professor_id professor')) ;;!
      ret professor'
  end.

Definition delete_professor (professor_id : Z) : endpoint unit :=
  let! st := get in
  if decide (is_Some (professors st !! professor_id)) then
    if decide (map_Exists (fun _ c => Course.professor_id c = professor_id) (courses st))
    then raise (HTTPException 400 "Cannot delete professor. Reassign courses first")
    else modify (set_professors (delete professor_id))
  else raise (HTTPException 404 "Professor not found").

(** ** Student endpoints *)

Definition create_student (student : StudentBase) : endpoint Student.t :=
  let! st := get in
  let new_student :=
    Student.mk (next_student_id st) (sb_name student) (sb_email student)
      (sb_major student) (sb_year student) PyFloat.zero in
  modify (set_students (insert (next_student_id st) new_student)) ;;!
  modify bump_next_student_id ;;!
  ret new_student.

Definition update_student (student_id : Z) (student_update : StudentBase)
  : endpoint Student.t :=
  let! st := get in
  match students st !! student_id with
  | None => raise (HTTPException 404 "Student not found")
  | Some student =>
      let student' :=
        fold_left Student.setattr (dump_student_update student_update) student in
      modify (set_students (insert student_id student')) ;;!
      ret student'
  end.

Definition keys_where (P : Enrollment.t -> Prop) `{forall e, Decision (P e)}
    (d : odict (Z * Z) Enrollment.t) : list (Z * Z) :=
  od_keys (filter (fun kv => P kv.2) d).

Definition delete_student (student_id : Z) : endpoint unit :=
  let! st := get in
  if decide (is_Some (students st !! student_id)) then
    let enrollments_to_delete :=
      keys_where (fun e => Enrollment.student_id e = student_id) (enrollments st) in
    for_each enrollments_to_delete (fun key =>
      decrement_if_present key.2 ;;!
      del_enrollment key) ;;!
    modify (set_students (delete student_id))
  else raise (HTTPException 404 "Student not found").

(** ** Course endpoints *)

(** [HTTPException(404, f"Professor with id {pid} not found")] *)
Definition professor_not_found (pid : Z) : exception :=
  HTTPException 404 ("Professor with id " +:+ pretty pid +:+ " not found").

Definition create_course (course : CourseCreate) : endpoint Course.t :=
  let! st := get in
  if decide (is_Some (professors st !! cc_professor_id course)) then
    let new_course :=
      Course.mk (next_course_id st) (cc_name course) (cc_code course)
        (cc_credits course) (cc_max_capacity course) (cc_professor_id course) 0 in
    modify (set_courses (insert (next_course_id st) new_course)) ;;!
    modify bump_next_course_id ;;!
    ret new_course
  else raise (professor_not_found (cc_professor_id course)).

Definition update_course (course_id : Z) (course_update : CourseUpdate)
  : endpoint Course.t :=
  let! st := get in
  match courses st !! course_id with
  | None => raise (HTTPException 404 "Course not found")
  | Some course =>
      match cu_professor_id course_update with
      | Some pid =>
          if decide (is_Some (professors st !! pid)) then ret tt
          else raise (professor_not_found pid)
      | None => ret tt
      end ;;!
      let course' :=
        fold_left Course.setattr (dump_course_update course_update) course in
      modify (set_courses (insert course_id course')) ;;!
      ret course'
  end.

Definition delete_course (course_id : Z) : endpoint unit :=
  let! st := get in
  if decide (is_Some (courses st !! course_id)) then
    let enrollments_to_delete :=
      keys_where (fun e => Enrollment.course_id e = course_id) (enrollments st) in
    for_each enrollments_to_delete del_enrollment ;;!
    modify (set_courses (delete course_id))
  else raise (HTTPException 404 "Course not found").

(** ** Enrollment endpoints *)

Definition enroll_student_in_course (today : date) (enrollment : EnrollmentCreate)
  : endpoint Enrollment.t :=
  let student_id := ec_student_id enrollment in
  let course_id := ec_course_id enrollment in
  let! st := get in
  if decide (is_Some (students st !! student_id)) then
    match courses st !! course_id with
    | None => raise (HTTPException 404 "Course not found")
    | Some course =>
        if Course.max_capacity course <=? Course.enrolled_students course
        then raise (HTTPException 400 "Course is full")
        else if od_mem (student_id, course_id) (enrollments st)
        then raise (HTTPException 400 "Student is already enrolled in this course")
        else
          let new_enrollment := Enrollment.mk student_id course_id today None in
          modify (set_enrollments (od_set (student_id, course_id) new_enrollment)) ;;!
          modify (set_courses (insert course_id (Course.add_enrolled 1 course))) ;;!
          ret new_enrollment
    end
  else raise (HTTPException 404 "Student not found").

Definition update_enrollment_grade (student_id course_id : Z) (grade : string)
  : endpoint Enrollment.t :=
  if decide (is_Some (GRADE_TO_POINTS (PyStr.upper grade))) then
    let enrollment_key := (student_id, course_id) in
    let! st := get in
    match od_get enrollment_key (enrollments st) with
    | None => raise (HTTPException 404 "Enrollment record not found")
    | Some enrollment =>
        let enrollment' := Enrollment.set_grade (PyStr.upper grade) enrollment in
        modify (set_enrollments (od_set enrollment_key enrollment')) ;;!
        calculate_gpa student_id ;;!
        ret enrollment'
    end
  else raise (HTTPException 400 "Invalid grade. Must be one of A, B, C, D, F.").

Definition drop_course (student_id course_id : Z) : endpoint unit :=
  let enrollment_key := (student_id, course_id) in
  let! st := get in
  if od_mem enrollment_key (enrollments st) then
    decrement_if_present course_id ;;!
    del_enrollment enrollment_key ;;!
    calculate_gpa student_id
  else raise (HTTPException 404 "Enrollment record not found").

(** ** Request bodies of the updates

    The JSON body of a [PUT], key by key: [None] when the key is absent.
    [ProfessorUpdate] and [StudentUpdate] declare every field with
    [Field(...)], so a body that omits one does not validate;
    [CourseUpdate] adds the optional [professor_id]. *)
Record ProfessorUpdateBody := mkProfessorUpdateBody
  { pub_name : option string; pub_email : option string;
    pub_department : option string }.

Record StudentUpdateBody := mkStudentUpdateBody
  { sub_name : option string; sub_email : option string;
    sub_major : option string; sub_year : option Z }.

Record CourseUpdateBody := mkCourseUpdateBody
  { cub_name : option string; cub_code : option string; cub_credits : option Z;
    cub_max_capacity : option Z; cub_professor_id : option Z }.

Definition parse_ProfessorUpdate (b : ProfessorUpdateBody) : option ProfessorBase :=
  match pub_name b, pub_email b, pub_department b with
  | Some n, Some e, Some d => Some (mkProfessorBase n e d)
  | _, _, _ => None
  end.

Definition parse_StudentUpdate (b : StudentUpdateBody) : option StudentBase :=
  match sub_name b, sub_email b, sub_major b, sub_year b with
  | Some n, Some e, Some m, Some y => Some (mkStudentBase n e m y)
  | _, _, _, _ => None
  end.

Definition parse_CourseUpdate (b : CourseUpdateBody) : option CourseUpdate :=
  match cub_name b, cub_code b, cub_credits b, cub_max_capacity b with
  | Some n, Some c, Some cr, Some m => Some (mkCourseUpdate n c cr m (cub_professor_id b))
  | _, _, _, _ => None
  end.

(** [PUT /professors/{professor_id}], [PUT /students/{student_id}] and
    [PUT /courses/{course_id}] as FastAPI serves them. *)
Definition put_professor (professor_id : Z) (b : ProfessorUpdateBody) (st : db)
  : http_result exception Professor.t * db :=
  match parse_ProfessorUpdate b with
  | None => (Unprocessable, st)
  | Some u => let '(r, st') := update_professor professor_id u st in (Handled r, st')
  end.

Definition put_student (student_id : Z) (b : StudentUpdateBody) (st : db)
  : http_result exception Student.t * db :=
  match parse_StudentUpdate b with
  | None => (Unprocessable, st)
  | Some u => let '(r, st') := update_student student_id u st in (Handled r, st')
  end.

Definition put_course (course_id : Z) (b : CourseUpdateBody) (st : db)
  : http_result exception Course.t * db :=
  match parse_CourseUpdate b with
  | None => (Unprocessable, st)
  | Some u => let '(r, st') := update_course course_id u st in (Handled r, st')
  end.

(** ** The service as a transition system *)
Inductive request :=
| CreateProfessor (professor : ProfessorBase)
| UpdateProfessor (professor_id : Z) (professor_update : ProfessorBase)
| DeleteProfessor (professor_id : Z)
| CreateStudent (student : StudentBase)
| UpdateStudent (student_id : Z) (student_update : StudentBase)
| DeleteStudent (student_id : Z)
| CreateCourse (course : CourseCreate)
| UpdateCourse (course_id : Z) (course_update : CourseUpdate)
| DeleteCourse (course_id : Z)
| Enroll (enrollment : EnrollmentCreate)
| Grade (student_id course_id : Z) (grade : string)
| Drop (student_id course_id : Z).

Definition serve (today : date) (r : request) (st : db) : db :=
  match r with
  | CreateProfessor d => (create_professor today d st).2
  | UpdateProfessor i u => (update_professor i u st).2
  | DeleteProfessor i => (delete_professor i st).2
  | CreateStudent d => (create_student d st).2
  | UpdateStudent i u => (update_student i u st).2
  | DeleteStudent i => (delete_student i st).2
  | CreateCourse d => (create_course d st).2
  | UpdateCourse i u => (update_course i u st).2
  | DeleteCourse i => (delete_course i st).2
  | Enroll d => (enroll_student_in_course today d st).2
  | Grade s c g => (update_enrollment_grade s c g st).2
  | Drop s c => (drop_course s c st).2
  end.

Inductive reachable : db -> Prop :=
| reachable_init boot : reachable (init_db boot)
| reachable_serve st today r : reachable st -> reachable (serve today r st).

(** ** Predicates of the specification *)

Definition live_enrollments (course_id : Z) (d : odict (Z * Z) Enrollment.t) : Z :=
  Z.of_nat (length (filter (fun kv => Enrollment.course_id kv.2 = course_id) d)).

Definition pairs (d : odict (Z * Z) Enrollment.t) : list (Z * Z) :=
  (fun kv => (Enrollment.student_id kv.2, Enrollment.course_id kv.2)) <$> d.

Definition enrolled (st : db) (student_id course_id : Z) : Prop :=
  (student_id, course_id) ∈ pairs (enrollments st).

Definition counts_ok_on (P : Z -> Prop) (st : db) : Prop :=
  forall k c, P k -> courses st !! k = Some c ->
    Course.enrolled_students c = live_enrollments k (enrollments st).

Definition counts_ok : db -> Prop := counts_ok_on (fun _ => True).

Record consistent (st : db) : Prop := mkConsistent
  { course_ids : forall k c, courses st !! k = Some c -> k < next_course_id st;
    enrollment_keys : od_wf (enrollments st);
    enrollment_key_fields : forall k e, (k, e) ∈ enrollments st ->
                   k = (Enrollment.student_id e, Enrollment.course_id e);
    enrollment_refs : forall k e, (k, e) ∈ enrollments st ->
                   is_Some (students st !! Enrollment.student_id e)
                   /\ is_Some (courses st !! Enrollment.course_id e) }.

Definition wf (st : db) : Prop := consistent st /\ counts_ok st.

(** ** The stores the helpers and endpoints produce *)

Definition with_gpa (student_id : Z) (st : db) : db :=
  match students st !! student_id with
  | Some student =>
      set_students
        (insert student_id (Student.set_gpa (computed_gpa st student_id) student)) st
  | None => st
  end.

Definition decremented (course_id : Z) (st : db) : db :=
  match courses st !! course_id with
  | Some course =>
      set_courses (insert course_id (Course.add_enrolled (-1) course)) st
  | None => st
  end.

Definition enrolled_state (today : date) (s c : Z) (course : Course.t) (st : db) : db :=
  set_courses (insert c (Course.add_enrolled 1 course))
    (set_enrollments (od_set (s, c) (Enrollment.mk s c today None)) st).

#[global] Instance simple_enrolled_dec st student_id course_id :
  Decision (enrolled st student_id course_id).
Proof. unfold enrolled. apply _. Defined.

(** The exception a request ends with, if it raises. *)
Definition error_of {A} (r : exception + A) : option exception :=
  match r with inl e => Some e | inr _ => None end.

Definition raised (today : date) (r : request) (st : db) : option exception :=
  match r with
  | CreateProfessor d => error_of (create_professor today d st).1
  | UpdateProfessor i u => error_of (update_professor i u st).1
  | DeleteProfessor i => error_of (delete_professor i st).1
  | CreateStudent d => error_of (create_student d st).1
  | UpdateStudent i u => error_of (update_student i u st).1
  | DeleteStudent i => error_of (delete_student i st).1
  | CreateCourse d => error_of (create_course d st).1
  | UpdateCourse i u => error_of (update_course i u st).1
  | DeleteCourse i => error_of (delete_course i st).1
  | Enroll d => error_of (enroll_student_in_course today d st).1
  | Grade s c g => error_of (update_enrollment_grade s c g st).1
  | Drop s c => error_of (drop_course s c st).1
  end.

(** ** Read endpoints *)

Definition get_all_professors : endpoint (list Professor.t) :=
  let! st := get in ret (dict_values (professors st)).

Definition get_professor (professor_id : Z) : endpoint Professor.t :=
  let! st := get in
  match professors st !! professor_id with
  | None => raise (HTTPException 404 "Professor not found")
  | Some professor => ret professor
  end.

Definition get_all_students : endpoint (list Student.t) :=
  let! st := get in ret (dict_values (students st)).

Definition get_student (student_id : Z) : endpoint Student.t :=
  let! st := get in
  match students st !! student_id with
  | None => raise (HTTPException 404 "Student not found")
  | Some student => ret student
  end.

Definition get_all_courses : endpoint (list Course.t) :=
  let! st := get in ret (dict_values (courses st)).

Definition get_course (course_id : Z) : endpoint Course.t :=
  let! st := get in
  match courses st !! course_id with
  | None => raise (HTTPException 404 "Course not found")
  | Some course => ret course
  end.

Definition get_all_enrollments : endpoint (list Enrollment.t) :=
  let! st := get in
  ret (od_values (enrollments st)).

Definition get_student_courses (student_id : Z) : endpoint (list Course.t) :=
  let! st := get in
  if decide (is_Some (students st !! student_id)) then
    let enrolled_course_ids :=
      Enrollment.course_id
        <$> filter (fun e => Enrollment.student_id e = student_id)
                   (od_values (enrollments st)) in
    let student_courses := omap (fun cid => courses st !! cid) enrolled_course_ids in
    ret student_courses
  else raise (HTTPException 404 "Student not found").

Definition get_course_roster (course_id : Z) : endpoint (list Student.t) :=
  let! st := get in
  if decide (is_Some (courses st !! course_id)) then
    let enrolled_student_ids :=
      Enrollment.student_id
        <$> filter (fun e => Enrollment.course_id e = course_id)
                   (od_values (enrollments st)) in
    let course_roster := omap (fun sid => students st !! sid) enrolled_student_ids in
    ret course_roster
  else raise (HTTPException 404 "Course not found").

Definition get_professor_teaching_schedule (professor_id : Z)
  : endpoint (list Course.t) :=
  let! st := get in
  if decide (is_Some (professors st !! professor_id)) then
    let professor_courses :=
      filter (fun c => Course.professor_id c = professor_id)
             (dict_values (courses st)) in
    ret professor_courses
  else raise (HTTPException 404 "Professor not found").

(** ** Further invariants of the store *)

Record ids_issued (st : db) : Prop := mkIdsIssued
  { professor_ids_issued : forall k p, professors st !! k = Some p ->
      Professor.id p = k /\ k < next_professor_id st;
    student_ids_issued : forall k s, students st !! k = Some s ->
      Student.id s = k /\ k < next_student_id st;
    course_ids_issued : forall k c, courses st !! k = Some c ->
      Course.id c = k /\ k < next_course_id st }.

Definition professors_live (st : db) : Prop :=
  forall k c, courses st !! k = Some c ->
    is_Some (professors st !! Course.professor_id c).

(** Every grade in the store is a key of [GRADE_TO_POINTS]. *)
Definition grades_valid (st : db) : Prop :=
  forall k e g, (k, e) ∈ enrollments st -> Enrollment.grade e = Some g ->
    is_Some (GRADE_TO_POINTS g).

(** The courses of [st1] are those of [st] up to [enrolled_students]:
    what a cascading delete may change in the courses it does not remove. *)
Definition courses_recounted (st st1 : db) : Prop :=
  forall k, option_Forall2 (fun c1 c => exists n, c1 = Course.add_enrolled n c)
              (courses st1 !! k) (courses st !! k).

End Simple.

(* ===================================================================== *)
(** * Concrete runs *)
(* ===================================================================== *)

(** Requests served one after the other from the initial store; the
    examples below evaluate the handlers on them. *)
Module Scenario.

Definition day : date := Date 2025 9 1.

(** Enhanced service: student 1 is graded A in course 1, then course 1 is
    deleted. *)
Definition graded : Enhanced.db :=
  Enhanced.serve day (Enhanced.Grade 1 1 "A") (Enhanced.init_db day).

Definition course_deleted : Enhanced.db :=
  Enhanced.serve day (Enhanced.DeleteCourse 1) graded.

(** Enhanced service: a second student is created. *)
Definition second_student : Enhanced.db :=
  Enhanced.serve day
    (Enhanced.CreateStudent
       (Enhanced.mkStudentCreate "Ada Lovelace" "ada@example.com" "Mathematics" 1))
    (Enhanced.init_db day).

(** Enhanced service: a course with one seat is created and student 1
    takes the seat. *)
Definition seminar : Enhanced.CourseCreate :=
  Enhanced.mkCourseCreate "Seminar" "CS900" 3 1 1.

Definition seminar_full : Enhanced.db :=
  Enhanced.serve day (Enhanced.Enroll (Enhanced.mkEnrollmentCreate 1 2))
    (Enhanced.serve day (Enhanced.CreateCourse seminar) (Enhanced.init_db day)).

(** Enhanced service: student 1 has an A in the 3-credit course 1 and a B
    in a new 4-credit course 2, and then drops course 1. *)
Definition two_grades : Enhanced.db :=
  Enhanced.serve day (Enhanced.Grade 1 2 "B")
    (Enhanced.serve day (Enhanced.Grade 1 1 "A")
       (Enhanced.serve day (Enhanced.Enroll (Enhanced.mkEnrollmentCreate 1 2))
          (Enhanced.serve day
             (Enhanced.CreateCourse (Enhanced.mkCourseCreate "Algorithms" "CS201" 4 30 1))
             (Enhanced.init_db day)))).

Definition one_grade_left : Enhanced.db :=
  Enhanced.serve day (Enhanced.Drop 1 1) two_grades.

(** A store of the enhanced service whose only enrollment names a course
    that is not there (no sequence of requests leads to it). *)
Definition orphan : Enhanced.db :=
  Enhanced.set_courses (delete 1) (Enhanced.init_db day).

(** Simple service: student 1 enrolls in course 1 and is graded A; then
    course 1 is deleted. *)
Definition simple_graded : Simple.db :=
  Simple.serve day (Simple.Grade 1 1 "A")
    (Simple.serve day (Simple.Enroll (Simple.mkEnrollmentCreate 1 1))
       (Simple.init_db day)).

Definition simple_course_deleted : Simple.db :=
  Simple.serve day (Simple.DeleteCourse 1) simple_graded.

(** Simple service: a course with one seat, taken by student 1. *)
Definition simple_seminar_full : Simple.db :=
  Simple.serve day (Simple.Enroll (Simple.mkEnrollmentCreate 1 2))
    (Simple.serve day
       (Simple.CreateCourse (Simple.mkCourseCreate "Seminar" "CS900" 3 1 1))
       (Simple.init_db day)).

(** Simple service: a second student signs up with the email of student 1. *)
Definition twin : Simple.StudentBase :=
  Simple.mkStudentBase "Jane Clark" "joan.clarke@example.com" "Physics" 1.

(** Simple service: a [PUT /students/1] whose body only carries [name]. *)
Definition name_only : Simple.StudentUpdateBody :=
  Simple.mkStudentUpdateBody (Some "Joan Murray") None None None.

(** Both services: the one-seat seminar is created and nobody has
    enrolled in it yet. *)
Definition seminar_open : Enhanced.db :=
  Enhanced.serve day (Enhanced.CreateCourse seminar) (Enhanced.init_db day).

Definition simple_seminar_open : Simple.db :=
  Simple.serve day
    (Simple.CreateCourse (Simple.mkCourseCreate "Seminar" "CS900" 3 1 1))
    (Simple.init_db day).

(** Enhanced service: two more professors are hired, one of them in a
    department written ["computer science"]. *)
Definition faculty : Enhanced.db :=
  Enhanced.serve day
    (Enhanced.CreateProfessor
       (Enhanced.mkProfessorCreate "Dr. Emmy Noether" "emmy.noether@example.edu"
          "Mathematics" (Date 1915 4 1)))
    (Enhanced.serve day
       (Enhanced.CreateProfessor
          (Enhanced.mkProfessorCreate "Dr. Grace Hopper" "grace.hopper@yale.edu"
             "computer science" (Date 1959 1 1)))
       (Enhanced.init_db day)).

(** The errors of a request body with two complaints about [credits]
    and one about [code]. *)
Definition body_errors : list Enhanced.validation_error :=
  [Enhanced.mkValidationError [Enhanced.LocStr "body"; Enhanced.LocStr "credits"]
     "Input should be greater than or equal to 1";
   Enhanced.mkValidationError [Enhanced.LocStr "body"; Enhanced.LocStr "code"]
     "Value error, Invalid course code format.";
   Enhanced.mkValidationError [Enhanced.LocStr "body"; Enhanced.LocStr "credits"]
     "Input should be a valid integer"].

End Scenario.

(* ===================================================================== *)
(** * Facts about the Python model *)
(* ===================================================================== *)

#[local] Set Warnings "-clear-no-such-hyp".

(** [round((4.0*3 + 3.0*4) / 7, 2) == 3.43], bit for bit. *)
Example round2_24_7 :
  PyFloat.round2 (PyFloat.div (PyFloat.of_int 24) (PyFloat.of_int 7))
  = S754_finite false 0x1b70a3d70a3d71 (-51).
Proof. vm_compute. reflexivity. Qed.

(** [round(0.125, 2) == 0.12] (an exact tie goes to the even digit) and
    [round(2.675, 2) == 2.67] (the double below the decimal tie). *)
Example round2_ties :
  PyFloat.round2 (PyFloat.div (PyFloat.of_int 1) (PyFloat.of_int 8))
  = PyFloat.of_hundredths 12
  /\ PyFloat.round2 (PyFloat.div (PyFloat.of_int 107) (PyFloat.of_int 40))
     = PyFloat.of_hundredths 267.
Proof. vm_compute. split; reflexivity. Qed.

Example match_course_code_examples :
  PyStr.match_course_code "CS101" = true
  /\ PyStr.match_course_code "MATH203" = true
  /\ PyStr.match_course_code "cs101" = false
  /\ PyStr.match_course_code "C1234" = false
  /\ PyStr.match_course_code "ABCDE123" = false
  /\ PyStr.match_course_code "CS1012" = false
  /\ PyStr.upper "cs101" = "CS101".
Proof. vm_compute. repeat split; reflexivity. Qed.

(** The gpa round trip of the specification: an A in 3 credits and a B in
    4 credits give [round(24.0 / 7, 2) == 3.43]; after the A is dropped the
    gpa is 3.0, and the student is not on probation. *)
Example gpa_round_trip :
  (Enhanced.Student.gpa <$> Enhanced.students Scenario.two_grades !! 1)
  = Some (PyFloat.of_hundredths 343)
  /\ ((fun s => (Enhanced.Student.gpa s, Enhanced.Student.academic_probation s))
        <$> Enhanced.students Scenario.one_grade_left !! 1)
     = Some (PyFloat.of_int 3, false).
Proof. split; by vm_compute. Qed.

(** ** Ordered dictionaries *)

Section odict_facts.
Context {K V : Type} `{EqDecision K}.
Implicit Types (k : K) (v : V) (d : odict K V).

Lemma od_get_elem k v d : od_get k d = Some v -> (k, v) ∈ d.
Proof.
  induction d as [|[k' v'] d IH]; simpl; [done|].
  case_decide; intros ?; simplify_eq; [left | right; auto].
Qed.

Lemma od_get_None k d : od_get k d = None <-> k ∉ od_keys d.
Proof.
  unfold od_keys. induction d as [|[k' v'] d IH]; simpl.
  - split; [intros _; apply not_elem_of_nil | done].
  - rewrite not_elem_of_cons, <- IH. case_decide; subst; [|tauto].
    split; [done | by intros [? _]].
Qed.

Lemma od_get_is_Some k d : is_Some (od_get k d) <-> k ∈ od_keys d.
Proof.
  destruct (od_get k d) eqn:E.
  - split; [intros _|eauto]. apply od_get_elem in E.
    unfold od_keys. apply list_elem_of_fmap. by exists (k, v).
  - apply od_get_None in E. split; [by intros [? ?] | done].
Qed.

Lemma od_get_wf k v d : od_wf d -> (k, v) ∈ d -> od_get k d = Some v.
Proof.
  unfold od_wf, od_keys. induction d as [|[k' v'] d IH]; simpl.
  - intros _ ?%elem_of_nil. done.
  - rewrite NoDup_cons. intros [Hk Hd] [?|Hin]%elem_of_cons; simplify_eq.
    + by rewrite decide_True.
    + rewrite decide_False; [auto|]. intros ->. apply Hk.
      apply list_elem_of_fmap. by exists (k', v).
Qed.

Lemma od_mem_spec k d : od_mem k d = true <-> is_Some (od_get k d).
Proof. unfold od_mem. apply bool_decide_eq_true. Qed.

Lemma od_mem_false k d : od_mem k d = false <-> od_get k d = None.
Proof.
  unfold od_mem. rewrite bool_decide_eq_false, eq_None_not_Some. done.
Qed.

Lemma od_set_fresh k v d : od_get k d = None -> od_set k v d = d ++ [(k, v)].
Proof.
  induction d as [|[k' v'] d IH]; simpl; [done|].
  case_decide; [done|]. intros ?. by rewrite IH.
Qed.

Lemma od_set_same k v d : od_get k d = Some v -> od_set k v d = d.
Proof.
  induction d as [|[k' v'] d IH]; simpl; [done|].
  case_decide; intros ?; simplify_eq; [done|]. by rewrite IH.
Qed.

Lemma od_get_set_eq k v d : od_get k (od_set k v d) = Some v.
Proof.
  induction d as [|[k' v'] d IH]; simpl.
  - by rewrite decide_True.
  - case_decide; simpl; [by rewrite decide_True | by rewrite decide_False].
Qed.

Lemma od_get_set_ne k k' v d : k <> k' -> od_get k' (od_set k v d) = od_get k' d.
Proof.
  intros Hne. induction d as [|[k1 v1] d IH]; simpl.
  - by rewrite decide_False.
  - case_decide; simpl; subst.
    + by rewrite !decide_False.
    + case_decide; auto.
Qed.

Lemma od_set_fmap {B} (f : K * V -> B) k v v0 d :
  od_get k d = Some v0 -> f (k, v) = f (k, v0) ->
  f <$> od_set k v d = f <$> d.
Proof.
  intros Hget Hf. induction d as [|[k' v'] d IH]; simpl in *; [done|].
  case_decide; simplify_eq; simpl; [by rewrite Hf | f_equal; auto].
Qed.

Lemma od_set_elem k k' v v' d :
  (k', v') ∈ od_set k v d -> (k', v') ∈ d \/ (k', v') = (k, v).
Proof.
  induction d as [|[k1 v1] d IH]; simpl.
  - intros ?%list_elem_of_singleton. by right.
  - case_decide; subst.
    + intros [?|?]%elem_of_cons; [by right | left; by right].
    + intros [?|?]%elem_of_cons; [left; simplify_eq; left|].
      destruct IH as [?|?]; [done | left; by right | by right].
Qed.

Lemma od_del_sublist k d : od_del k d `sublist_of` d.
Proof.
  induction d as [|[k' v'] d IH]; simpl; [done|].
  case_decide; [by apply sublist_cons | by apply sublist_skip].
Qed.

Lemma od_del_elem k k' v d : (k', v) ∈ od_del k d -> (k', v) ∈ d.
Proof. apply sublist_subseteq, od_del_sublist. Qed.

Lemma od_del_wf k d : od_wf d -> od_wf (od_del k d).
Proof.
  unfold od_wf, od_keys. intros Hd. eapply sublist_NoDup; [exact Hd|].
  apply fmap_sublist, od_del_sublist.
Qed.

Lemma od_del_elem_key k k' v d : od_wf d -> (k', v) ∈ od_del k d -> k' <> k.
Proof.
  unfold od_wf, od_keys. induction d as [|[k1 v1] d IH]; simpl.
  - intros _ ?%elem_of_nil. done.
  - rewrite NoDup_cons. intros [Hk Hd]. case_decide; subst.
    + intros Hin ->. apply Hk, list_elem_of_fmap. by exists (k1, v).
    + intros [?|Hin]%elem_of_cons; simplify_eq; [congruence | auto].
Qed.

Lemma od_del_elem_ne k k' v d : (k', v) ∈ d -> k' <> k -> (k', v) ∈ od_del k d.
Proof.
  intros Hin Hne. induction d as [|[k1 v1] d IH]; simpl; [done|].
  apply elem_of_cons in Hin as [?|Hin]; simplify_eq.
  - rewrite decide_False by done. left.
  - case_decide; [done | right; auto].
Qed.

Lemma od_get_del_ne k k' d : k <> k' -> od_get k' (od_del k d) = od_get k' d.
Proof.
  intros Hne. induction d as [|[k1 v1] d IH]; simpl; [done|].
  case_decide; subst; simpl.
  - by rewrite decide_False.
  - case_decide; auto.
Qed.

Lemma od_del_filter_length (P : K * V -> Prop) `{forall x, Decision (P x)} k v d :
  od_get k d = Some v ->
  length (filter P d)
  = (length (filter P (od_del k d)) + (if decide (P (k, v)) then 1 else 0))%nat.
Proof.
  induction d as [|[k' v'] d IH]; cbn [od_get od_del]; [done|].
  destruct (decide (k = k')) as [->|Hne]; intros ?; simplify_eq.
  - rewrite filter_cons. destruct (decide (P (k', v))); simpl; lia.
  - rewrite !filter_cons. specialize (IH ltac:(done)).
    destruct (decide (P (k', v'))); simpl; lia.
Qed.

Lemma od_set_filter_length (P : K * V -> Prop) `{forall x, Decision (P x)} k v v0 d :
  od_get k d = Some v0 -> (P (k, v) <-> P (k, v0)) ->
  length (filter P (od_set k v d)) = length (filter P d).
Proof.
  intros Hget HP. induction d as [|[k' v'] d IH]; cbn [od_get od_set] in *; [done|].
  destruct (decide (k = k')) as [->|Hne]; simplify_eq.
  - rewrite !filter_cons.
    destruct (decide (P (k', v))), (decide (P (k', v0))); simpl; tauto || lia.
  - rewrite !filter_cons. specialize (IH ltac:(done)).
    destruct (decide (P (k', v'))); simpl; lia.
Qed.

Lemma od_keys_filter_elem (P : K * V -> Prop) `{forall x, Decision (P x)} k d :
  k ∈ od_keys (filter P d) <-> exists v, (k, v) ∈ d /\ P (k, v).
Proof.
  unfold od_keys. rewrite list_elem_of_fmap. split.
  - intros [[k' v] [-> [? ?]%list_elem_of_filter]]. eauto.
  - intros [v [? ?]]. exists (k, v). split; [done|]. by apply list_elem_of_filter.
Qed.

Lemma od_keys_filter_NoDup (P : K * V -> Prop) `{forall x, Decision (P x)} d :
  od_wf d -> NoDup (od_keys (filter P d)).
Proof.
  unfold od_wf, od_keys. intros Hd. eapply sublist_NoDup; [exact Hd|].
  apply fmap_sublist, sublist_filter.
Qed.

End odict_facts.

(** ** Handlers *)

Section handler_facts.
Context {S E : Type}.

(** A loop whose body never raises under an invariant runs to the end
    and keeps the invariant. *)
Lemma for_each_inv {A} (I : list A -> S -> Prop) (body : A -> handler S E unit) xs s :
  I xs s ->
  (forall x xs' s0, I (x :: xs') s0 -> exists s1, body x s0 = (inr tt, s1) /\ I xs' s1) ->
  exists s', for_each xs body s = (inr tt, s') /\ I [] s'.
Proof.
  intros HI Hstep. revert s HI. induction xs as [|x xs IH]; intros s HI; simpl.
  - exists s. done.
  - destruct (Hstep _ _ _ HI) as [s1 [Hb HI1]].
    unfold bind. rewrite Hb. auto.
Qed.

End handler_facts.

(** ** The enhanced service *)

Module EnhancedFacts.
Import Enhanced.

(** ** The enhanced service: enrollments *)


Lemma enrollment_key_inj n m : enrollment_key n = enrollment_key m -> n = m.
Proof.
  unfold enrollment_key. intros H. apply (inj pretty).
  by simplify_eq/=.
Qed.

Lemma enrollment_key_truthy n : PyStr.truthy (enrollment_key n) = true.
Proof. reflexivity. Qed.

Lemma find_enrollment_key_Some s c d k :
  find_enrollment_key s c d = Some k ->
  exists e, (k, e) ∈ d /\ Enrollment.student_id e = s /\ Enrollment.course_id e = c.
Proof.
  induction d as [|[k' e'] d IH]; simpl; [done|].
  case_decide as Hm.
  - intros ?; simplify_eq. exists e'. destruct Hm. repeat split; [left | done..].
  - intros [e [? ?]]%IH. exists e. split; [by right | done].
Qed.

Lemma find_enrollment_key_None s c d :
  find_enrollment_key s c d = None <-> (s, c) ∉ pairs d.
Proof.
  unfold pairs. induction d as [|[k' e'] d IH]; simpl.
  - split; [intros _; apply not_elem_of_nil | done].
  - rewrite not_elem_of_cons, <- IH. case_decide as Hm.
    + destruct Hm as [<- <-]. split; [done | by intros [? _]].
    + split; [|tauto]. intros ?. split; [|done]. intros ?. simplify_eq. tauto.
Qed.

Lemma find_enrollment_key_get s c d k :
  find_enrollment_key s c d = Some k -> is_Some (od_get k d).
Proof.
  intros [e [Hin _]]%find_enrollment_key_Some.
  apply od_get_is_Some. unfold od_keys. apply list_elem_of_fmap. by exists (k, e).
Qed.

Lemma enrolled_find st s c :
  enrolled st s c <-> is_Some (get_enrollment_key_by_ids st s c).
Proof.
  unfold enrolled, get_enrollment_key_by_ids.
  destruct (find_enrollment_key s c (enrollments st)) eqn:E.
  - split; [eauto|]. intros _. destruct (decide ((s, c) ∈ pairs (enrollments st))); [done|].
    apply find_enrollment_key_None in n. congruence.
  - apply find_enrollment_key_None in E. split; [done | by intros [? ?]].
Qed.

(** The enrollment found for a pair is the one stored under the key. *)
Lemma find_enrollment_key_wf s c d k :
  od_wf d -> find_enrollment_key s c d = Some k ->
  exists e, od_get k d = Some e
            /\ Enrollment.student_id e = s /\ Enrollment.course_id e = c.
Proof.
  intros Hwf [e [Hin ?]]%find_enrollment_key_Some.
  exists e. split; [by apply od_get_wf | done].
Qed.

(** *** Counting live enrollments *)

Lemma live_enrollments_nonneg c d : 0 <= live_enrollments c d.
Proof. unfold live_enrollments. lia. Qed.

Lemma live_enrollments_app c d k e :
  live_enrollments c (d ++ [(k, e)])
  = live_enrollments c d + (if decide (Enrollment.course_id e = c) then 1 else 0).
Proof.
  unfold live_enrollments. rewrite filter_app, length_app, filter_cons, filter_nil.
  simpl. case_decide; simpl; lia.
Qed.

Lemma live_enrollments_del c d k e :
  od_get k d = Some e ->
  live_enrollments c (od_del k d)
  = live_enrollments c d - (if decide (Enrollment.course_id e = c) then 1 else 0).
Proof.
  intros Hget. unfold live_enrollments.
  rewrite (od_del_filter_length _ k e d Hget). simpl.
  case_decide; lia.
Qed.

Lemma live_enrollments_set c d k e e' :
  od_get k d = Some e -> Enrollment.course_id e' = Enrollment.course_id e ->
  live_enrollments c (od_set k e' d) = live_enrollments c d.
Proof.
  intros Hget Hc. unfold live_enrollments. f_equal.
  apply (od_set_filter_length _ k e' e d Hget). simpl. by rewrite Hc.
Qed.

Lemma live_enrollments_zero c d :
  (forall k e, (k, e) ∈ d -> Enrollment.course_id e <> c) -> live_enrollments c d = 0.
Proof.
  unfold live_enrollments. induction d as [|[k e] d IH]; intros H; [done|].
  rewrite filter_cons_False.
  - apply IH. intros k' e' Hin. apply (H k' e'). by right.
  - simpl. apply (H k e). left.
Qed.

Lemma live_enrollments_pos c d k e :
  (k, e) ∈ d -> Enrollment.course_id e = c -> 1 <= live_enrollments c d.
Proof.
  intros Hin Hc. unfold live_enrollments.
  assert ((k, e) ∈ filter (fun kv => Enrollment.course_id kv.2 = c) d) as Hf
    by (by apply list_elem_of_filter).
  destruct (filter _ d); [by apply elem_of_nil in Hf | simpl; lia].
Qed.

(** *** Attribute updates keep what they do not name *)

Lemma course_setattr_fixed l c :
  Course.id (fold_left Course.setattr l c) = Course.id c
  /\ Course.enrolled_students (fold_left Course.setattr l c)
     = Course.enrolled_students c.
Proof.
  revert c. induction l as [|a l IH]; intros c; simpl; [done|].
  destruct (IH (Course.setattr c a)) as [-> ->]. by destruct a.
Qed.

Lemma student_setattr_fixed l s :
  Student.id (fold_left Student.setattr l s) = Student.id s
  /\ Student.gpa (fold_left Student.setattr l s) = Student.gpa s
  /\ Student.academic_probation (fold_left Student.setattr l s)
     = Student.academic_probation s.
Proof.
  revert s. induction l as [|a l IH]; intros s; simpl; [done|].
  destruct (IH (Student.setattr s a)) as (-> & -> & ->). by destruct a.
Qed.

Lemma professor_setattr_fixed l p :
  Professor.id (fold_left Professor.setattr l p) = Professor.id p
  /\ Professor.hire_date (fold_left Professor.setattr l p) = Professor.hire_date p.
Proof.
  revert p. induction l as [|a l IH]; intros p; simpl; [done|].
  destruct (IH (Professor.setattr p a)) as (-> & ->). by destruct a.
Qed.

(** *** What the helpers compute *)


Lemma calculate_gpa_run s st : calculate_gpa s st = (inr tt, with_gpa s st).
Proof.
  unfold calculate_gpa, with_gpa, bind, get, modify, ret.
  by destruct (students st !! s).
Qed.


Lemma decrement_if_present_run c st :
  decrement_if_present c st = (inr tt, decremented c st).
Proof.
  unfold decrement_if_present, decremented, bind, get, modify, ret.
  by destruct (courses st !! c).
Qed.

Lemma del_enrollment_run k st :
  is_Some (od_get k (enrollments st)) ->
  del_enrollment k st = (inr tt, set_enrollments (od_del k) st).
Proof.
  intros H. unfold del_enrollment, bind, get, modify.
  apply od_mem_spec in H. by rewrite H.
Qed.

Lemma enrollment_at_run k e st :
  od_get k (enrollments st) = Some e -> enrollment_at k st = (inr e, st).
Proof. intros H. unfold enrollment_at, bind, get, ret. by rewrite H. Qed.

Lemma computed_gpa_ext st st' s :
  courses st' = courses st -> enrollments st' = enrollments st ->
  computed_gpa st' s = computed_gpa st s.
Proof. unfold computed_gpa. by intros -> ->. Qed.

(** *** The invariant is kept *)

(** A change of the students that keeps the ids and forgets no student,
    with everything else in place, keeps the invariant. *)
Lemma wf_students_change st st' :
  wf st ->
  courses st' = courses st -> enrollments st' = enrollments st ->
  next_course_id st' = next_course_id st ->
  next_enrollment_id st' = next_enrollment_id st ->
  (forall k s, students st' !! k = Some s -> Student.id s = k) ->
  (forall k, is_Some (students st !! k) -> is_Some (students st' !! k)) ->
  wf st'.
Proof.
  intros [[Hsi Hci Hk Hki Hr Hp] Hc] Ec Ee Enc Ene Hsi' Hdom.
  split; [split|].
  - done.
  - rewrite Ec, Enc. done.
  - by rewrite Ee.
  - rewrite Ee, Ene. done.
  - rewrite Ee, Ec. intros k e Hin. destruct (Hr k e Hin). auto.
  - by rewrite Ee.
  - unfold counts_ok, counts_ok_on. rewrite Ec, Ee. done.
Qed.

Lemma wf_with_gpa s st : wf st -> wf (with_gpa s st).
Proof.
  intros Hwf. unfold with_gpa. destruct (students st !! s) as [student|] eqn:Es; [|done].
  apply (wf_students_change st); try done; simpl.
  - intros k s'. destruct Hwf as [[Hsi _ _ _ _ _] _].
    destruct (decide (s = k)) as [->|Hne].
    + rewrite lookup_insert_eq. intros ?; simplify_eq. simpl. eauto.
    + rewrite lookup_insert_ne by done. eauto.
  - intros k Hk. destruct (decide (s = k)) as [->|Hne].
    + rewrite lookup_insert_eq. eauto.
    + by rewrite lookup_insert_ne.
Qed.

Lemma wf_init boot : wf (init_db boot).
Proof.
  split; [split|]; simpl.
  - intros k s [<- <-]%lookup_singleton_Some. done.
  - intros k c [<- <-]%lookup_singleton_Some. done.
  - unfold od_wf. simpl. apply NoDup_singleton.
  - intros k e Hin%list_elem_of_singleton. simplify_eq. exists 1. done.
  - intros k e Hin%list_elem_of_singleton. simplify_eq. simpl.
    rewrite !lookup_singleton_eq. eauto.
  - apply NoDup_singleton.
  - unfold counts_ok, counts_ok_on. simpl.
    intros k c _ [<- <-]%lookup_singleton_Some. done.
Qed.

Ltac run_endpoint :=
  unfold bind, get, raise, ret, modify;
  repeat (case_match || case_decide); simplify_eq/=.

Lemma wf_same_students st st' :
  wf st ->
  students st' = students st ->
  courses st' = courses st -> enrollments st' = enrollments st ->
  next_course_id st' = next_course_id st ->
  next_enrollment_id st' = next_enrollment_id st ->
  wf st'.
Proof.
  intros Hwf Es ? ? ? ?. apply (wf_students_change st); try done; rewrite Es.
  - by destruct Hwf as [[? _ _ _ _ _] _].
  - done.
Qed.

Lemma wf_set_professors f st : wf st -> wf (set_professors f st).
Proof. intros H. by apply (wf_same_students st). Qed.

Lemma wf_bump_next_professor_id st : wf st -> wf (bump_next_professor_id st).
Proof. intros H. by apply (wf_same_students st). Qed.

Lemma wf_bump_next_student_id st : wf st -> wf (bump_next_student_id st).
Proof. intros H. by apply (wf_same_students st). Qed.

Lemma wf_insert_student k s st :
  wf st -> Student.id s = k -> wf (set_students (insert k s) st).
Proof.
  intros Hwf Hid. apply (wf_students_change st); try done; simpl.
  - intros k' s'. destruct Hwf as [[Hsi _ _ _ _ _] _].
    destruct (decide (k = k')) as [->|Hne].
    + rewrite lookup_insert_eq. by intros ?; simplify_eq.
    + rewrite lookup_insert_ne by done. eauto.
  - intros k' Hk. destruct (decide (k = k')) as [->|Hne].
    + rewrite lookup_insert_eq. eauto.
    + by rewrite lookup_insert_ne.
Qed.

Lemma wf_create_professor d st : wf st -> wf (create_professor d st).2.
Proof.
  intros Hwf. unfold create_professor, check_unique_email. run_endpoint; try done.
  by apply wf_bump_next_professor_id, wf_set_professors.
Qed.

Lemma wf_update_professor i u st : wf st -> wf (update_professor i u st).2.
Proof.
  intros Hwf. unfold update_professor, check_unique_email. run_endpoint;
    try done; by apply wf_set_professors.
Qed.

Lemma wf_delete_professor i st : wf st -> wf (delete_professor i st).2.
Proof.
  intros Hwf. unfold delete_professor. run_endpoint; try done.
  by apply wf_set_professors.
Qed.

Lemma wf_create_student d st : wf st -> wf (create_student d st).2.
Proof.
  intros Hwf. unfold create_student, check_unique_email. run_endpoint; try done.
  by apply wf_bump_next_student_id, wf_insert_student.
Qed.

Lemma wf_update_student i u st : wf st -> wf (update_student i u st).2.
Proof.
  intros Hwf. unfold update_student, check_unique_email.
  pose proof Hwf as [[Hsi _ _ _ _ _] _].
  run_endpoint; try done.
  all: apply wf_insert_student; [done|].
  all: destruct (student_setattr_fixed (dump_student_update u) t) as [-> _]; auto.
Qed.

(** *** Courses *)

Lemma wf_create_course d st : wf st -> wf (create_course d st).2.
Proof.
  intros Hwf. unfold create_course. run_endpoint; [|done].
  destruct Hwf as [[Hsi Hci Hk Hki Hr Hp] Hc].
  set (n := next_course_id st).
  split; [split|]; simpl; try done.
  - intros k c. destruct (decide (n = k)) as [<-|Hne].
    + rewrite lookup_insert_eq. intros ?; simplify_eq. simpl. split; [done | lia].
    + rewrite lookup_insert_ne by done. intros Hl. destruct (Hci k c Hl). split; [done | lia].
  - intros k e Hin. destruct (Hr k e Hin) as [? Hcs]. split; [done|].
    rewrite lookup_insert_is_Some. destruct (decide (n = Enrollment.course_id e)); auto.
  - intros k c _. simpl. destruct (decide (n = k)) as [<-|Hne].
    + rewrite lookup_insert_eq. intros ?; simplify_eq. simpl.
      symmetry. apply live_enrollments_zero. intros k e Hin Heq.
      destruct (Hr k e Hin) as [_ [c Hcs]]. destruct (Hci _ _ Hcs). subst n. lia.
    + rewrite lookup_insert_ne by done. by apply Hc.
Qed.

Lemma wf_update_course i u st : wf st -> wf (update_course i u st).2.
Proof.
  intros Hwf. unfold update_course. run_endpoint; try done.
  all: destruct Hwf as [[Hsi Hci Hk Hki Hr Hp] Hc].
  all: destruct (course_setattr_fixed (dump_course_update u) t) as [Eid Een].
  all: split; [split|]; simpl; try done.
  all: try (intros k c; destruct (decide (i = k)) as [<-|Hne];
            [rewrite lookup_insert_eq; intros ?; simplify_eq; rewrite Eid; eauto
            |rewrite lookup_insert_ne by done; eauto]).
  all: try (intros k e Hin; destruct (Hr k e Hin) as [? Hcs]; split; [done|];
            rewrite lookup_insert_is_Some;
            destruct (decide (i = Enrollment.course_id e)); auto).
  all: intros k c _; simpl; destruct (decide (i = k)) as [<-|Hne];
    [rewrite lookup_insert_eq; intros ?; simplify_eq; rewrite Een; by apply Hc
    |rewrite lookup_insert_ne by done; by apply Hc].
Qed.

(** *** Removing one enrollment *)

Lemma enrollments_decremented c st : enrollments (decremented c st) = enrollments st.
Proof. unfold decremented. by destruct (courses st !! c). Qed.

Lemma students_decremented c st : students (decremented c st) = students st.
Proof. unfold decremented. by destruct (courses st !! c). Qed.

Lemma consistent_decremented c st : consistent st -> consistent (decremented c st).
Proof.
  intros [Hsi Hci Hk Hki Hr Hp]. unfold decremented.
  destruct (courses st !! c) as [course|] eqn:Ec; [|done].
  split; simpl; try done.
  - intros k c'. destruct (decide (c = k)) as [<-|Hne].
    + rewrite lookup_insert_eq. intros ?; simplify_eq. simpl. eauto.
    + rewrite lookup_insert_ne by done. eauto.
  - intros k e Hin. destruct (Hr k e Hin) as [? Hcs]. split; [done|].
    rewrite lookup_insert_is_Some. destruct (decide (c = Enrollment.course_id e)); auto.
Qed.

Lemma consistent_del k st : consistent st -> consistent (set_enrollments (od_del k) st).
Proof.
  intros [Hsi Hci Hk Hki Hr Hp]. split; simpl; try done.
  - by apply od_del_wf.
  - intros k' e Hin%od_del_elem. eauto.
  - intros k' e Hin%od_del_elem. eauto.
  - unfold pairs. eapply sublist_NoDup; [exact Hp|].
    apply fmap_sublist, od_del_sublist.
Qed.

Lemma counts_del_decremented P k e st :
  counts_ok_on P st -> od_get k (enrollments st) = Some e ->
  counts_ok_on P (set_enrollments (od_del k)
                    (decremented (Enrollment.course_id e) st)).
Proof.
  intros Hc Hget k' c' HP. simpl. rewrite enrollments_decremented.
  rewrite (live_enrollments_del k' _ k e Hget). unfold decremented.
  destruct (courses st !! Enrollment.course_id e) as [course|] eqn:Ec; simpl.
  - destruct (decide (Enrollment.course_id e = k')) as [<-|Hne].
    + rewrite lookup_insert_eq. intros ?; simplify_eq. simpl.
      rewrite (Hc _ _ HP Ec). lia.
    + rewrite lookup_insert_ne by done. intros Hl. rewrite (Hc _ _ HP Hl). lia.
  - intros Hl. rewrite (Hc _ _ HP Hl).
    destruct (decide (Enrollment.course_id e = k')); [congruence | lia].
Qed.

Lemma counts_del_only (P : Z -> Prop) k e st :
  counts_ok_on P st -> od_get k (enrollments st) = Some e ->
  ~ P (Enrollment.course_id e) ->
  counts_ok_on P (set_enrollments (od_del k) st).
Proof.
  intros Hc Hget HnP k' c' HP. simpl.
  rewrite (live_enrollments_del k' _ k e Hget).
  intros Hl. rewrite (Hc _ _ HP Hl).
  destruct (decide (Enrollment.course_id e = k')); [congruence | lia].
Qed.

Lemma wf_removed k e st :
  wf st -> od_get k (enrollments st) = Some e ->
  wf (set_enrollments (od_del k) (decremented (Enrollment.course_id e) st)).
Proof.
  intros [Hco Hc] Hget. split.
  - by apply consistent_del, consistent_decremented.
  - by apply counts_del_decremented.
Qed.

(** *** Dropping a course *)

Lemma drop_course_run st s c k :
  get_enrollment_key_by_ids st s c = Some k -> PyStr.truthy k = true ->
  drop_course s c st
  = (inr tt, with_gpa s (set_enrollments (od_del k) (decremented c st))).
Proof.
  intros Hk Ht. unfold drop_course, bind at 1, get. rewrite Hk, Ht.
  unfold bind. rewrite decrement_if_present_run.
  rewrite del_enrollment_run, calculate_gpa_run; [done|].
  rewrite enrollments_decremented. by eapply find_enrollment_key_get.
Qed.

Lemma drop_course_not_found st s c :
  truthy_opt (get_enrollment_key_by_ids st s c) = false ->
  drop_course s c st = (inl (not_found_enrollment s c), st).
Proof.
  unfold drop_course, bind, get, raise, truthy_opt.
  destruct (get_enrollment_key_by_ids st s c); [by intros -> | done].
Qed.

Lemma wf_drop_course s c st : wf st -> wf (drop_course s c st).2.
Proof.
  intros Hwf.
  destruct (get_enrollment_key_by_ids st s c) as [k|] eqn:Ek.
  - destruct (PyStr.truthy k) eqn:Et.
    + rewrite (drop_course_run _ _ _ _ Ek Et). simpl. apply wf_with_gpa.
      pose proof Hwf as [[_ _ Hk _ _ _] _].
      destruct (find_enrollment_key_wf _ _ _ _ Hk Ek) as (e & Hget & _ & <-).
      by apply wf_removed.
    + rewrite drop_course_not_found; [done|]. by rewrite Ek.
  - rewrite drop_course_not_found; [done|]. by rewrite Ek.
Qed.

(** *** Grading *)

Lemma update_enrollment_grade_run st s c g k e :
  get_enrollment_key_by_ids st s c = Some k -> PyStr.truthy k = true ->
  od_get k (enrollments st) = Some e ->
  update_enrollment_grade s c g st
  = (inr (Enrollment.set_grade (PyStr.upper g) e),
     with_gpa s (set_enrollments
                   (od_set k (Enrollment.set_grade (PyStr.upper g) e)) st)).
Proof.
  intros Hk Ht Hget. unfold update_enrollment_grade, bind at 1, get. rewrite Hk, Ht.
  unfold bind. rewrite (enrollment_at_run _ _ _ Hget). unfold modify.
  by rewrite calculate_gpa_run.
Qed.

Lemma update_enrollment_grade_not_found st s c g :
  truthy_opt (get_enrollment_key_by_ids st s c) = false ->
  update_enrollment_grade s c g st = (inl (not_found_enrollment s c), st).
Proof.
  unfold update_enrollment_grade, bind, get, raise, truthy_opt.
  destruct (get_enrollment_key_by_ids st s c); [by intros -> | done].
Qed.

Lemma wf_regraded k e g st :
  wf st -> od_get k (enrollments st) = Some e ->
  wf (set_enrollments (od_set k (Enrollment.set_grade g e)) st).
Proof.
  intros [[Hsi Hci Hk Hki Hr Hp] Hc] Hget.
  pose proof (od_get_elem _ _ _ Hget) as Hin.
  split; [split|]; simpl; try done.
  - unfold od_wf, od_keys. by rewrite (od_set_fmap fst k _ e).
  - intros k' e' [?|?]%od_set_elem; simplify_eq; eauto.
  - intros k' e' [?|?]%od_set_elem; simplify_eq; simpl; eauto.
  - unfold pairs. by rewrite (od_set_fmap _ k _ e).
  - intros k' c' _ Hl. simpl. rewrite (live_enrollments_set k' _ k e); [|done..].
    by apply Hc.
Qed.

Lemma wf_update_enrollment_grade s c g st :
  wf st -> wf (update_enrollment_grade s c g st).2.
Proof.
  intros Hwf.
  destruct (get_enrollment_key_by_ids st s c) as [k|] eqn:Ek.
  - destruct (PyStr.truthy k) eqn:Et.
    + destruct (find_enrollment_key_get _ _ _ _ Ek) as [e Hget].
      rewrite (update_enrollment_grade_run _ _ _ _ _ _ Ek Et Hget). simpl.
      by apply wf_with_gpa, wf_regraded.
    + rewrite update_enrollment_grade_not_found; [done|]. by rewrite Ek.
  - rewrite update_enrollment_grade_not_found; [done|]. by rewrite Ek.
Qed.

(** *** Enrolling *)


Lemma enroll_run today s c st student course :
  students st !! s = Some student -> courses st !! c = Some course ->
  Course.enrolled_students course < Course.max_capacity course ->
  truthy_opt (get_enrollment_key_by_ids st (Student.id student) (Course.id course))
  = false ->
  enroll_student_in_course today (mkEnrollmentCreate s c) st
  = (inr (mkEnrollmentSuccessResponse (enrollment_key (next_enrollment_id st))
            student (Course.add_enrolled 1 course) today),
     enrolled_state today s c course st).
Proof.
  intros Hs Hc Hcap Hdup. unfold enroll_student_in_course, bind, get, modify, ret.
  simpl. rewrite Hs, Hc, Hdup. by rewrite (proj2 (Z.leb_gt _ _) Hcap).
Qed.

(** In a consistent store the duplicate test of [enroll_student_in_course]
    decides whether the pair is enrolled. *)
Lemma duplicate_test st s c student course :
  consistent st ->
  students st !! s = Some student -> courses st !! c = Some course ->
  truthy_opt (get_enrollment_key_by_ids st (Student.id student) (Course.id course))
  = true <-> enrolled st s c.
Proof.
  intros [Hsi Hci Hk Hki Hr Hp] Hs Hc.
  rewrite (Hsi _ _ Hs), (proj1 (Hci _ _ Hc)), enrolled_find.
  unfold get_enrollment_key_by_ids.
  destruct (find_enrollment_key s c (enrollments st)) as [k|] eqn:Ek; simpl.
  - destruct (find_enrollment_key_Some _ _ _ _ Ek) as (e & Hin & _).
    destruct (Hki _ _ Hin) as (n & -> & _). split; eauto.
  - split; [done | by intros [? ?]].
Qed.

Lemma issued_key_fresh st :
  consistent st ->
  od_get (enrollment_key (next_enrollment_id st)) (enrollments st) = None.
Proof.
  intros [Hsi Hci Hk Hki Hr Hp].
  destruct (od_get _ (enrollments st)) as [e|] eqn:E; [|done].
  apply od_get_elem in E. destruct (Hki _ _ E) as (n & Heq%enrollment_key_inj & ?). lia.
Qed.

Lemma wf_enrolled_state today s c student course st :
  wf st -> students st !! s = Some student -> courses st !! c = Some course ->
  ~ enrolled st s c ->
  wf (enrolled_state today s c course st).
Proof.
  intros [Hco Hc] Hs Hcs Hne. pose proof (issued_key_fresh st Hco) as Hfresh.
  destruct Hco as [Hsi Hci Hk Hki Hr Hp].
  unfold enrolled_state.
  split; [split|]; simpl; rewrite ?(od_set_fresh _ _ _ Hfresh); try done.
  - intros k c'. destruct (decide (c = k)) as [<-|Hnek].
    + rewrite lookup_insert_eq. intros ?; simplify_eq. simpl. eauto.
    + rewrite lookup_insert_ne by done. eauto.
  - unfold od_wf, od_keys. rewrite fmap_app. apply NoDup_app. split; [done|].
    split; [|apply NoDup_singleton].
    intros k Hin ->%list_elem_of_singleton. by apply od_get_None in Hfresh.
  - intros k e [Hin|Hin%list_elem_of_singleton]%elem_of_app.
    + destruct (Hki k e Hin) as (n & ? & ?). exists n. split; [done | lia].
    + simplify_eq. eexists. split; [done | lia].
  - intros k e [Hin|Hin%list_elem_of_singleton]%elem_of_app.
    + destruct (Hr k e Hin) as [? ?]. split; [done|].
      rewrite lookup_insert_is_Some. destruct (decide (c = Enrollment.course_id e)); auto.
    + simplify_eq. simpl. split; [eauto|]. rewrite lookup_insert_eq. eauto.
  - unfold pairs. rewrite fmap_app. apply NoDup_app. split; [done|].
    split; [|apply NoDup_singleton].
    intros p Hin ->%list_elem_of_singleton. by apply Hne.
  - intros k c' _. simpl. rewrite (od_set_fresh _ _ _ Hfresh), live_enrollments_app.
    simpl.
    destruct (decide (c = k)) as [<-|Hnek].
    + rewrite lookup_insert_eq. intros ?; simplify_eq. simpl.
      rewrite (Hc _ _ I Hcs). done.
    + rewrite lookup_insert_ne by done. intros Hl. rewrite (Hc _ _ I Hl). lia.
Qed.

Lemma enroll_raises_unchanged today d st e st' :
  enroll_student_in_course today d st = (inl e, st') -> st' = st.
Proof.
  unfold enroll_student_in_course, bind, get, raise, modify, ret.
  repeat case_match; intros ?; by simplify_eq.
Qed.

Lemma wf_enroll today d st : wf st -> wf (enroll_student_in_course today d st).2.
Proof.
  intros Hwf.
  destruct (enroll_student_in_course today d st) as [[e|r] st'] eqn:E; simpl.
  - by rewrite (enroll_raises_unchanged _ _ _ _ _ E).
  - destruct d as [s c]. revert E.
    unfold enroll_student_in_course, bind, get, raise, modify, ret. simpl.
    destruct (students st !! s) as [student|] eqn:Hs; [|done].
    destruct (courses st !! c) as [course|] eqn:Hc; [|done].
    destruct (Course.max_capacity course <=? Course.enrolled_students course); [done|].
    destruct (truthy_opt _) eqn:Hdup; [done|].
    intros ?; simplify_eq. apply (wf_enrolled_state today s c student course); try done.
    intros Hen. destruct Hwf as [Hco _].
    apply (duplicate_test st s c student course Hco Hs Hc) in Hen. congruence.
Qed.

(** *** Cascading deletes *)

Lemma keys_where_elem (P : Enrollment.t -> Prop) `{forall e, Decision (P e)} k d :
  k ∈ keys_where P d <-> exists e, (k, e) ∈ d /\ P e.
Proof. unfold keys_where. apply od_keys_filter_elem. Qed.

Lemma keys_where_NoDup (P : Enrollment.t -> Prop) `{forall e, Decision (P e)} d :
  od_wf d -> NoDup (keys_where P d).
Proof. unfold keys_where. apply od_keys_filter_NoDup. Qed.

(** The loop of [delete_student] runs to its end without raising, and
    leaves a well-formed store without enrollments of the student. *)
Lemma delete_student_loop sid st :
  wf st ->
  exists st1,
    for_each (keys_where (fun e => Enrollment.student_id e = sid) (enrollments st))
      (fun eid =>
         let! e := enrollment_at eid in
         decrement_if_present (Enrollment.course_id e) ;;!
         del_enrollment eid) st
    = (inr tt, st1)
    /\ wf st1 /\ students st1 = students st
    /\ (forall k e, (k, e) ∈ enrollments st1 -> Enrollment.student_id e <> sid).
Proof.
  intros Hwf.
  set (I := fun (ks : list string) (st1 : db) =>
    wf st1 /\ students st1 = students st /\ NoDup ks
    /\ (forall k, k ∈ ks -> is_Some (od_get k (enrollments st1)))
    /\ (forall k e, (k, e) ∈ enrollments st1 -> Enrollment.student_id e = sid -> k ∈ ks)).
  destruct (for_each_inv (E := exception) I
              (fun eid =>
                 let! e := enrollment_at eid in
                 decrement_if_present (Enrollment.course_id e) ;;!
                 del_enrollment eid)
              (keys_where (fun e => Enrollment.student_id e = sid) (enrollments st)) st)
    as (st1 & Hrun & Hwf1 & Hst & _ & _ & Hnone).
  - unfold I. pose proof Hwf as [[_ _ Hk _ _ _] _]. split_and!; [done | done | ..].
    + by apply keys_where_NoDup.
    + intros k (e & Hin & _)%keys_where_elem. rewrite (od_get_wf _ _ _ Hk Hin). eauto.
    + intros k e Hin Hs. apply keys_where_elem. eauto.
  - intros k ks st0 (Hwf0 & Hst0 & [Hk Hks]%NoDup_cons & Hall & Hcov).
    destruct (Hall k) as [e Hget]; [left|].
    exists (set_enrollments (od_del k) (decremented (Enrollment.course_id e) st0)).
    split.
    + unfold bind. rewrite (enrollment_at_run _ _ _ Hget).
      rewrite decrement_if_present_run, del_enrollment_run; [done|].
      rewrite enrollments_decremented. eauto.
    + unfold I. split_and!.
      * by apply wf_removed.
      * simpl. by rewrite students_decremented.
      * done.
      * intros k' Hk'. simpl. rewrite enrollments_decremented.
        rewrite od_get_del_ne; [apply Hall; by right | intros ->; done].
      * simpl. rewrite enrollments_decremented. intros k' e' Hin Hs.
        pose proof Hwf0 as [[_ _ Hwfk _ _ _] _].
        pose proof (od_del_elem_key _ _ _ _ Hwfk Hin) as Hne.
        apply od_del_elem in Hin.
        pose proof (Hcov _ _ Hin Hs) as Hm. apply elem_of_cons in Hm as [?|?]; done.
  - exists st1. split_and!; try done.
    intros k e Hin Hs. pose proof (Hnone _ _ Hin Hs) as Hm. by apply elem_of_nil in Hm.
Qed.

Lemma wf_delete_student sid st : wf st -> wf (delete_student sid st).2.
Proof.
  intros Hwf. unfold delete_student, bind at 1, get.
  destruct (decide (is_Some (students st !! sid))); [|done].
  destruct (delete_student_loop sid st Hwf) as (st1 & Hrun & Hwf1 & Hst & Hnone).
  unfold bind at 1. rewrite Hrun. unfold modify. simpl.
  destruct Hwf1 as [[Hsi Hci Hk Hki Hr Hp] Hc].
  split; [split|]; simpl; try done.
  - intros k s [_ Hl]%lookup_delete_Some. eauto.
  - intros k e Hin. destruct (Hr k e Hin) as [? ?]. split; [|done].
    rewrite lookup_delete_ne; [done|]. intros Heq. by apply (Hnone k e Hin).
Qed.

Lemma delete_course_loop cid st :
  wf st ->
  exists st1,
    for_each (keys_where (fun e => Enrollment.course_id e = cid) (enrollments st))
      del_enrollment st
    = (inr tt, st1)
    /\ consistent st1 /\ counts_ok_on (fun k => k <> cid) st1
    /\ (forall k e, (k, e) ∈ enrollments st1 -> Enrollment.course_id e <> cid).
Proof.
  intros [Hco Hc].
  set (I := fun (ks : list string) (st1 : db) =>
    consistent st1 /\ counts_ok_on (fun k => k <> cid) st1 /\ NoDup ks
    /\ (forall k, k ∈ ks -> exists e, od_get k (enrollments st1) = Some e
                                      /\ Enrollment.course_id e = cid)
    /\ (forall k e, (k, e) ∈ enrollments st1 -> Enrollment.course_id e = cid -> k ∈ ks)).
  destruct (for_each_inv (E := exception) I del_enrollment
              (keys_where (fun e => Enrollment.course_id e = cid) (enrollments st)) st)
    as (st1 & Hrun & Hco1 & Hc1 & _ & _ & Hnone).
  - unfold I. pose proof Hco as [_ _ Hk _ _ _]. split_and!; [done | ..].
    + intros k c _. by apply Hc.
    + by apply keys_where_NoDup.
    + intros k (e & Hin & ?)%keys_where_elem. exists e.
      by rewrite (od_get_wf _ _ _ Hk Hin).
    + intros k e Hin Hs. apply keys_where_elem. eauto.
  - intros k ks st0 (Hco0 & Hc0 & [Hk Hks]%NoDup_cons & Hall & Hcov).
    destruct (Hall k) as (e & Hget & Hcid); [left|].
    exists (set_enrollments (od_del k) st0). split.
    + apply del_enrollment_run. eauto.
    + unfold I. split_and!.
      * by apply consistent_del.
      * apply (counts_del_only _ k e); [done | done | ]. intros Hne. by apply Hne.
      * done.
      * intros k' Hk'. simpl.
        rewrite od_get_del_ne; [apply Hall; by right | intros ->; done].
      * simpl. intros k' e' Hin Hs.
        pose proof Hco0 as [_ _ Hwfk _ _ _].
        pose proof (od_del_elem_key _ _ _ _ Hwfk Hin) as Hne.
        apply od_del_elem in Hin.
        pose proof (Hcov _ _ Hin Hs) as Hm. apply elem_of_cons in Hm as [?|?]; done.
  - exists st1. split_and!; try done.
    intros k e Hin Hs. pose proof (Hnone _ _ Hin Hs) as Hm. by apply elem_of_nil in Hm.
Qed.

Lemma wf_delete_course cid st : wf st -> wf (delete_course cid st).2.
Proof.
  intros Hwf. unfold delete_course, bind at 1, get.
  destruct (decide (is_Some (courses st !! cid))); [|done].
  destruct (delete_course_loop cid st Hwf) as (st1 & Hrun & Hco1 & Hc1 & Hnone).
  unfold bind at 1. rewrite Hrun. unfold modify. simpl.
  destruct Hco1 as [Hsi Hci Hk Hki Hr Hp].
  split; [split|]; simpl; try done.
  - intros k c [_ Hl]%lookup_delete_Some. eauto.
  - intros k e Hin. destruct (Hr k e Hin) as [? ?]. split; [done|].
    rewrite lookup_delete_ne; [done|]. intros Heq. by apply (Hnone k e Hin).
  - unfold counts_ok, counts_ok_on. simpl.
    intros k c _ [Hne Hl]%lookup_delete_Some. apply Hc1; [congruence | done].
Qed.

(** *** Every reachable store is well-formed *)

Lemma wf_serve today r st : wf st -> wf (serve today r st).
Proof.
  intros Hwf. destruct r; simpl.
  - by apply wf_create_professor.
  - by apply wf_update_professor.
  - by apply wf_delete_professor.
  - by apply wf_create_student.
  - by apply wf_update_student.
  - by apply wf_delete_student.
  - by apply wf_create_course.
  - by apply wf_update_course.
  - by apply wf_delete_course.
  - by apply wf_enroll.
  - by apply wf_update_enrollment_grade.
  - by apply wf_drop_course.
Qed.

Lemma reachable_wf st : reachable st -> wf st.
Proof. induction 1; [apply wf_init | by apply wf_serve]. Qed.

End EnhancedFacts.

(** ** The simple service *)

Module SimpleFacts.
Import Simple.

(** *** Counting live enrollments *)

Lemma simple_live_enrollments_app c d k e :
  live_enrollments c (d ++ [(k, e)])
  = live_enrollments c d + (if decide (Enrollment.course_id e = c) then 1 else 0).
Proof.
  unfold live_enrollments. rewrite filter_app, length_app, filter_cons, filter_nil.
  simpl. case_decide; simpl; lia.
Qed.

Lemma simple_live_enrollments_del c d k e :
  od_get k d = Some e ->
  live_enrollments c (od_del k d)
  = live_enrollments c d - (if decide (Enrollment.course_id e = c) then 1 else 0).
Proof.
  intros Hget. unfold live_enrollments.
  rewrite (od_del_filter_length _ k e d Hget). simpl.
  case_decide; lia.
Qed.

Lemma simple_live_enrollments_set c d k e e' :
  od_get k d = Some e -> Enrollment.course_id e' = Enrollment.course_id e ->
  live_enrollments c (od_set k e' d) = live_enrollments c d.
Proof.
  intros Hget Hc. unfold live_enrollments. f_equal.
  apply (od_set_filter_length _ k e' e d Hget). simpl. by rewrite Hc.
Qed.

Lemma simple_live_enrollments_zero c d :
  (forall k e, (k, e) ∈ d -> Enrollment.course_id e <> c) -> live_enrollments c d = 0.
Proof.
  unfold live_enrollments. induction d as [|[k e] d IH]; intros H; [done|].
  rewrite filter_cons_False.
  - apply IH. intros k' e' Hin. apply (H k' e'). by right.
  - simpl. apply (H k e). left.
Qed.

Lemma simple_live_enrollments_pos c d k e :
  (k, e) ∈ d -> Enrollment.course_id e = c -> 1 <= live_enrollments c d.
Proof.
  intros Hin Hc. unfold live_enrollments.
  assert ((k, e) ∈ filter (fun kv => Enrollment.course_id kv.2 = c) d) as Hf
    by (by apply list_elem_of_filter).
  destruct (filter _ d); [by apply elem_of_nil in Hf | simpl; lia].
Qed.

(** *** What the helpers compute *)

Lemma simple_course_setattr_fixed l c :
  Course.id (fold_left Course.setattr l c) = Course.id c
  /\ Course.enrolled_students (fold_left Course.setattr l c)
     = Course.enrolled_students c.
Proof.
  revert c. induction l as [|a l IH]; intros c; simpl; [done|].
  destruct (IH (Course.setattr c a)) as [-> ->]. by destruct a.
Qed.

Lemma simple_calculate_gpa_run s st : calculate_gpa s st = (inr tt, with_gpa s st).
Proof.
  unfold calculate_gpa, with_gpa, bind, get, modify, ret.
  by destruct (students st !! s).
Qed.

Lemma simple_decrement_if_present_run c st :
  decrement_if_present c st = (inr tt, decremented c st).
Proof.
  unfold decrement_if_present, decremented, bind, get, modify, ret.
  by destruct (courses st !! c).
Qed.

Lemma simple_del_enrollment_run k st :
  is_Some (od_get k (enrollments st)) ->
  del_enrollment k st = (inr tt, set_enrollments (od_del k) st).
Proof.
  intros H. unfold del_enrollment, bind, get, modify.
  apply od_mem_spec in H. by rewrite H.
Qed.

Lemma simple_enrollments_decremented c st :
  enrollments (decremented c st) = enrollments st.
Proof. unfold decremented. by destruct (courses st !! c). Qed.

Lemma simple_students_decremented c st : students (decremented c st) = students st.
Proof. unfold decremented. by destruct (courses st !! c). Qed.

(** *** The invariant is kept *)

Lemma simple_wf_students_change st st' :
  wf st ->
  courses st' = courses st -> enrollments st' = enrollments st ->
  next_course_id st' = next_course_id st ->
  (forall k, is_Some (students st !! k) -> is_Some (students st' !! k)) ->
  wf st'.
Proof.
  intros [[Hci Hk Hkf Hr] Hc] Ec Ee Enc Hdom.
  split; [split|].
  - rewrite Ec, Enc. done.
  - by rewrite Ee.
  - by rewrite Ee.
  - rewrite Ee, Ec. intros k e Hin. destruct (Hr k e Hin). auto.
  - unfold counts_ok, counts_ok_on. rewrite Ec, Ee. done.
Qed.

Lemma simple_wf_insert_student k s st : wf st -> wf (set_students (insert k s) st).
Proof.
  intros Hwf. apply (simple_wf_students_change st); try done; simpl.
  intros k' Hk. rewrite lookup_insert_is_Some. destruct (decide (k = k')); auto.
Qed.

Lemma simple_wf_with_gpa s st : wf st -> wf (with_gpa s st).
Proof.
  intros Hwf. unfold with_gpa. destruct (students st !! s); [|done].
  by apply simple_wf_insert_student.
Qed.

Lemma simple_wf_init boot : wf (init_db boot).
Proof.
  split; [split|]; simpl.
  - intros k c [<- <-]%lookup_singleton_Some. done.
  - apply NoDup_nil_2.
  - intros k e Hin. by apply elem_of_nil in Hin.
  - intros k e Hin. by apply elem_of_nil in Hin.
  - unfold counts_ok, counts_ok_on. simpl.
    intros k c _ [<- <-]%lookup_singleton_Some. done.
Qed.

Ltac run_endpoint :=
  unfold bind, get, raise, ret, modify;
  repeat (case_match || case_decide); simplify_eq/=.

Lemma simple_wf_same_students st st' :
  wf st ->
  students st' = students st ->
  courses st' = courses st -> enrollments st' = enrollments st ->
  next_course_id st' = next_course_id st ->
  wf st'.
Proof.
  intros Hwf Es ? ? ?. apply (simple_wf_students_change st); try done. by rewrite Es.
Qed.

Lemma simple_wf_create_professor today d st :
  wf st -> wf (create_professor today d st).2.
Proof. intros Hwf. unfold create_professor. run_endpoint. by apply (simple_wf_same_students _ _ Hwf). Qed.

Lemma simple_wf_update_professor i u st : wf st -> wf (update_professor i u st).2.
Proof.
  intros Hwf. unfold update_professor. run_endpoint; [|done].
  by apply (simple_wf_same_students _ _ Hwf).
Qed.

Lemma simple_wf_delete_professor i st : wf st -> wf (delete_professor i st).2.
Proof.
  intros Hwf. unfold delete_professor. run_endpoint; try done.
  by apply (simple_wf_same_students _ _ Hwf).
Qed.

Lemma simple_wf_create_student d st : wf st -> wf (create_student d st).2.
Proof.
  intros Hwf. unfold create_student. run_endpoint.
  eapply simple_wf_same_students; [by eapply simple_wf_insert_student | done..].
Qed.

Lemma simple_wf_update_student i u st : wf st -> wf (update_student i u st).2.
Proof.
  intros Hwf. unfold update_student. run_endpoint; [|done].
  by apply simple_wf_insert_student.
Qed.

Lemma simple_wf_create_course d st : wf st -> wf (create_course d st).2.
Proof.
  intros Hwf. unfold create_course. run_endpoint; [|done].
  destruct Hwf as [[Hci Hk Hkf Hr] Hc].
  set (n := next_course_id st).
  split; [split|]; simpl; try done.
  - intros k c. destruct (decide (n = k)) as [<-|Hne].
    + rewrite lookup_insert_eq. intros ?; simplify_eq. lia.
    + rewrite lookup_insert_ne by done. intros Hl. pose proof (Hci k c Hl). lia.
  - intros k e Hin. destruct (Hr k e Hin) as [? Hcs]. split; [done|].
    rewrite lookup_insert_is_Some. destruct (decide (n = Enrollment.course_id e)); auto.
  - unfold counts_ok, counts_ok_on. simpl.
    intros k c _. destruct (decide (n = k)) as [<-|Hne].
    + rewrite lookup_insert_eq. intros ?; simplify_eq. simpl.
      symmetry. apply simple_live_enrollments_zero. intros k e Hin Heq.
      destruct (Hr k e Hin) as [_ [c Hcs]]. pose proof (Hci _ _ Hcs). subst n. lia.
    + rewrite lookup_insert_ne by done. by apply Hc.
Qed.

Lemma simple_wf_update_course i u st : wf st -> wf (update_course i u st).2.
Proof.
  intros Hwf. unfold update_course. generalize (dump_course_update u). intros l.
  run_endpoint; try done.
  all: destruct Hwf as [[Hci Hk Hkf Hr] Hc].
  all: destruct (simple_course_setattr_fixed l t) as [Eid Een].
  all: split; [split|]; simpl; try done.
  all: try (intros k c; destruct (decide (i = k)) as [<-|Hne];
            [rewrite lookup_insert_eq; intros ?; simplify_eq; eauto
            |rewrite lookup_insert_ne by done; eauto]).
  all: try (intros k e Hin; destruct (Hr k e Hin) as [? Hcs]; split; [done|];
            rewrite lookup_insert_is_Some;
            destruct (decide (i = Enrollment.course_id e)); auto).
  all: unfold counts_ok, counts_ok_on; simpl.
  all: intros k c _; destruct (decide (i = k)) as [<-|Hne];
    [rewrite lookup_insert_eq; intros ?; simplify_eq; rewrite Een; by apply Hc
    |rewrite lookup_insert_ne by done; by apply Hc].
Qed.

(** *** Removing one enrollment *)

Lemma simple_consistent_decremented c st : consistent st -> consistent (decremented c st).
Proof.
  intros [Hci Hk Hkf Hr]. unfold decremented.
  destruct (courses st !! c) as [course|] eqn:Ec; [|done].
  split; simpl; try done.
  - intros k c'. destruct (decide (c = k)) as [<-|Hne].
    + rewrite lookup_insert_eq. intros ?; simplify_eq. eauto.
    + rewrite lookup_insert_ne by done. eauto.
  - intros k e Hin. destruct (Hr k e Hin) as [? Hcs]. split; [done|].
    rewrite lookup_insert_is_Some. destruct (decide (c = Enrollment.course_id e)); auto.
Qed.

Lemma simple_consistent_del k st :
  consistent st -> consistent (set_enrollments (od_del k) st).
Proof.
  intros [Hci Hk Hkf Hr]. split; simpl; try done.
  - by apply od_del_wf.
  - intros k' e Hin%od_del_elem. eauto.
  - intros k' e Hin%od_del_elem. eauto.
Qed.

Lemma simple_counts_del_decremented P k e st :
  counts_ok_on P st -> od_get k (enrollments st) = Some e ->
  counts_ok_on P (set_enrollments (od_del k)
                    (decremented (Enrollment.course_id e) st)).
Proof.
  intros Hc Hget k' c' HP. simpl. rewrite simple_enrollments_decremented.
  rewrite (simple_live_enrollments_del k' _ k e Hget). unfold decremented.
  destruct (courses st !! Enrollment.course_id e) as [course|] eqn:Ec; simpl.
  - destruct (decide (Enrollment.course_id e = k')) as [<-|Hne].
    + rewrite lookup_insert_eq. intros ?; simplify_eq. simpl.
      rewrite (Hc _ _ HP Ec). lia.
    + rewrite lookup_insert_ne by done. intros Hl. rewrite (Hc _ _ HP Hl). lia.
  - intros Hl. rewrite (Hc _ _ HP Hl).
    destruct (decide (Enrollment.course_id e = k')); [congruence | lia].
Qed.

Lemma simple_counts_del_only (P : Z -> Prop) k e st :
  counts_ok_on P st -> od_get k (enrollments st) = Some e ->
  ~ P (Enrollment.course_id e) ->
  counts_ok_on P (set_enrollments (od_del k) st).
Proof.
  intros Hc Hget HnP k' c' HP. simpl.
  rewrite (simple_live_enrollments_del k' _ k e Hget).
  intros Hl. rewrite (Hc _ _ HP Hl).
  destruct (decide (Enrollment.course_id e = k')); [congruence | lia].
Qed.

Lemma simple_wf_removed k e st :
  wf st -> od_get k (enrollments st) = Some e ->
  wf (set_enrollments (od_del k) (decremented (Enrollment.course_id e) st)).
Proof.
  intros [Hco Hc] Hget. split.
  - by apply simple_consistent_del, simple_consistent_decremented.
  - by apply simple_counts_del_decremented.
Qed.

(** The key of a stored enrollment names its course. *)
Lemma simple_key_course st s c e :
  consistent st -> od_get (s, c) (enrollments st) = Some e ->
  Enrollment.student_id e = s /\ Enrollment.course_id e = c.
Proof.
  intros [_ _ Hkf _] Hin%od_get_elem. apply Hkf in Hin. by simplify_eq.
Qed.

(** *** Dropping a course *)

Lemma simple_drop_course_run st s c :
  is_Some (od_get (s, c) (enrollments st)) ->
  drop_course s c st
  = (inr tt, with_gpa s (set_enrollments (od_del (s, c)) (decremented c st))).
Proof.
  intros Hk. unfold drop_course, bind at 1, get. simpl.
  rewrite (proj2 (od_mem_spec _ _) Hk).
  unfold bind. rewrite simple_decrement_if_present_run.
  rewrite simple_del_enrollment_run, simple_calculate_gpa_run; [done|].
  by rewrite simple_enrollments_decremented.
Qed.

Lemma simple_drop_course_not_found st s c :
  od_get (s, c) (enrollments st) = None ->
  drop_course s c st = (inl (HTTPException 404 "Enrollment record not found"), st).
Proof.
  intros Hk. unfold drop_course, bind, get, raise. simpl.
  by rewrite (proj2 (od_mem_false _ _) Hk).
Qed.

Lemma simple_wf_drop_course s c st : wf st -> wf (drop_course s c st).2.
Proof.
  intros Hwf.
  destruct (od_get (s, c) (enrollments st)) as [e|] eqn:Ek.
  - rewrite simple_drop_course_run by eauto. simpl. apply simple_wf_with_gpa.
    destruct (simple_key_course st s c e (proj1 Hwf) Ek) as [_ <-].
    by apply simple_wf_removed.
  - by rewrite simple_drop_course_not_found.
Qed.

(** *** Grading *)

Lemma simple_update_enrollment_grade_run st s c g e :
  is_Some (GRADE_TO_POINTS (PyStr.upper g)) ->
  od_get (s, c) (enrollments st) = Some e ->
  update_enrollment_grade s c g st
  = (inr (Enrollment.set_grade (PyStr.upper g) e),
     with_gpa s (set_enrollments
                   (od_set (s, c) (Enrollment.set_grade (PyStr.upper g) e)) st)).
Proof.
  intros Hg Hget. unfold update_enrollment_grade. rewrite decide_True by done.
  unfold bind at 1, get. simpl. rewrite Hget. unfold bind, modify.
  by rewrite simple_calculate_gpa_run.
Qed.

Lemma simple_update_enrollment_grade_not_found st s c g :
  is_Some (GRADE_TO_POINTS (PyStr.upper g)) ->
  od_get (s, c) (enrollments st) = None ->
  update_enrollment_grade s c g st
  = (inl (HTTPException 404 "Enrollment record not found"), st).
Proof.
  intros Hg Hget. unfold update_enrollment_grade. rewrite decide_True by done.
  unfold bind, get, raise. simpl. by rewrite Hget.
Qed.

Lemma simple_update_enrollment_grade_invalid st s c g :
  GRADE_TO_POINTS (PyStr.upper g) = None ->
  update_enrollment_grade s c g st
  = (inl (HTTPException 400 "Invalid grade. Must be one of A, B, C, D, F."), st).
Proof.
  intros Hg. unfold update_enrollment_grade. rewrite decide_False; [done|].
  rewrite Hg. by intros [? ?].
Qed.

Lemma simple_wf_regraded k e g st :
  wf st -> od_get k (enrollments st) = Some e ->
  wf (set_enrollments (od_set k (Enrollment.set_grade g e)) st).
Proof.
  intros [[Hci Hk Hkf Hr] Hc] Hget.
  pose proof (od_get_elem _ _ _ Hget) as Hin.
  split; [split|]; simpl; try done.
  - unfold od_wf, od_keys. by rewrite (od_set_fmap fst k _ e).
  - intros k' e' [?|?]%od_set_elem; simplify_eq; simpl; eauto.
  - intros k' e' [?|?]%od_set_elem; simplify_eq; simpl; eauto.
  - unfold counts_ok, counts_ok_on. simpl. intros k' c' _ Hl.
    rewrite (simple_live_enrollments_set k' _ k e); [|done..].
    by apply Hc.
Qed.

Lemma simple_wf_update_enrollment_grade s c g st :
  wf st -> wf (update_enrollment_grade s c g st).2.
Proof.
  intros Hwf.
  destruct (GRADE_TO_POINTS (PyStr.upper g)) as [pts|] eqn:Eg.
  - destruct (od_get (s, c) (enrollments st)) as [e|] eqn:Ek.
    + rewrite (simple_update_enrollment_grade_run _ _ _ _ e); [|by rewrite Eg|done].
      simpl. by apply simple_wf_with_gpa, simple_wf_regraded.
    + rewrite simple_update_enrollment_grade_not_found; [done|by rewrite Eg|done].
  - by rewrite simple_update_enrollment_grade_invalid.
Qed.

(** *** Enrolling *)

Lemma simple_enroll_run today s c st course :
  is_Some (students st !! s) -> courses st !! c = Some course ->
  Course.enrolled_students course < Course.max_capacity course ->
  od_get (s, c) (enrollments st) = None ->
  enroll_student_in_course today (mkEnrollmentCreate s c) st
  = (inr (Enrollment.mk s c today None), enrolled_state today s c course st).
Proof.
  intros Hs Hc Hcap Hdup. unfold enroll_student_in_course, bind, get, modify, ret.
  simpl. rewrite decide_True by done. rewrite Hc.
  rewrite (proj2 (Z.leb_gt _ _) Hcap). by rewrite (proj2 (od_mem_false _ _) Hdup).
Qed.

Lemma simple_wf_enrolled_state today s c course st :
  wf st -> is_Some (students st !! s) -> courses st !! c = Some course ->
  od_get (s, c) (enrollments st) = None ->
  wf (enrolled_state today s c course st).
Proof.
  intros [[Hci Hk Hkf Hr] Hc] Hs Hcs Hfresh.
  unfold enrolled_state.
  split; [split|]; simpl; rewrite ?(od_set_fresh _ _ _ Hfresh); try done.
  - intros k c'. destruct (decide (c = k)) as [<-|Hnek].
    + rewrite lookup_insert_eq. intros ?; simplify_eq. eauto.
    + rewrite lookup_insert_ne by done. eauto.
  - unfold od_wf, od_keys. rewrite fmap_app. apply NoDup_app. split; [done|].
    split; [|apply NoDup_singleton].
    intros k Hin ->%list_elem_of_singleton. by apply od_get_None in Hfresh.
  - intros k e [Hin|Hin%list_elem_of_singleton]%elem_of_app; [eauto|].
    by simplify_eq.
  - intros k e [Hin|Hin%list_elem_of_singleton]%elem_of_app.
    + destruct (Hr k e Hin) as [? ?]. split; [done|].
      rewrite lookup_insert_is_Some. destruct (decide (c = Enrollment.course_id e)); auto.
    + simplify_eq. simpl. split; [eauto|]. rewrite lookup_insert_eq. eauto.
  - unfold counts_ok, counts_ok_on. simpl. intros k c' _.
    rewrite (od_set_fresh _ _ _ Hfresh), simple_live_enrollments_app. simpl.
    destruct (decide (c = k)) as [<-|Hnek].
    + rewrite lookup_insert_eq. intros ?; simplify_eq. simpl.
      rewrite (Hc _ _ I Hcs). done.
    + rewrite lookup_insert_ne by done. intros Hl. rewrite (Hc _ _ I Hl). lia.
Qed.

Lemma simple_enroll_raises_unchanged today d st e st' :
  enroll_student_in_course today d st = (inl e, st') -> st' = st.
Proof.
  unfold enroll_student_in_course, bind, get, raise, modify, ret.
  repeat (case_match || case_decide); intros ?; by simplify_eq.
Qed.

Lemma simple_wf_enroll today d st : wf st -> wf (enroll_student_in_course today d st).2.
Proof.
  intros Hwf.
  destruct (enroll_student_in_course today d st) as [[e|r] st'] eqn:E; simpl.
  - by rewrite (simple_enroll_raises_unchanged _ _ _ _ _ E).
  - destruct d as [s c]. revert E.
    unfold enroll_student_in_course, bind, get, raise, modify, ret. simpl.
    destruct (decide (is_Some (students st !! s))) as [Hs|]; [|done].
    destruct (courses st !! c) as [course|] eqn:Hc; [|done].
    destruct (Course.max_capacity course <=? Course.enrolled_students course); [done|].
    destruct (od_mem (s, c) (enrollments st)) eqn:Hdup; [done|].
    intros ?; simplify_eq. apply (simple_wf_enrolled_state today s c course); try done.
    by apply od_mem_false.
Qed.

(** *** Cascading deletes *)

Lemma simple_keys_where_elem (P : Enrollment.t -> Prop) `{forall e, Decision (P e)} k d :
  k ∈ keys_where P d <-> exists e, (k, e) ∈ d /\ P e.
Proof. unfold keys_where. apply od_keys_filter_elem. Qed.

Lemma simple_keys_where_NoDup (P : Enrollment.t -> Prop) `{forall e, Decision (P e)} d :
  od_wf d -> NoDup (keys_where P d).
Proof. unfold keys_where. apply od_keys_filter_NoDup. Qed.

Lemma simple_delete_student_loop sid st :
  wf st ->
  exists st1,
    for_each (keys_where (fun e => Enrollment.student_id e = sid) (enrollments st))
      (fun key => decrement_if_present key.2 ;;! del_enrollment key) st
    = (inr tt, st1)
    /\ wf st1 /\ students st1 = students st
    /\ (forall k e, (k, e) ∈ enrollments st1 -> Enrollment.student_id e <> sid).
Proof.
  intros Hwf.
  set (I := fun (ks : list (Z * Z)) (st1 : db) =>
    wf st1 /\ students st1 = students st /\ NoDup ks
    /\ (forall k, k ∈ ks -> is_Some (od_get k (enrollments st1)))
    /\ (forall k e, (k, e) ∈ enrollments st1 -> Enrollment.student_id e = sid -> k ∈ ks)).
  destruct (for_each_inv (E := exception) I
              (fun key => decrement_if_present key.2 ;;! del_enrollment key)
              (keys_where (fun e => Enrollment.student_id e = sid) (enrollments st)) st)
    as (st1 & Hrun & Hwf1 & Hst & _ & _ & Hnone).
  - unfold I. pose proof Hwf as [[_ Hk _ _] _]. split_and!; [done | done | ..].
    + by apply simple_keys_where_NoDup.
    + intros k (e & Hin & _)%simple_keys_where_elem.
      rewrite (od_get_wf _ _ _ Hk Hin). eauto.
    + intros k e Hin Hs. apply simple_keys_where_elem. eauto.
  - intros k ks st0 (Hwf0 & Hst0 & [Hk Hks]%NoDup_cons & Hall & Hcov).
    destruct (Hall k) as [e Hget]; [left|].
    destruct k as [s c].
    destruct (simple_key_course st0 s c e (proj1 Hwf0) Hget) as [_ Hc].
    exists (set_enrollments (od_del (s, c)) (decremented (Enrollment.course_id e) st0)).
    split.
    + unfold bind. simpl. rewrite Hc.
      rewrite simple_decrement_if_present_run, simple_del_enrollment_run; [done|].
      rewrite simple_enrollments_decremented. eauto.
    + unfold I. split_and!.
      * by apply simple_wf_removed.
      * simpl. by rewrite simple_students_decremented.
      * done.
      * intros k' Hk'. simpl. rewrite simple_enrollments_decremented.
        rewrite od_get_del_ne; [apply Hall; by right | intros Heq; by subst k'].
      * simpl. rewrite simple_enrollments_decremented. intros k' e' Hin Hs.
        pose proof Hwf0 as [[_ Hwfk _ _] _].
        pose proof (od_del_elem_key _ _ _ _ Hwfk Hin) as Hne.
        apply od_del_elem in Hin.
        pose proof (Hcov _ _ Hin Hs) as Hm. apply elem_of_cons in Hm as [?|?]; done.
  - exists st1. split_and!; try done.
    intros k e Hin Hs. pose proof (Hnone _ _ Hin Hs) as Hm. by apply elem_of_nil in Hm.
Qed.

Lemma simple_wf_delete_student sid st : wf st -> wf (delete_student sid st).2.
Proof.
  intros Hwf. unfold delete_student, bind at 1, get.
  destruct (decide (is_Some (students st !! sid))); [|done].
  destruct (simple_delete_student_loop sid st Hwf) as (st1 & Hrun & Hwf1 & Hst & Hnone).
  unfold bind at 1. rewrite Hrun. unfold modify. simpl.
  destruct Hwf1 as [[Hci Hk Hkf Hr] Hc].
  split; [split|]; simpl; try done.
  intros k e Hin. destruct (Hr k e Hin) as [? ?]. split; [|done].
  rewrite lookup_delete_ne; [done|]. intros Heq. by apply (Hnone k e Hin).
Qed.

Lemma simple_delete_course_loop cid st :
  wf st ->
  exists st1,
    for_each (keys_where (fun e => Enrollment.course_id e = cid) (enrollments st))
      del_enrollment st
    = (inr tt, st1)
    /\ consistent st1 /\ counts_ok_on (fun k => k <> cid) st1
    /\ (forall k e, (k, e) ∈ enrollments st1 -> Enrollment.course_id e <> cid).
Proof.
  intros [Hco Hc].
  set (I := fun (ks : list (Z * Z)) (st1 : db) =>
    consistent st1 /\ counts_ok_on (fun k => k <> cid) st1 /\ NoDup ks
    /\ (forall k, k ∈ ks -> exists e, od_get k (enrollments st1) = Some e
                                      /\ Enrollment.course_id e = cid)
    /\ (forall k e, (k, e) ∈ enrollments st1 -> Enrollment.course_id e = cid -> k ∈ ks)).
  destruct (for_each_inv (E := exception) I del_enrollment
              (keys_where (fun e => Enrollment.course_id e = cid) (enrollments st)) st)
    as (st1 & Hrun & Hco1 & Hc1 & _ & _ & Hnone).
  - unfold I. pose proof Hco as [_ Hk _ _]. split_and!; [done | ..].
    + intros k c _. by apply Hc.
    + by apply simple_keys_where_NoDup.
    + intros k (e & Hin & ?)%simple_keys_where_elem. exists e.
      by rewrite (od_get_wf _ _ _ Hk Hin).
    + intros k e Hin Hs. apply simple_keys_where_elem. eauto.
  - intros k ks st0 (Hco0 & Hc0 & [Hk Hks]%NoDup_cons & Hall & Hcov).
    destruct (Hall k) as (e & Hget & Hcid); [left|].
    exists (set_enrollments (od_del k) st0). split.
    + apply simple_del_enrollment_run. eauto.
    + unfold I. split_and!.
      * by apply simple_consistent_del.
      * apply (simple_counts_del_only _ k e); [done | done | ]. intros Hne. by apply Hne.
      * done.
      * intros k' Hk'. simpl.
        rewrite od_get_del_ne; [apply Hall; by right | intros Heq; by subst k'].
      * simpl. intros k' e' Hin Hs.
        pose proof Hco0 as [_ Hwfk _ _].
        pose proof (od_del_elem_key _ _ _ _ Hwfk Hin) as Hne.
        apply od_del_elem in Hin.
        pose proof (Hcov _ _ Hin Hs) as Hm. apply elem_of_cons in Hm as [?|?]; done.
  - exists st1. split_and!; try done.
    intros k e Hin Hs. pose proof (Hnone _ _ Hin Hs) as Hm. by apply elem_of_nil in Hm.
Qed.

Lemma simple_wf_delete_course cid st : wf st -> wf (delete_course cid st).2.
Proof.
  intros Hwf. unfold delete_course, bind at 1, get.
  destruct (decide (is_Some (courses st !! cid))); [|done].
  destruct (simple_delete_course_loop cid st Hwf) as (st1 & Hrun & Hco1 & Hc1 & Hnone).
  unfold bind at 1. rewrite Hrun. unfold modify. simpl.
  destruct Hco1 as [Hci Hk Hkf Hr].
  split; [split|]; simpl; try done.
  - intros k c [_ Hl]%lookup_delete_Some. eauto.
  - intros k e Hin. destruct (Hr k e Hin) as [? ?]. split; [done|].
    rewrite lookup_delete_ne; [done|]. intros Heq. by apply (Hnone k e Hin).
  - unfold counts_ok, counts_ok_on. simpl.
    intros k c _ [Hne Hl]%lookup_delete_Some. apply Hc1; [congruence | done].
Qed.

(** *** Every reachable store is well-formed *)

Lemma simple_wf_serve today r st : wf st -> wf (serve today r st).
Proof.
  intros Hwf. destruct r; simpl.
  - by apply simple_wf_create_professor.
  - by apply simple_wf_update_professor.
  - by apply simple_wf_delete_professor.
  - by apply simple_wf_create_student.
  - by apply simple_wf_update_student.
  - by apply simple_wf_delete_student.
  - by apply simple_wf_create_course.
  - by apply simple_wf_update_course.
  - by apply simple_wf_delete_course.
  - by apply simple_wf_enroll.
  - by apply simple_wf_update_enrollment_grade.
  - by apply simple_wf_drop_course.
Qed.

Lemma simple_reachable_wf st : reachable st -> wf st.
Proof. induction 1; [apply simple_wf_init | by apply simple_wf_serve]. Qed.

End SimpleFacts.

(* ===================================================================== *)
(** * The claims of the specification *)
(* ===================================================================== *)

(** ** Enrolling *)

(** The checks of [enroll_student_in_course], in the order of the source. *)
Lemma enhanced_enroll_table today s c (st : Enhanced.db) :
  Enhanced.consistent st ->
  Enhanced.enroll_student_in_course today (Enhanced.mkEnrollmentCreate s c) st
  = match Enhanced.students st !! s, Enhanced.courses st !! c with
    | None, _ => (inl (Enhanced.not_found_int "Student" s), st)
    | Some _, None => (inl (Enhanced.not_found_int "Course" c), st)
    | Some student, Some course =>
        if Enhanced.Course.max_capacity course <=? Enhanced.Course.enrolled_students course
        then (inl Enhanced.ENROLLMENT_CAPACITY_EXCEEDED, st)
        else if decide (Enhanced.enrolled st s c)
        then (inl Enhanced.DUPLICATE_ENROLLMENT, st)
        else (inr (Enhanced.mkEnrollmentSuccessResponse
                     (Enhanced.enrollment_key (Enhanced.next_enrollment_id st))
                     student (Enhanced.Course.add_enrolled 1 course) today),
              Enhanced.enrolled_state today s c course st)
    end.
Proof.
  intros Hco.
  destruct (Enhanced.students st !! s) as [student|] eqn:Hs.
  - destruct (Enhanced.courses st !! c) as [course|] eqn:Hc.
    + destruct (Enhanced.Course.max_capacity course
                <=? Enhanced.Course.enrolled_students course) eqn:Hcap.
      * unfold Enhanced.enroll_student_in_course, bind, get, raise. simpl.
        by rewrite Hs, Hc, Hcap.
      * pose proof (EnhancedFacts.duplicate_test st s c student course Hco Hs Hc) as Hd.
        destruct (decide (Enhanced.enrolled st s c)) as [Hen|Hen].
        -- apply Hd in Hen.
           unfold Enhanced.enroll_student_in_course, bind, get, raise. simpl.
           by rewrite Hs, Hc, Hcap, Hen.
        -- apply EnhancedFacts.enroll_run; [done | done | by apply Z.leb_gt |].
           destruct (Enhanced.truthy_opt _); [|done]. exfalso. by apply Hen, Hd.
    + unfold Enhanced.enroll_student_in_course, bind, get, raise. simpl.
      by rewrite Hs, Hc.
  - unfold Enhanced.enroll_student_in_course, bind, get, raise. simpl.
    by rewrite Hs.
Qed.

Lemma simple_enroll_table today s c (st : Simple.db) :
  Simple.enroll_student_in_course today (Simple.mkEnrollmentCreate s c) st
  = match Simple.students st !! s, Simple.courses st !! c with
    | None, _ => (inl (Simple.HTTPException 404 "Student not found"), st)
    | Some _, None => (inl (Simple.HTTPException 404 "Course not found"), st)
    | Some _, Some course =>
        if Simple.Course.max_capacity course <=? Simple.Course.enrolled_students course
        then (inl (Simple.HTTPException 400 "Course is full"), st)
        else if decide (is_Some (od_get (s, c) (Simple.enrollments st)))
        then (inl (Simple.HTTPException 400 "Student is already enrolled in this course"),
              st)
        else (inr (Simple.Enrollment.mk s c today None),
              Simple.enrolled_state today s c course st)
    end.
Proof.
  unfold Simple.enroll_student_in_course, bind, get, raise, modify, ret. simpl.
  destruct (Simple.students st !! s) as [student|] eqn:Hs.
  - rewrite decide_True by eauto.
    destruct (Simple.courses st !! c) as [course|] eqn:Hc; [|done].
    destruct (_ <=? _); [done|].
    destruct (decide (is_Some (od_get (s, c) (Simple.enrollments st)))) as [Hm|Hm].
    + by rewrite (proj2 (od_mem_spec _ _) Hm).
    + apply eq_None_not_Some in Hm. by rewrite (proj2 (od_mem_false _ _) Hm).
  - rewrite decide_False; [done|]. by intros [? ?].
Qed.



(** C2. After every operation of either service, the [enrolled_students]
    field of every live course equals the number of live enrollments whose
    [course_id] is the id of that course. *)
Theorem C2_enrolled_students_is_live_count (est : Enhanced.db) (sst : Simple.db) :
  Enhanced.reachable est -> Simple.reachable sst ->
  (forall k c, Enhanced.courses est !! k = Some c ->
     Enhanced.Course.enrolled_students c
     = Enhanced.live_enrollments k (Enhanced.enrollments est))
  /\ (forall k c, Simple.courses sst !! k = Some c ->
        Simple.Course.enrolled_students c
        = Simple.live_enrollments k (Simple.enrollments sst)).
Proof.
  intros [_ He]%EnhancedFacts.reachable_wf [_ Hs]%SimpleFacts.simple_reachable_wf.
  split.
  - intros k c. by apply He.
  - intros k c. by apply Hs.
Qed.

(** C2 on the stores where student 1 took the only seat of a new course. *)
Lemma C2_enrolled_students_is_live_count_witness :
  Enhanced.reachable Scenario.seminar_full
  /\ Simple.reachable Scenario.simple_seminar_full
  /\ (forall k c, Enhanced.courses Scenario.seminar_full !! k = Some c ->
        Enhanced.Course.enrolled_students c
        = Enhanced.live_enrollments k (Enhanced.enrollments Scenario.seminar_full))
  /\ (forall k c, Simple.courses Scenario.simple_seminar_full !! k = Some c ->
        Simple.Course.enrolled_students c
        = Simple.live_enrollments k (Simple.enrollments Scenario.simple_seminar_full)).
Proof.
  assert (Enhanced.reachable Scenario.seminar_full) as He
    by (repeat apply Enhanced.reachable_serve; apply Enhanced.reachable_init).
  assert (Simple.reachable Scenario.simple_seminar_full) as Hs
    by (repeat apply Simple.reachable_serve; apply Simple.reachable_init).
  split; [exact He|]. split; [exact Hs|].
  exact (C2_enrolled_students_is_live_count _ _ He Hs).
Defined.

(** C3 (the code departs from it).  In the enhanced service, after student
    1 was graded A in course 1 and course 1 was deleted, the student has no
    enrollment left, [calculate_gpa] would store 0.0, and yet the stored gpa
    is still 4.0.  The simple service behaves the same way.  Moreover a
    student just created has gpa 0.0, which is below 2.0, with
    [academic_probation] false. *)
Theorem C3_gpa_not_recomputed_on_course_delete :
  Enhanced.reachable Scenario.course_deleted
  /\ Enhanced.enrollments Scenario.course_deleted = []
  /\ Enhanced.computed_gpa Scenario.course_deleted 1 = PyFloat.zero
  /\ (Enhanced.Student.gpa <$> Enhanced.students Scenario.course_deleted !! 1)
     = Some (PyFloat.of_int 4)
  /\ PyFloat.of_int 4 <> PyFloat.zero
  /\ Simple.reachable Scenario.simple_course_deleted
  /\ Simple.enrollments Scenario.simple_course_deleted = []
  /\ Simple.computed_gpa Scenario.simple_course_deleted 1 = PyFloat.zero
  /\ (Simple.Student.gpa <$> Simple.students Scenario.simple_course_deleted !! 1)
     = Some (PyFloat.of_int 4)
  /\ Enhanced.reachable Scenario.second_student
  /\ ((fun s => (Enhanced.Student.gpa s, Enhanced.Student.academic_probation s))
        <$> Enhanced.students Scenario.second_student !! 2)
     = Some (PyFloat.zero, false)
  /\ PyFloat.ltb PyFloat.zero PyFloat.two = true.
Proof.
  split_and!.
  - repeat apply Enhanced.reachable_serve. apply Enhanced.reachable_init.
  - by vm_compute.
  - by vm_compute.
  - by vm_compute.
  - by vm_compute.
  - repeat apply Simple.reachable_serve. apply Simple.reachable_init.
  - by vm_compute.
  - by vm_compute.
  - by vm_compute.
  - repeat apply Enhanced.reachable_serve. apply Enhanced.reachable_init.
  - by vm_compute.
  - by vm_compute.
Qed.

(** C7 (the code departs from it).  [validate_course_code] tests the
    pattern on the value as sent and uppercases afterwards: ["cs101"],
    whose uppercased form ["CS101"] matches the pattern, is rejected.
    ["CS101"] is accepted and ["C1234"] is rejected. *)
Theorem C7_lowercase_code_rejected :
  Enhanced.validate_course_code "cs101" = inl tt
  /\ PyStr.upper "cs101" = "CS101"
  /\ PyStr.match_course_code (PyStr.upper "cs101") = true
  /\ Enhanced.validate_course_code "CS101" = inr "CS101"
  /\ Enhanced.validate_course_code "C1234" = inl tt
  /\ (forall v, is_Some (match Enhanced.validate_course_code v with
                         | inr w => Some w | inl _ => None end)
                <-> PyStr.match_course_code v = true).
Proof.
  split_and!; try by vm_compute.
  intros v. unfold Enhanced.validate_course_code.
  destruct (PyStr.match_course_code v); simpl; split; intros H; try done; eauto.
Qed.

(** ** A failed composite operation writes nothing *)

Lemma enhanced_grade_raises_unchanged s c g (st : Enhanced.db) e st' :
  Enhanced.update_enrollment_grade s c g st = (inl e, st') ->
  st' = st /\ e = Enhanced.not_found_enrollment s c.
Proof.
  destruct (Enhanced.get_enrollment_key_by_ids st s c) as [k|] eqn:Ek.
  - destruct (PyStr.truthy k) eqn:Et.
    + destruct (EnhancedFacts.find_enrollment_key_get _ _ _ _ Ek) as [e0 Hget].
      by rewrite (EnhancedFacts.update_enrollment_grade_run _ _ _ _ _ _ Ek Et Hget).
    + rewrite EnhancedFacts.update_enrollment_grade_not_found by (by rewrite Ek).
      by intros ?; simplify_eq.
  - rewrite EnhancedFacts.update_enrollment_grade_not_found by (by rewrite Ek).
    by intros ?; simplify_eq.
Qed.

Lemma enhanced_drop_raises_unchanged s c (st : Enhanced.db) e st' :
  Enhanced.drop_course s c st = (inl e, st') ->
  st' = st /\ e = Enhanced.not_found_enrollment s c.
Proof.
  destruct (Enhanced.get_enrollment_key_by_ids st s c) as [k|] eqn:Ek.
  - destruct (PyStr.truthy k) eqn:Et.
    + by rewrite (EnhancedFacts.drop_course_run _ _ _ _ Ek Et).
    + rewrite EnhancedFacts.drop_course_not_found by (by rewrite Ek).
      by intros ?; simplify_eq.
  - rewrite EnhancedFacts.drop_course_not_found by (by rewrite Ek).
    by intros ?; simplify_eq.
Qed.

Lemma simple_grade_raises_unchanged s c g (st : Simple.db) e st' :
  Simple.update_enrollment_grade s c g st = (inl e, st') -> st' = st.
Proof.
  destruct (Simple.GRADE_TO_POINTS (PyStr.upper g)) as [pts|] eqn:Eg.
  - destruct (od_get (s, c) (Simple.enrollments st)) as [e0|] eqn:Ek.
    + rewrite (SimpleFacts.simple_update_enrollment_grade_run _ _ _ _ e0);
        [done | by rewrite Eg | done].
    + rewrite SimpleFacts.simple_update_enrollment_grade_not_found;
        [by intros ?; simplify_eq | by rewrite Eg | done].
  - rewrite SimpleFacts.simple_update_enrollment_grade_invalid by done.
    by intros ?; simplify_eq.
Qed.

Lemma simple_drop_raises_unchanged s c (st : Simple.db) e st' :
  Simple.drop_course s c st = (inl e, st') -> st' = st.
Proof.
  destruct (od_get (s, c) (Simple.enrollments st)) as [e0|] eqn:Ek.
  - by rewrite SimpleFacts.simple_drop_course_run by eauto.
  - rewrite SimpleFacts.simple_drop_course_not_found by done.
    by intros ?; simplify_eq.
Qed.



(** ** One enrollment per pair *)

Lemma filter_unique_image {A B} `{EqDecision B} (f : A -> B) (l : list A) (x : A) :
  NoDup (f <$> l) -> x ∈ l -> filter (fun y => f y = f x) l = [x].
Proof.
  induction l as [|a l IH]; simpl.
  - by intros _ ?%elem_of_nil.
  - rewrite NoDup_cons. intros [Ha Hl] [->|Hin]%elem_of_cons.
    + rewrite filter_cons_True by done. f_equal.
      clear IH. induction l as [|b l IHl]; [done|].
      rewrite filter_cons_False.
      * apply IHl; [|by apply NoDup_cons in Hl as [_ ?]].
        intros ?. apply Ha. by right.
      * intros Heq. apply Ha. rewrite <- Heq. left.
    + rewrite filter_cons_False; [by apply IH|].
      intros Heq. apply Ha. rewrite Heq. apply list_elem_of_fmap. eauto.
Qed.

Lemma simple_pairs_keys (st : Simple.db) :
  Simple.consistent st -> Simple.pairs (Simple.enrollments st) = od_keys (Simple.enrollments st).
Proof.
  intros [_ _ Hkf _]. unfold Simple.pairs, od_keys.
  apply list_fmap_ext. intros i [k e] Hl. simpl.
  symmetry. apply (Hkf k e). by eapply list_elem_of_lookup_2.
Qed.

(** C5 as stated fails: with student 1 in the only seat of course 2, a
    second enrollment of the same pair is refused by the capacity check,
    which comes first, and not by the duplicate check. *)
Lemma C5_second_enroll_hits_capacity_first :
  Enhanced.reachable Scenario.seminar_full
  /\ Enhanced.enrolled Scenario.seminar_full 1 2
  /\ (Enhanced.enroll_student_in_course Scenario.day (Enhanced.mkEnrollmentCreate 1 2)
        Scenario.seminar_full).1
     = inl (Enhanced.Conflict "ENROLLMENT_CAPACITY_EXCEEDED")
  /\ Enhanced.Conflict "ENROLLMENT_CAPACITY_EXCEEDED"
     <> Enhanced.Conflict "DUPLICATE_ENROLLMENT".
Proof.
  split_and!.
  - repeat apply Enhanced.reachable_serve. apply Enhanced.reachable_init.
  - unfold Enhanced.enrolled. vm_compute. right. left.
  - by vm_compute.
  - done.
Qed.

(** C5, amended.  After every operation of either service no two live
    enrollments link the same pair.  Enrolling an enrolled pair again is
    refused and changes nothing, so that the pair keeps exactly one record:
    with the duplicate error when the course has a free seat, with the
    capacity error when it is full. *)
Theorem C5_one_enrollment_per_pair
    (est : Enhanced.db) (sst : Simple.db) (today : date) (s c : Z) :
  Enhanced.reachable est -> Simple.reachable sst ->
  NoDup (Enhanced.pairs (Enhanced.enrollments est))
  /\ (Enhanced.enrolled est s c ->
      exists course k e,
        Enhanced.courses est !! c = Some course
        /\ Enhanced.enroll_student_in_course today (Enhanced.mkEnrollmentCreate s c) est
           = (inl (if Enhanced.Course.max_capacity course
                        <=? Enhanced.Course.enrolled_students course
                   then Enhanced.Conflict "ENROLLMENT_CAPACITY_EXCEEDED"
                   else Enhanced.Conflict "DUPLICATE_ENROLLMENT"), est)
        /\ filter (fun kv => (Enhanced.Enrollment.student_id kv.2,
                              Enhanced.Enrollment.course_id kv.2) = (s, c))
             (Enhanced.enrollments est) = [(k, e)])
  /\ NoDup (Simple.pairs (Simple.enrollments sst))
  /\ (Simple.enrolled sst s c ->
      exists course e,
        Simple.courses sst !! c = Some course
        /\ Simple.enroll_student_in_course today (Simple.mkEnrollmentCreate s c) sst
           = (inl (if Simple.Course.max_capacity course
                        <=? Simple.Course.enrolled_students course
                   then Simple.HTTPException 400 "Course is full"
                   else Simple.HTTPException 400
                          "Student is already enrolled in this course"), sst)
        /\ filter (fun kv => (Simple.Enrollment.student_id kv.2,
                              Simple.Enrollment.course_id kv.2) = (s, c))
             (Simple.enrollments sst) = [((s, c), e)]).
Proof.
  intros [Hce _]%EnhancedFacts.reachable_wf [Hcs _]%SimpleFacts.simple_reachable_wf.
  split_and!.
  - by destruct Hce.
  - intros Hen. pose proof Hen as Hen'. unfold Enhanced.enrolled, Enhanced.pairs in Hen'.
    apply list_elem_of_fmap in Hen' as ([k e] & Heq & Hin). simpl in Heq.
    pose proof Hce as [_ _ _ _ Hr Hp].
    destruct (Hr k e Hin) as [[student Hs] [course Hc]]. simplify_eq.
    exists course, k, e. split; [done|]. split.
    + rewrite (enhanced_enroll_table _ _ _ _ Hce), Hs, Hc.
      destruct (_ <=? _); [done|]. by rewrite decide_True.
    + exact (filter_unique_image
               (fun kv => (Enhanced.Enrollment.student_id kv.2,
                           Enhanced.Enrollment.course_id kv.2))
               (Enhanced.enrollments est) (k, e) Hp Hin).
  - rewrite (simple_pairs_keys _ Hcs). by destruct Hcs.
  - intros Hen. pose proof Hen as Hen'. unfold Simple.enrolled, Simple.pairs in Hen'.
    apply list_elem_of_fmap in Hen' as ([k e] & Heq & Hin). simpl in Heq.
    pose proof Hcs as [_ Hk Hkf Hr].
    destruct (Hr k e Hin) as [[student Hs] [course Hc]].
    pose proof (Hkf k e Hin) as ->. simplify_eq.
    exists course, e. split; [done|]. split.
    + rewrite simple_enroll_table, Hs, Hc.
      destruct (_ <=? _); [done|]. rewrite decide_True; [done|].
      rewrite (od_get_wf _ _ _ Hk Hin). eauto.
    + apply (filter_unique_image
               (fun kv => (Simple.Enrollment.student_id kv.2,
                           Simple.Enrollment.course_id kv.2))
               (Simple.enrollments sst)
               ((Simple.Enrollment.student_id e, Simple.Enrollment.course_id e), e));
        [|done].
      fold (Simple.pairs (Simple.enrollments sst)).
      rewrite (simple_pairs_keys _ Hcs). done.
Qed.

(** C5 on the stores whose one-seat course is taken by student 1. *)
Lemma C5_one_enrollment_per_pair_witness :
  Enhanced.reachable Scenario.seminar_full
  /\ Simple.reachable Scenario.simple_seminar_full
  /\ NoDup (Enhanced.pairs (Enhanced.enrollments Scenario.seminar_full))
  /\ NoDup (Simple.pairs (Simple.enrollments Scenario.simple_seminar_full)).
Proof.
  assert (Enhanced.reachable Scenario.seminar_full) as He
    by (repeat apply Enhanced.reachable_serve; apply Enhanced.reachable_init).
  assert (Simple.reachable Scenario.simple_seminar_full) as Hs
    by (repeat apply Simple.reachable_serve; apply Simple.reachable_init).
  split; [exact He|]. split; [exact Hs|].
  destruct (C5_one_enrollment_per_pair _ _ Scenario.day 1 2 He Hs) as (H1 & _ & H2 & _).
  split; [exact H1 | exact H2].
Defined.

(** ** Grading twice *)

Lemma enhanced_find_enrollment_key_set s c k e e' d :
  od_get k d = Some e ->
  Enhanced.Enrollment.student_id e' = Enhanced.Enrollment.student_id e ->
  Enhanced.Enrollment.course_id e' = Enhanced.Enrollment.course_id e ->
  Enhanced.find_enrollment_key s c (od_set k e' d) = Enhanced.find_enrollment_key s c d.
Proof.
  intros Hget Hs Hc. induction d as [|[k1 e1] d IH]; simpl in *; [done|].
  destruct (decide (k = k1)) as [->|Hne]; simplify_eq; simpl.
  - by rewrite Hs, Hc.
  - by rewrite IH.
Qed.

Lemma enhanced_with_gpa_twice s (st : Enhanced.db) :
  Enhanced.with_gpa s (Enhanced.with_gpa s st) = Enhanced.with_gpa s st.
Proof.
  unfold Enhanced.with_gpa at 2. destruct (Enhanced.students st !! s) as [student|] eqn:Es.
  - unfold Enhanced.with_gpa. simpl. rewrite lookup_insert_eq, Es.
    unfold Enhanced.set_students. simpl. rewrite insert_insert_eq.
    by destruct student.
  - unfold Enhanced.with_gpa. by rewrite Es.
Qed.

Lemma simple_with_gpa_twice s (st : Simple.db) :
  Simple.with_gpa s (Simple.with_gpa s st) = Simple.with_gpa s st.
Proof.
  unfold Simple.with_gpa at 2. destruct (Simple.students st !! s) as [student|] eqn:Es.
  - unfold Simple.with_gpa. simpl. rewrite lookup_insert_eq, Es.
    unfold Simple.set_students. simpl. rewrite insert_insert_eq.
    by destruct student.
  - unfold Simple.with_gpa. by rewrite Es.
Qed.

(** Writing the enrollments commutes with the recomputation of another
    field, the gpa, as far as the enrollments and courses go. *)
Lemma enhanced_regrade_with_gpa s k e' (st : Enhanced.db) :
  od_get k (Enhanced.enrollments st) = Some e' ->
  Enhanced.with_gpa s (Enhanced.set_enrollments (od_set k e') (Enhanced.with_gpa s st))
  = Enhanced.with_gpa s st.
Proof.
  intros Hget.
  assert (Enhanced.set_enrollments (od_set k e') (Enhanced.with_gpa s st)
          = Enhanced.with_gpa s st) as ->; [|apply enhanced_with_gpa_twice].
  unfold Enhanced.with_gpa. destruct (Enhanced.students st !! s);
    unfold Enhanced.set_enrollments; simpl; rewrite (od_set_same _ _ _ Hget);
    by destruct st.
Qed.

Lemma simple_regrade_with_gpa s k e' (st : Simple.db) :
  od_get k (Simple.enrollments st) = Some e' ->
  Simple.with_gpa s (Simple.set_enrollments (od_set k e') (Simple.with_gpa s st))
  = Simple.with_gpa s st.
Proof.
  intros Hget.
  assert (Simple.set_enrollments (od_set k e') (Simple.with_gpa s st)
          = Simple.with_gpa s st) as ->; [|apply simple_with_gpa_twice].
  unfold Simple.with_gpa. destruct (Simple.students st !! s);
    unfold Simple.set_enrollments; simpl; rewrite (od_set_same _ _ _ Hget);
    by destruct st.
Qed.

Lemma enhanced_grade_twice s c g (st : Enhanced.db) :
  let once := Enhanced.update_enrollment_grade s c g st in
  Enhanced.update_enrollment_grade s c g once.2 = (once.1, once.2).
Proof.
  cbv zeta.
  destruct (Enhanced.get_enrollment_key_by_ids st s c) as [k|] eqn:Ek.
  - destruct (PyStr.truthy k) eqn:Et.
    + destruct (EnhancedFacts.find_enrollment_key_get _ _ _ _ Ek) as [e Hget].
      rewrite (EnhancedFacts.update_enrollment_grade_run _ _ _ _ _ _ Ek Et Hget). simpl.
      set (e' := Enhanced.Enrollment.set_grade (PyStr.upper g) e).
      set (st1 := Enhanced.set_enrollments (od_set k e') st).
      assert (od_get k (Enhanced.enrollments (Enhanced.with_gpa s st1)) = Some e') as Hget1.
      { unfold Enhanced.with_gpa. destruct (Enhanced.students st1 !! s); simpl;
          apply od_get_set_eq. }
      assert (Enhanced.get_enrollment_key_by_ids (Enhanced.with_gpa s st1) s c = Some k)
        as Ek1.
      { unfold Enhanced.get_enrollment_key_by_ids.
        replace (Enhanced.enrollments (Enhanced.with_gpa s st1))
          with (od_set k e' (Enhanced.enrollments st)).
        - by rewrite (enhanced_find_enrollment_key_set s c k e e').
        - unfold Enhanced.with_gpa. by destruct (Enhanced.students st1 !! s). }
      rewrite (EnhancedFacts.update_enrollment_grade_run _ _ _ _ k e' Ek1 Et Hget1).
      f_equal. change (Enhanced.Enrollment.set_grade (PyStr.upper g) e') with e'.
      apply enhanced_regrade_with_gpa. unfold st1. simpl. apply od_get_set_eq.
    + assert (Enhanced.truthy_opt (Enhanced.get_enrollment_key_by_ids st s c) = false)
        as Hnf by (by rewrite Ek).
      rewrite (EnhancedFacts.update_enrollment_grade_not_found _ _ _ g Hnf). simpl.
      by rewrite (EnhancedFacts.update_enrollment_grade_not_found _ _ _ g Hnf).
  - assert (Enhanced.truthy_opt (Enhanced.get_enrollment_key_by_ids st s c) = false)
      as Hnf by (by rewrite Ek).
    rewrite (EnhancedFacts.update_enrollment_grade_not_found _ _ _ g Hnf). simpl.
    by rewrite (EnhancedFacts.update_enrollment_grade_not_found _ _ _ g Hnf).
Qed.

Lemma simple_grade_twice s c g (st : Simple.db) :
  let once := Simple.update_enrollment_grade s c g st in
  Simple.update_enrollment_grade s c g once.2 = (once.1, once.2).
Proof.
  cbv zeta.
  destruct (Simple.GRADE_TO_POINTS (PyStr.upper g)) as [pts|] eqn:Eg.
  - assert (is_Some (Simple.GRADE_TO_POINTS (PyStr.upper g))) as Hg by (by rewrite Eg).
    destruct (od_get (s, c) (Simple.enrollments st)) as [e|] eqn:Ek.
    + rewrite (SimpleFacts.simple_update_enrollment_grade_run _ _ _ _ e Hg Ek). simpl.
      set (e' := Simple.Enrollment.set_grade (PyStr.upper g) e).
      set (st1 := Simple.set_enrollments (od_set (s, c) e') st).
      assert (od_get (s, c) (Simple.enrollments (Simple.with_gpa s st1)) = Some e') as Hget1.
      { unfold Simple.with_gpa. destruct (Simple.students st1 !! s); simpl;
          apply od_get_set_eq. }
      rewrite (SimpleFacts.simple_update_enrollment_grade_run _ _ _ _ e' Hg Hget1).
      f_equal. change (Simple.Enrollment.set_grade (PyStr.upper g) e') with e'.
      apply simple_regrade_with_gpa. unfold st1. simpl. apply od_get_set_eq.
    + rewrite (SimpleFacts.simple_update_enrollment_grade_not_found _ _ _ g Hg Ek). simpl.
      by rewrite (SimpleFacts.simple_update_enrollment_grade_not_found _ _ _ g Hg Ek).
  - rewrite (SimpleFacts.simple_update_enrollment_grade_invalid _ s c g Eg). simpl.
    by rewrite (SimpleFacts.simple_update_enrollment_grade_invalid _ s c g Eg).
Qed.

(** C10. In both services, grading a pair with the same grade a second
    time returns what the first call returned and leaves the store exactly
    as the first call left it. *)
Theorem C10_grade_is_idempotent
    (est : Enhanced.db) (sst : Simple.db) (s c : Z) (g : string) :
  (let once := Enhanced.update_enrollment_grade s c g est in
   Enhanced.update_enrollment_grade s c g once.2 = once)
  /\ (let once := Simple.update_enrollment_grade s c g sst in
      Simple.update_enrollment_grade s c g once.2 = once).
Proof.
  split; cbv zeta.
  - rewrite enhanced_grade_twice. by destruct (Enhanced.update_enrollment_grade s c g est).
  - rewrite simple_grade_twice. by destruct (Simple.update_enrollment_grade s c g sst).
Qed.

(** ** Dropping a course *)

Lemma od_del_fmap_notin {K V B} `{EqDecision K} (f : K * V -> B) k v (d : odict K V) :
  NoDup (f <$> d) -> od_get k d = Some v -> f (k, v) ∉ f <$> od_del k d.
Proof.
  induction d as [|[k1 v1] d IH]; simpl; [done|].
  rewrite NoDup_cons. intros [Hk Hd].
  destruct (decide (k = k1)) as [->|Hne]; intros Hget; simplify_eq; [done|].
  simpl. apply not_elem_of_cons. split; [|by apply IH].
  intros Heq. apply Hk. rewrite <- Heq. apply list_elem_of_fmap.
  exists (k, v). split; [done|]. by apply od_get_elem.
Qed.

Lemma enhanced_computed_gpa_with_gpa s s' (st : Enhanced.db) :
  Enhanced.computed_gpa (Enhanced.with_gpa s st) s' = Enhanced.computed_gpa st s'.
Proof.
  apply EnhancedFacts.computed_gpa_ext; unfold Enhanced.with_gpa;
    by destruct (Enhanced.students st !! s).
Qed.

Lemma simple_computed_gpa_with_gpa s s' (st : Simple.db) :
  Simple.computed_gpa (Simple.with_gpa s st) s' = Simple.computed_gpa st s'.
Proof.
  unfold Simple.computed_gpa, Simple.with_gpa.
  by destruct (Simple.students st !! s).
Qed.



(** The guard of the decrement at work: in a store whose enrollment names
    a course that is not there, dropping removes the record and leaves
    the courses alone. *)
Example drop_course_without_course :
  Enhanced.courses Scenario.orphan !! 1 = None
  /\ exists st', Enhanced.drop_course 1 1 Scenario.orphan = (inr tt, st')
                 /\ Enhanced.courses st' = Enhanced.courses Scenario.orphan
                 /\ Enhanced.enrollments st' = [].
Proof. split; [by vm_compute|]. eexists. split_and!; by vm_compute. Qed.

(** ** Updates are patches *)

Lemma enhanced_professor_patch u p :
  let p' := fold_left Enhanced.Professor.setattr (Enhanced.dump_professor_update u) p in
  Enhanced.Professor.name p'
  = Enhanced.patched (Enhanced.pu_name u) (Enhanced.Professor.name p)
  /\ Enhanced.Professor.email p'
     = Enhanced.patched (Enhanced.pu_email u) (Enhanced.Professor.email p)
  /\ Enhanced.Professor.department p'
     = Enhanced.patched (Enhanced.pu_department u) (Enhanced.Professor.department p)
  /\ Enhanced.Professor.id p' = Enhanced.Professor.id p
  /\ Enhanced.Professor.hire_date p' = Enhanced.Professor.hire_date p.
Proof. by destruct u as [[?|] [?|] [?|]]. Qed.

Lemma enhanced_student_patch u s :
  let s' := fold_left Enhanced.Student.setattr (Enhanced.dump_student_update u) s in
  Enhanced.Student.name s' = Enhanced.patched (Enhanced.su_name u) (Enhanced.Student.name s)
  /\ Enhanced.Student.email s'
     = Enhanced.patched (Enhanced.su_email u) (Enhanced.Student.email s)
  /\ Enhanced.Student.major s'
     = Enhanced.patched (Enhanced.su_major u) (Enhanced.Student.major s)
  /\ Enhanced.Student.year s' = Enhanced.patched (Enhanced.su_year u) (Enhanced.Student.year s)
  /\ Enhanced.Student.id s' = Enhanced.Student.id s
  /\ Enhanced.Student.gpa s' = Enhanced.Student.gpa s
  /\ Enhanced.Student.academic_probation s' = Enhanced.Student.academic_probation s.
Proof. by destruct u as [[?|] [?|] [?|] [?|]]. Qed.

Lemma enhanced_course_patch u c :
  let c' := fold_left Enhanced.Course.setattr (Enhanced.dump_course_update u) c in
  Enhanced.Course.name c' = Enhanced.patched (Enhanced.cu_name u) (Enhanced.Course.name c)
  /\ Enhanced.Course.code c' = Enhanced.patched (Enhanced.cu_code u) (Enhanced.Course.code c)
  /\ Enhanced.Course.credits c'
     = Enhanced.patched (Enhanced.cu_credits u) (Enhanced.Course.credits c)
  /\ Enhanced.Course.max_capacity c'
     = Enhanced.patched (Enhanced.cu_max_capacity u) (Enhanced.Course.max_capacity c)
  /\ Enhanced.Course.professor_id c'
     = Enhanced.patched (Enhanced.cu_professor_id u) (Enhanced.Course.professor_id c)
  /\ Enhanced.Course.id c' = Enhanced.Course.id c
  /\ Enhanced.Course.enrolled_students c' = Enhanced.Course.enrolled_students c.
Proof. by destruct u as [[?|] [?|] [?|] [?|] [?|]]. Qed.




(** ** Emails *)

Lemma enhanced_check_unique_email_run e cur (st : Enhanced.db) :
  Enhanced.check_unique_email e cur st
  = if decide (Enhanced.professor_holds st e cur \/ Enhanced.student_holds st e cur)
    then (inl Enhanced.EMAIL_ALREADY_EXISTS, st) else (inr tt, st).
Proof.
  unfold Enhanced.check_unique_email, bind, get, raise, ret.
  repeat case_decide; try done; tauto.
Qed.

Lemma enhanced_email_in_use_holds e (st : Enhanced.db) :
  Enhanced.email_in_use st e
  <-> Enhanced.professor_holds st e None \/ Enhanced.student_holds st e None.
Proof.
  unfold Enhanced.email_in_use, Enhanced.professor_holds, Enhanced.student_holds, map_Exists.
  split; (intros [(k & x & ?)|(k & x & ?)]; [left|right]; exists k, x; naive_solver).
Qed.

Lemma enhanced_create_professor_run d (st : Enhanced.db) :
  Enhanced.create_professor d st
  = if decide (Enhanced.email_in_use st (Enhanced.pc_email d))
    then (inl Enhanced.EMAIL_ALREADY_EXISTS, st)
    else
      let p := Enhanced.Professor.mk (Enhanced.next_professor_id st) (Enhanced.pc_name d)
                 (Enhanced.pc_email d) (Enhanced.pc_department d)
                 (Enhanced.pc_hire_date d) in
      (inr p, Enhanced.bump_next_professor_id
                (Enhanced.set_professors (insert (Enhanced.next_professor_id st) p) st)).
Proof.
  unfold Enhanced.create_professor. unfold bind at 1.
  rewrite enhanced_check_unique_email_run.
  pose proof (enhanced_email_in_use_holds (Enhanced.pc_email d) st).
  repeat case_decide; try done; tauto.
Qed.

Lemma enhanced_create_student_run d (st : Enhanced.db) :
  Enhanced.create_student d st
  = if decide (Enhanced.email_in_use st (Enhanced.sc_email d))
    then (inl Enhanced.EMAIL_ALREADY_EXISTS, st)
    else
      let s := Enhanced.Student.mk (Enhanced.next_student_id st) (Enhanced.sc_name d)
                 (Enhanced.sc_email d) (Enhanced.sc_major d) (Enhanced.sc_year d)
                 PyFloat.zero false in
      (inr s, Enhanced.bump_next_student_id
                (Enhanced.set_students (insert (Enhanced.next_student_id st) s) st)).
Proof.
  unfold Enhanced.create_student. unfold bind at 1.
  rewrite enhanced_check_unique_email_run.
  pose proof (enhanced_email_in_use_holds (Enhanced.sc_email d) st).
  repeat case_decide; try done; tauto.
Qed.

Lemma enhanced_update_professor_conflict i u e p (st : Enhanced.db) :
  Enhanced.professors st !! i = Some p ->
  Enhanced.pu_email u = Some e -> PyStr.truthy e = true ->
  Enhanced.professor_holds st e (Some i) \/ Enhanced.student_holds st e (Some i) ->
  Enhanced.update_professor i u st = (inl Enhanced.EMAIL_ALREADY_EXISTS, st).
Proof.
  intros Hp He Ht Hh. unfold Enhanced.update_professor, bind at 1, get.
  rewrite Hp, He, Ht. unfold bind at 1.
  rewrite enhanced_check_unique_email_run. by rewrite decide_True.
Qed.

Lemma enhanced_update_student_conflict i u e s (st : Enhanced.db) :
  Enhanced.students st !! i = Some s ->
  Enhanced.su_email u = Some e -> PyStr.truthy e = true ->
  Enhanced.professor_holds st e (Some i) \/ Enhanced.student_holds st e (Some i) ->
  Enhanced.update_student i u st = (inl Enhanced.EMAIL_ALREADY_EXISTS, st).
Proof.
  intros Hs He Ht Hh. unfold Enhanced.update_student, bind at 1, get.
  rewrite Hs, He, Ht. unfold bind at 1.
  rewrite enhanced_check_unique_email_run. by rewrite decide_True.
Qed.

Lemma enhanced_emails_unique_new_professor n p (st : Enhanced.db) :
  Enhanced.emails_unique st ->
  ~ Enhanced.email_in_use st (Enhanced.Professor.email p) ->
  Enhanced.emails_unique
    (Enhanced.bump_next_professor_id (Enhanced.set_professors (insert n p) st)).
Proof.
  intros (Hpp & Hss & Hps) Hfree. unfold Enhanced.emails_unique. simpl.
  assert (forall k q, Enhanced.professors st !! k = Some q ->
                      Enhanced.Professor.email q <> Enhanced.Professor.email p) as Hp.
  { intros k q Hq Heq. apply Hfree. left. eauto. }
  assert (forall k s, Enhanced.students st !! k = Some s ->
                      Enhanced.Student.email s <> Enhanced.Professor.email p) as Hs.
  { intros k s Hq Heq. apply Hfree. right. eauto. }
  split_and!.
  - intros k1 k2 p1 p2 [[-> <-]|[? H1]]%lookup_insert_Some
      [[-> <-]|[? H2]]%lookup_insert_Some Heq; try done.
    + symmetry in Heq. by apply Hp in H2.
    + by apply Hp in H1.
    + eauto.
  - done.
  - intros k1 k2 q s [[-> <-]|[? H1]]%lookup_insert_Some H2 Heq.
    + symmetry in Heq. by apply Hs in H2.
    + by apply (Hps _ _ _ _ H1 H2).
Qed.

Lemma enhanced_emails_unique_new_student n s (st : Enhanced.db) :
  Enhanced.emails_unique st ->
  ~ Enhanced.email_in_use st (Enhanced.Student.email s) ->
  Enhanced.emails_unique
    (Enhanced.bump_next_student_id (Enhanced.set_students (insert n s) st)).
Proof.
  intros (Hpp & Hss & Hps) Hfree. unfold Enhanced.emails_unique. simpl.
  assert (forall k q, Enhanced.professors st !! k = Some q ->
                      Enhanced.Professor.email q <> Enhanced.Student.email s) as Hp.
  { intros k q Hq Heq. apply Hfree. left. eauto. }
  assert (forall k s', Enhanced.students st !! k = Some s' ->
                       Enhanced.Student.email s' <> Enhanced.Student.email s) as Hs.
  { intros k s' Hq Heq. apply Hfree. right. eauto. }
  split_and!.
  - done.
  - intros k1 k2 s1 s2 [[-> <-]|[? H1]]%lookup_insert_Some
      [[-> <-]|[? H2]]%lookup_insert_Some Heq; try done.
    + symmetry in Heq. by apply Hs in H2.
    + by apply Hs in H1.
    + eauto.
  - intros k1 k2 q s' H1 [[-> <-]|[? H2]]%lookup_insert_Some Heq.
    + by apply Hp in H1.
    + by apply (Hps _ _ _ _ H1 H2).
Qed.


(** In the enhanced service [check_unique_email] compares the id of the
    updated record with the ids of both collections: professor 1 may take
    the email of student 1. *)
Lemma enhanced_professor_takes_student_email :
  let st := Enhanced.init_db Scenario.day in
  let u := Enhanced.mkProfessorUpdate None (Some "joan.clarke@example.com") None in
  Enhanced.emails_unique st
  /\ (exists p, (Enhanced.update_professor 1 u st).1 = inr p
                /\ Enhanced.Professor.email p = "joan.clarke@example.com")
  /\ ~ Enhanced.emails_unique (Enhanced.update_professor 1 u st).2.
Proof.
  cbv zeta. split_and!.
  - unfold Enhanced.emails_unique. simpl. split_and!.
    + by intros k1 k2 p1 p2 [<- <-]%lookup_singleton_Some [<- <-]%lookup_singleton_Some.
    + by intros k1 k2 p1 p2 [<- <-]%lookup_singleton_Some [<- <-]%lookup_singleton_Some.
    + by intros k1 k2 p s [<- <-]%lookup_singleton_Some [<- <-]%lookup_singleton_Some.
  - eexists. split; by vm_compute.
  - intros (_ & _ & H). by eapply (H 1 1); vm_compute.
Qed.



(* ===================================================================== *)
(** * Lemmas on the reading endpoints, the cascades and the invariants *)
(* ===================================================================== *)

(** ** Iteration over the id dictionaries *)

Section dict_facts.
Context {V : Type}.
Implicit Types (m : gmap Z V).

Lemma dict_items_Permutation m : dict_items m ≡ₚ map_to_list m.
Proof. apply merge_sort_Permutation. Qed.

Lemma elem_of_dict_items m k v : (k, v) ∈ dict_items m <-> m !! k = Some v.
Proof. rewrite dict_items_Permutation. apply elem_of_map_to_list. Qed.

Lemma elem_of_dict_values m v : v ∈ dict_values m <-> exists k, m !! k = Some v.
Proof.
  unfold dict_values. rewrite list_elem_of_fmap. split.
  - intros [[k v'] [-> Hin]]. exists k. by apply elem_of_dict_items.
  - intros [k Hk]. exists (k, v). split; [done|]. by apply elem_of_dict_items.
Qed.

Lemma dict_items_NoDup m : NoDup (dict_items m).*1.
Proof. rewrite dict_items_Permutation. apply NoDup_fst_map_to_list. Qed.

Lemma dict_values_length m : length (dict_values m) = size m.
Proof.
  unfold dict_values. rewrite length_fmap, dict_items_Permutation.
  by rewrite length_map_to_list.
Qed.

End dict_facts.

(** ** A sublist picked out by a predicate *)

Lemma sublist_filter_eq {A} (P : A -> Prop) `{forall x, Decision (P x)} (l' l : list A) :
  NoDup l -> l' `sublist_of` l ->
  (forall x, x ∈ l -> P x -> x ∈ l') ->
  (forall x, x ∈ l' -> P x) ->
  l' = filter P l.
Proof.
  intros Hnd Hsub. revert Hnd. induction Hsub as [|x l1 l2 Hsub IH|x l1 l2 Hsub IH];
    intros Hnd Hkeep Hsat.
  - done.
  - apply NoDup_cons in Hnd as [Hx Hnd]. rewrite filter_cons_True.
    + f_equal. apply IH; [done | |].
      * intros y Hy HP.
        pose proof (Hkeep y (list_elem_of_further _ _ _ Hy) HP) as Hin.
        apply elem_of_cons in Hin as [->|Hin]; done.
      * intros y Hy. apply Hsat. by right.
    + apply Hsat. by left.
  - apply NoDup_cons in Hnd as [Hx Hnd]. rewrite filter_cons_False.
    + apply IH; [done | |done].
      intros y Hy HP. apply Hkeep; [by right | done].
    + intros HP. apply Hx. eapply sublist_subseteq; [exact Hsub|].
      apply Hkeep; [by left | done].
Qed.

Lemma NoDup_of_keys {K V} (d : list (K * V)) : NoDup d.*1 -> NoDup d.
Proof. apply NoDup_fmap_1. Qed.

Module EnhancedFrames.
Import Enhanced EnhancedFacts.

(** *** What a cascade leaves in place *)

Lemma add_enrolled_0 c : Course.add_enrolled 0 c = c.
Proof. destruct c. unfold Course.add_enrolled. simpl. f_equal. lia. Qed.

Lemma add_enrolled_add n m c :
  Course.add_enrolled n (Course.add_enrolled m c) = Course.add_enrolled (m + n) c.
Proof. destruct c. unfold Course.add_enrolled. simpl. f_equal. lia. Qed.

Lemma courses_recounted_refl st : courses_recounted st st.
Proof.
  intros k. destruct (courses st !! k) as [c|]; constructor.
  exists 0. by rewrite add_enrolled_0.
Qed.

Lemma courses_recounted_decremented st st0 c :
  courses_recounted st st0 -> courses_recounted st (decremented c st0).
Proof.
  intros H k. specialize (H k). unfold decremented.
  destruct (courses st0 !! c) as [course|] eqn:Ec; [|done]. simpl.
  destruct (decide (c = k)) as [<-|Hne].
  - rewrite lookup_insert_eq. rewrite Ec in H. inversion H as [? c0 [n ->] |]; subst.
    constructor. exists (n + -1). by rewrite add_enrolled_add.
  - by rewrite lookup_insert_ne.
Qed.

Lemma courses_recounted_lookup st st1 k c1 :
  courses_recounted st st1 -> courses st1 !! k = Some c1 ->
  exists c n, courses st !! k = Some c /\ c1 = Course.add_enrolled n c.
Proof.
  intros H Hk. specialize (H k). rewrite Hk in H.
  destruct (courses st !! k) as [c|]; inversion H as [? ? [n ->]|]; subst. eauto.
Qed.

(** The loop of [delete_student], step by step: everything but the
    enrollments of the student and the counts of their courses stays. *)
Lemma delete_student_loop_frame sid st :
  wf st ->
  exists st1,
    for_each (keys_where (fun e => Enrollment.student_id e = sid) (enrollments st))
      (fun eid =>
         let! e := enrollment_at eid in
         decrement_if_present (Enrollment.course_id e) ;;!
         del_enrollment eid) st
    = (inr tt, st1)
    /\ wf st1
    /\ professors st1 = professors st /\ students st1 = students st
    /\ next_professor_id st1 = next_professor_id st
    /\ next_student_id st1 = next_student_id st
    /\ next_course_id st1 = next_course_id st
    /\ next_enrollment_id st1 = next_enrollment_id st
    /\ courses_recounted st st1
    /\ enrollments st1
       = filter (fun kv => Enrollment.student_id kv.2 <> sid) (enrollments st).
Proof.
  intros Hwf.
  set (I := fun (ks : list string) (st1 : db) =>
    wf st1 /\ NoDup ks
    /\ (forall k, k ∈ ks -> exists e, od_get k (enrollments st1) = Some e
                                      /\ Enrollment.student_id e = sid)
    /\ (forall k e, (k, e) ∈ enrollments st1 -> Enrollment.student_id e = sid -> k ∈ ks)
    /\ professors st1 = professors st /\ students st1 = students st
    /\ next_professor_id st1 = next_professor_id st
    /\ next_student_id st1 = next_student_id st
    /\ next_course_id st1 = next_course_id st
    /\ next_enrollment_id st1 = next_enrollment_id st
    /\ courses_recounted st st1
    /\ enrollments st1 `sublist_of` enrollments st
    /\ (forall kv, kv ∈ enrollments st -> Enrollment.student_id kv.2 <> sid ->
          kv ∈ enrollments st1)).
  destruct (for_each_inv (E := exception) I
              (fun eid =>
                 let! e := enrollment_at eid in
                 decrement_if_present (Enrollment.course_id e) ;;!
                 del_enrollment eid)
              (keys_where (fun e => Enrollment.student_id e = sid) (enrollments st)) st)
    as (st1 & Hrun & Hwf1 & _ & _ & Hnone & Hp & Hs & Hnp & Hns & Hnc & Hne & Hcr & Hsub & Hkeep).
  - unfold I. pose proof Hwf as [[_ _ Hk _ _ _] _]. split_and!; try done.
    + by apply keys_where_NoDup.
    + intros k (e & Hin & ?)%keys_where_elem. rewrite (od_get_wf _ _ _ Hk Hin). eauto.
    + intros k e Hin Hs. apply keys_where_elem. eauto.
    + apply courses_recounted_refl.
  - intros k ks st0
      (Hwf0 & [Hk Hks]%NoDup_cons & Hall & Hcov & Hp & Hs & Hnp & Hns & Hnc & Hne & Hcr & Hsub & Hkeep).
    destruct (Hall k) as (e & Hget & Hsid); [left|].
    exists (set_enrollments (od_del k) (decremented (Enrollment.course_id e) st0)).
    split.
    + unfold bind. rewrite (enrollment_at_run _ _ _ Hget).
      rewrite decrement_if_present_run, del_enrollment_run; [done|].
      rewrite enrollments_decremented. eauto.
    + pose proof Hwf0 as [[_ _ Hwfk _ _ _] _].
      unfold I. simpl. rewrite ?enrollments_decremented, ?students_decremented.
      split_and!; try done.
      * by apply wf_removed.
      * intros k' Hk'. rewrite od_get_del_ne; [apply Hall; by right | intros ->; done].
      * intros k' e' Hin Hs'.
        pose proof (od_del_elem_key _ _ _ _ Hwfk Hin) as Hne'.
        apply od_del_elem in Hin.
        pose proof (Hcov _ _ Hin Hs') as Hm. apply elem_of_cons in Hm as [?|?]; done.
      * unfold decremented. by destruct (courses st0 !! _).
      * unfold decremented. by destruct (courses st0 !! _).
      * unfold decremented. by destruct (courses st0 !! _).
      * unfold decremented. by destruct (courses st0 !! _).
      * unfold decremented. by destruct (courses st0 !! _).
      * by apply courses_recounted_decremented.
      * etrans; [apply od_del_sublist | done].
      * intros [k' e'] Hin Hs'. apply od_del_elem_ne; [by apply Hkeep|].
        intros ->. simpl in Hs'.
        pose proof (Hkeep _ Hin Hs') as Hin0.
        rewrite (od_get_wf _ _ _ Hwfk Hin0) in Hget. by simplify_eq.
  - exists st1. split_and!; try done.
    pose proof Hwf as [[_ _ Hk _ _ _] _].
    apply sublist_filter_eq; [by apply NoDup_of_keys | done | |].
    + intros kv Hin Hs'. by apply Hkeep.
    + intros [k e] Hin Hs'. simpl in Hs'.
      pose proof (Hnone _ _ Hin Hs') as Hm. by apply elem_of_nil in Hm.
Qed.

End EnhancedFrames.

Module EnhancedCascadeRuns.
Import Enhanced EnhancedFacts EnhancedFrames.

(** The loop of [delete_course] removes the enrollments of the course and
    touches nothing else. *)
Lemma delete_course_loop_frame cid st :
  od_wf (enrollments st) ->
  for_each (keys_where (fun e => Enrollment.course_id e = cid) (enrollments st))
    del_enrollment st
  = (inr tt,
     set_enrollments (filter (fun kv => Enrollment.course_id kv.2 <> cid)) st).
Proof.
  intros Hwf.
  set (I := fun (ks : list string) (st1 : db) =>
    od_wf (enrollments st1) /\ NoDup ks
    /\ (forall k, k ∈ ks -> exists e, od_get k (enrollments st1) = Some e
                                      /\ Enrollment.course_id e = cid)
    /\ (forall k e, (k, e) ∈ enrollments st1 -> Enrollment.course_id e = cid -> k ∈ ks)
    /\ st1 = set_enrollments (fun _ => enrollments st1) st
    /\ enrollments st1 `sublist_of` enrollments st
    /\ (forall kv, kv ∈ enrollments st -> Enrollment.course_id kv.2 <> cid ->
          kv ∈ enrollments st1)).
  destruct (for_each_inv (E := exception) I del_enrollment
              (keys_where (fun e => Enrollment.course_id e = cid) (enrollments st)) st)
    as (st1 & Hrun & _ & _ & _ & Hnone & Hst & Hsub & Hkeep).
  - unfold I. split_and!; try done.
    + by apply keys_where_NoDup.
    + intros k (e & Hin & ?)%keys_where_elem. rewrite (od_get_wf _ _ _ Hwf Hin). eauto.
    + intros k e Hin Hs. apply keys_where_elem. eauto.
    + by destruct st.
  - intros k ks st0 (Hwf0 & [Hk Hks]%NoDup_cons & Hall & Hcov & Hst & Hsub & Hkeep).
    destruct (Hall k) as (e & Hget & Hcid); [left|].
    exists (set_enrollments (od_del k) st0). split.
    + apply del_enrollment_run. eauto.
    + unfold I. simpl. split_and!; try done.
      * by apply od_del_wf.
      * intros k' Hk'. rewrite od_get_del_ne; [apply Hall; by right | intros ->; done].
      * intros k' e' Hin Hs'.
        pose proof (od_del_elem_key _ _ _ _ Hwf0 Hin) as Hne'.
        apply od_del_elem in Hin.
        pose proof (Hcov _ _ Hin Hs') as Hm. apply elem_of_cons in Hm as [?|?]; done.
      * rewrite Hst at 1. done.
      * etrans; [apply od_del_sublist | done].
      * intros [k' e'] Hin Hs'. apply od_del_elem_ne; [by apply Hkeep|].
        intros ->. simpl in Hs'.
        pose proof (Hkeep _ Hin Hs') as Hin0.
        rewrite (od_get_wf _ _ _ Hwf0 Hin0) in Hget. by simplify_eq.
  - rewrite Hrun. f_equal. rewrite Hst. unfold set_enrollments. simpl. f_equal.
    apply sublist_filter_eq; [by apply NoDup_of_keys | done | |].
    + intros kv Hin Hs'. by apply Hkeep.
    + intros [k e] Hin Hs'. simpl in Hs'.
      pose proof (Hnone _ _ Hin Hs') as Hm. by apply elem_of_nil in Hm.
Qed.

Lemma delete_course_run cid st :
  od_wf (enrollments st) -> is_Some (courses st !! cid) ->
  delete_course cid st
  = (inr tt,
     set_courses (delete cid)
       (set_enrollments (filter (fun kv => Enrollment.course_id kv.2 <> cid)) st)).
Proof.
  intros Hwf Hc. unfold delete_course, bind at 1, get.
  rewrite decide_True by done. unfold bind.
  by rewrite delete_course_loop_frame.
Qed.

Lemma delete_student_run sid st :
  wf st -> is_Some (students st !! sid) ->
  exists st1,
    delete_student sid st = (inr tt, set_students (delete sid) st1)
    /\ wf st1
    /\ professors st1 = professors st /\ students st1 = students st
    /\ next_professor_id st1 = next_professor_id st
    /\ next_student_id st1 = next_student_id st
    /\ next_course_id st1 = next_course_id st
    /\ next_enrollment_id st1 = next_enrollment_id st
    /\ courses_recounted st st1
    /\ enrollments st1
       = filter (fun kv => Enrollment.student_id kv.2 <> sid) (enrollments st).
Proof.
  intros Hwf Hs. unfold delete_student, bind at 1, get.
  rewrite decide_True by done.
  destruct (delete_student_loop_frame sid st Hwf) as (st1 & Hrun & H).
  exists st1. split; [|done]. unfold bind at 1. by rewrite Hrun.
Qed.

End EnhancedCascadeRuns.

Module EnhancedIds.
Import Enhanced EnhancedFacts EnhancedFrames EnhancedCascadeRuns.

(** *** Ids and counters *)

Lemma ids_issued_init boot : ids_issued (init_db boot).
Proof.
  split; simpl; intros k x [<- <-]%lookup_singleton_Some; done.
Qed.

Ltac ids_goal :=
  intros ? ?; rewrite ?lookup_insert_Some, ?lookup_delete_Some;
  intros; destruct_and?; destruct_or?; destruct_and?; simplify_eq/=;
  try match goal with
      | H : forall k x, ?m !! k = Some x -> _, Hl : ?m !! _ = Some _ |- _ =>
          destruct (H _ _ Hl)
      end; try (split; [done || congruence | lia]).

Lemma ids_issued_with_gpa s st : ids_issued st -> ids_issued (with_gpa s st).
Proof.
  intros [Hp Hs Hc]. unfold with_gpa. destruct (students st !! s) as [x|] eqn:E; [|done].
  split; simpl; [done | | done]. ids_goal.
Qed.

Lemma ids_issued_decremented c st : ids_issued st -> ids_issued (decremented c st).
Proof.
  intros [Hp Hs Hc]. unfold decremented. destruct (courses st !! c) as [x|] eqn:E; [|done].
  split; simpl; [done | done |]. ids_goal.
Qed.

Lemma ids_issued_serve today r st : wf st -> ids_issued st -> ids_issued (serve today r st).
Proof.
  intros Hwf Hi. pose proof Hi as [Hp Hs Hc]. destruct r; simpl.
  - rewrite enhanced_create_professor_run. case_decide; [done|]. simpl.
    split; simpl; ids_goal.
  - unfold update_professor, check_unique_email. run_endpoint; try done.
    all: split; simpl; try done; ids_goal.
    all: match goal with
         | |- context [fold_left Professor.setattr ?l ?p] =>
             destruct (professor_setattr_fixed l p) as [-> _]
         end; done.
  - unfold delete_professor. run_endpoint; try done.
    split; simpl; try done; ids_goal.
  - rewrite enhanced_create_student_run. case_decide; [done|]. simpl.
    split; simpl; ids_goal.
  - unfold update_student, check_unique_email. run_endpoint; try done.
    all: split; simpl; try done; ids_goal.
    all: match goal with
         | |- context [fold_left Student.setattr ?l ?p] =>
             destruct (student_setattr_fixed l p) as [-> _]
         end; done.
  - destruct (decide (is_Some (students st !! student_id))) as [Hsome|Hnone].
    + destruct (delete_student_run _ _ Hwf Hsome)
        as (st1 & -> & [[_ Hci _ _ _ _] _] & Ep & Es & Enp & Ens & Enc & _).
      split; simpl.
      * rewrite Ep, Enp. done.
      * rewrite Es, Ens. ids_goal.
      * done.
    + unfold delete_student. run_endpoint; done.
  - unfold create_course. run_endpoint; try done.
    split; simpl; try done; ids_goal.
  - unfold update_course. run_endpoint; try done.
    all: split; simpl; try done; ids_goal.
    all: match goal with
         | |- context [fold_left Course.setattr ?l ?p] =>
             destruct (course_setattr_fixed l p) as [-> _]
         end; done.
  - destruct (decide (is_Some (courses st !! course_id))) as [Hsome|Hnone].
    + pose proof Hwf as [[_ _ Hk _ _ _] _].
      rewrite (delete_course_run _ _ Hk Hsome). simpl.
      split; simpl; try done; ids_goal.
    + unfold delete_course. run_endpoint; done.
  - unfold enroll_student_in_course. run_endpoint; try done.
    split; simpl; try done; ids_goal.
  - destruct (get_enrollment_key_by_ids st student_id course_id) as [k|] eqn:Ek.
    + destruct (PyStr.truthy k) eqn:Et.
      * pose proof Hwf as [[_ _ Hk _ _ _] _].
        destruct (find_enrollment_key_wf _ _ _ _ Hk Ek) as (e & Hget & _).
        rewrite (update_enrollment_grade_run _ _ _ _ _ _ Ek Et Hget). simpl.
        by apply ids_issued_with_gpa.
      * rewrite update_enrollment_grade_not_found; [done|]. by rewrite Ek.
    + rewrite update_enrollment_grade_not_found; [done|]. by rewrite Ek.
  - destruct (get_enrollment_key_by_ids st student_id course_id) as [k|] eqn:Ek.
    + destruct (PyStr.truthy k) eqn:Et.
      * rewrite (drop_course_run _ _ _ _ Ek Et). simpl.
        apply ids_issued_with_gpa.
        apply (ids_issued_decremented course_id) in Hi. by destruct Hi.
      * rewrite drop_course_not_found; [done|]. by rewrite Ek.
    + rewrite drop_course_not_found; [done|]. by rewrite Ek.
Qed.

End EnhancedIds.

Module EnhancedProfessors.
Import Enhanced EnhancedFacts EnhancedFrames EnhancedCascadeRuns EnhancedIds.

(** *** The professor of a course *)

Lemma professors_live_init boot : professors_live (init_db boot).
Proof.
  intros k c. simpl. intros [<- <-]%lookup_singleton_Some. simpl.
  by rewrite lookup_singleton_eq.
Qed.

Lemma professors_live_with_gpa s st : professors_live st -> professors_live (with_gpa s st).
Proof.
  intros H. unfold with_gpa. by destruct (students st !! s).
Qed.

Lemma professors_live_decremented c st :
  professors_live st -> professors_live (decremented c st).
Proof.
  intros H. unfold decremented. destruct (courses st !! c) as [x|] eqn:E; [|done].
  intros k c'. simpl. rewrite lookup_insert_Some. intros [[<- <-]|[_ Hk]]; simpl; eauto.
Qed.

Lemma professors_live_serve today r st :
  wf st -> professors_live st -> professors_live (serve today r st).
Proof.
  intros Hwf Hl. destruct r; simpl.
  - rewrite enhanced_create_professor_run. case_decide; [done|]. simpl.
    intros k c Hc. simpl in *. rewrite lookup_insert_is_Some'. right. eauto.
  - unfold update_professor, check_unique_email. run_endpoint; try done.
    all: intros k' c Hc; simpl in *; rewrite lookup_insert_is_Some'; right; eauto.
  - unfold delete_professor. run_endpoint; try done.
    intros k c Hc. simpl in *. rewrite lookup_delete_ne; [eauto|].
    intros ->. match goal with H : ¬ map_Exists _ _ |- _ => apply H end.
    by apply (map_Exists_lookup_2 _ _ k c).
  - rewrite enhanced_create_student_run. case_decide; done.
  - unfold update_student, check_unique_email. run_endpoint; done.
  - destruct (decide (is_Some (students st !! student_id))) as [Hsome|Hnone].
    + destruct (delete_student_run _ _ Hwf Hsome)
        as (st1 & -> & _ & Ep & _ & _ & _ & _ & _ & Hcr & _).
      intros k c1 Hk. simpl in *. rewrite Ep.
      destruct (courses_recounted_lookup _ _ _ _ Hcr Hk) as (c & n & Hk0 & ->).
      simpl. eauto.
    + unfold delete_student. run_endpoint; done.
  - unfold create_course. run_endpoint; try done.
    intros k c. simpl. rewrite lookup_insert_Some. intros [[<- <-]|[_ Hk]]; simpl; eauto.
  - unfold update_course. run_endpoint; try done.
    all: intros k c; simpl; rewrite lookup_insert_Some; intros [[<- <-]|[_ Hk]]; eauto.
    all: match goal with
         | |- context [fold_left Course.setattr (dump_course_update ?u) ?p] =>
             pose proof (enhanced_course_patch u p) as Hpatch; cbv zeta in Hpatch;
             destruct Hpatch as (_ & _ & _ & _ & -> & _)
         end.
    all: match goal with H : cu_professor_id _ = _ |- _ => rewrite H end; simpl; eauto.
  - destruct (decide (is_Some (courses st !! course_id))) as [Hsome|Hnone].
    + pose proof Hwf as [[_ _ Hk _ _ _] _].
      rewrite (delete_course_run _ _ Hk Hsome). simpl.
      intros k c. simpl. intros [_ Hc]%lookup_delete_Some. eauto.
    + unfold delete_course. run_endpoint; done.
  - unfold enroll_student_in_course. run_endpoint; try done.
    intros k c. simpl. rewrite lookup_insert_Some. intros [[<- <-]|[_ Hk]]; simpl; eauto.
  - destruct (get_enrollment_key_by_ids st student_id course_id) as [k|] eqn:Ek.
    + destruct (PyStr.truthy k) eqn:Et.
      * pose proof Hwf as [[_ _ Hk _ _ _] _].
        destruct (find_enrollment_key_wf _ _ _ _ Hk Ek) as (e & Hget & _).
        rewrite (update_enrollment_grade_run _ _ _ _ _ _ Ek Et Hget). simpl.
        by apply professors_live_with_gpa.
      * rewrite update_enrollment_grade_not_found; [done|]. by rewrite Ek.
    + rewrite update_enrollment_grade_not_found; [done|]. by rewrite Ek.
  - destruct (get_enrollment_key_by_ids st student_id course_id) as [k|] eqn:Ek.
    + destruct (PyStr.truthy k) eqn:Et.
      * rewrite (drop_course_run _ _ _ _ Ek Et). simpl.
        apply professors_live_with_gpa.
        by apply (professors_live_decremented course_id) in Hl.
      * rewrite drop_course_not_found; [done|]. by rewrite Ek.
    + rewrite drop_course_not_found; [done|]. by rewrite Ek.
Qed.

End EnhancedProfessors.

Module EnhancedEmails.
Import Enhanced EnhancedFacts EnhancedFrames EnhancedCascadeRuns EnhancedIds EnhancedProfessors.

(** *** Emails within a collection *)

Lemma truthy_false s : PyStr.truthy s = false -> s = "".
Proof. by destruct s. Qed.

Lemma emails_distinct_within_init boot : emails_distinct_within (init_db boot).
Proof.
  split; intros k1 k2 x1 x2; simpl;
    intros [<- <-]%lookup_singleton_Some [<- <-]%lookup_singleton_Some; done.
Qed.

Lemma emails_distinct_within_with_gpa s st :
  emails_distinct_within st -> emails_distinct_within (with_gpa s st).
Proof.
  intros [Hp Hs]. unfold with_gpa. destruct (students st !! s) as [x|] eqn:E; [|done].
  split; [done|]. simpl. intros k1 k2 s1 s2.
  rewrite !lookup_insert_Some.
  intros [[<- <-]|[? Hl1]] [[<- <-]|[? Hl2]]; simpl; try done; intros He Hne.
  - by apply (Hs s k2 x s2).
  - by apply (Hs k1 s s1 x).
  - by apply (Hs k1 k2 s1 s2).
Qed.

Lemma emails_distinct_within_students_same st st' :
  emails_distinct_within st ->
  professors st' = professors st -> students st' = students st ->
  emails_distinct_within st'.
Proof. intros [Hp Hs] Ep Es. unfold emails_distinct_within. by rewrite Ep, Es. Qed.

(** What [update_professor] does with the email of the payload. *)
Lemma update_professor_cases i u p st :
  professors st !! i = Some p ->
  let p' := fold_left Professor.setattr (dump_professor_update u) p in
  update_professor i u st = (inl EMAIL_ALREADY_EXISTS, st)
  \/ (update_professor i u st = (inr p', set_professors (insert i p') st)
      /\ (Professor.email p' = Professor.email p
          \/ Professor.email p' = ""
          \/ (~ professor_holds st (Professor.email p') (Some i)
              /\ ~ student_holds st (Professor.email p') (Some i)))).
Proof.
  intros Hp p'. pose proof (enhanced_professor_patch u p) as Hpatch.
  cbv zeta in Hpatch. destruct Hpatch as (_ & Hemail & _). fold p' in Hemail.
  assert (Hrun :
            (match pu_email u with
             | Some e => if PyStr.truthy e
                         then check_unique_email e (Some i) st = (inr tt, st)
                         else True
             | None => True
             end) ->
            update_professor i u st = (inr p', set_professors (insert i p') st)).
  { intros Hok. unfold update_professor, bind at 1, get. rewrite Hp.
    unfold bind at 1. destruct (pu_email u) as [e|]; [|reflexivity].
    destruct (PyStr.truthy e); [|reflexivity]. by rewrite Hok. }
  destruct (pu_email u) as [e|] eqn:Ee; simpl in Hemail.
  - destruct (PyStr.truthy e) eqn:Et.
    + pose proof (enhanced_check_unique_email_run e (Some i) st) as Hchk.
      case_decide as Hh.
      * left. unfold update_professor, bind at 1, get. rewrite Hp, Ee, Et.
        unfold bind at 1. by rewrite Hchk.
      * right. split; [by apply Hrun|].
        right. right. rewrite Hemail. tauto.
    + right. split; [by apply Hrun|]. right. left. rewrite Hemail.
      by apply truthy_false.
  - right. split; [by apply Hrun|]. by left.
Qed.

Lemma update_student_cases i u s st :
  students st !! i = Some s ->
  let s' := fold_left Student.setattr (dump_student_update u) s in
  update_student i u st = (inl EMAIL_ALREADY_EXISTS, st)
  \/ (update_student i u st = (inr s', set_students (insert i s') st)
      /\ (Student.email s' = Student.email s
          \/ Student.email s' = ""
          \/ (~ professor_holds st (Student.email s') (Some i)
              /\ ~ student_holds st (Student.email s') (Some i)))).
Proof.
  intros Hs s'. pose proof (enhanced_student_patch u s) as Hpatch.
  cbv zeta in Hpatch. destruct Hpatch as (_ & Hemail & _). fold s' in Hemail.
  assert (Hrun :
            (match su_email u with
             | Some e => if PyStr.truthy e
                         then check_unique_email e (Some i) st = (inr tt, st)
                         else True
             | None => True
             end) ->
            update_student i u st = (inr s', set_students (insert i s') st)).
  { intros Hok. unfold update_student, bind at 1, get. rewrite Hs.
    unfold bind at 1. destruct (su_email u) as [e|]; [|reflexivity].
    destruct (PyStr.truthy e); [|reflexivity]. by rewrite Hok. }
  destruct (su_email u) as [e|] eqn:Ee; simpl in Hemail.
  - destruct (PyStr.truthy e) eqn:Et.
    + pose proof (enhanced_check_unique_email_run e (Some i) st) as Hchk.
      case_decide as Hh.
      * left. unfold update_student, bind at 1, get. rewrite Hs, Ee, Et.
        unfold bind at 1. by rewrite Hchk.
      * right. split; [by apply Hrun|].
        right. right. rewrite Hemail. tauto.
    + right. split; [by apply Hrun|]. right. left. rewrite Hemail.
      by apply truthy_false.
  - right. split; [by apply Hrun|]. by left.
Qed.


Lemma emails_distinct_within_serve today r st :
  wf st -> ids_issued st -> emails_distinct_within st ->
  emails_distinct_within (serve today r st).
Proof.
  intros Hwf [Hip His Hic] Hd. pose proof Hd as [Hp Hs]. destruct r; simpl.
  - rewrite enhanced_create_professor_run. case_decide as Huse; [done|]. simpl.
    split; [|done]. simpl. intros k1 k2 p1 p2.
    rewrite !lookup_insert_Some.
    intros [[<- <-]|[? Hl1]] [[<- <-]|[? Hl2]]; simpl; try done; intros He Hne.
    + destruct Huse. left. eauto.
    + destruct Huse. left. eauto.
    + by apply (Hp k1 k2 p1 p2).
  - destruct (professors st !! professor_id) as [p|] eqn:Ep;
      [|unfold update_professor; run_endpoint; done].
    destruct (update_professor_cases professor_id professor_update p st Ep)
      as [->|[-> Hcase]]; [done|].
    split; [|done]. simpl. intros k1 k2 p1 p2.
    rewrite !lookup_insert_Some.
    intros [[<- <-]|[? Hl1]] [[<- <-]|[? Hl2]]; try done; intros He Hne.
    + destruct Hcase as [Hc|[Hc|[Hc _]]]; [| done |].
      * rewrite Hc in He, Hne. by apply (Hp professor_id k2 p p2).
      * destruct Hc. exists k2, p2. destruct (Hip _ _ Hl2) as [-> _].
        split; [done|]. split; [done|]. intros ?; simplify_eq.
    + destruct Hcase as [Hc|[Hc|[Hc _]]]; [| congruence |].
      * rewrite Hc in He. by apply (Hp k1 professor_id p1 p).
      * destruct Hc. exists k1, p1. destruct (Hip _ _ Hl1) as [-> _].
        split; [done|]. split; [done|]. intros ?; simplify_eq.
    + by apply (Hp k1 k2 p1 p2).
  - unfold delete_professor. run_endpoint; try done.
    split; [|done]. simpl. intros k1 k2 p1 p2.
    intros [_ Hl1]%lookup_delete_Some [_ Hl2]%lookup_delete_Some. by apply Hp.
  - rewrite enhanced_create_student_run. case_decide as Huse; [done|]. simpl.
    split; [done|]. simpl. intros k1 k2 p1 p2.
    rewrite !lookup_insert_Some.
    intros [[<- <-]|[? Hl1]] [[<- <-]|[? Hl2]]; simpl; try done; intros He Hne.
    + destruct Huse. right. eauto.
    + destruct Huse. right. eauto.
    + by apply (Hs k1 k2 p1 p2).
  - destruct (students st !! student_id) as [p|] eqn:Ep;
      [|unfold update_student; run_endpoint; done].
    destruct (update_student_cases student_id student_update p st Ep)
      as [->|[-> Hcase]]; [done|].
    split; [done|]. simpl. intros k1 k2 p1 p2.
    rewrite !lookup_insert_Some.
    intros [[<- <-]|[? Hl1]] [[<- <-]|[? Hl2]]; try done; intros He Hne.
    + destruct Hcase as [Hc|[Hc|[_ Hc]]]; [| done |].
      * rewrite Hc in He, Hne. by apply (Hs student_id k2 p p2).
      * destruct Hc. exists k2, p2. destruct (His _ _ Hl2) as [-> _].
        split; [done|]. split; [done|]. intros ?; simplify_eq.
    + destruct Hcase as [Hc|[Hc|[_ Hc]]]; [| congruence |].
      * rewrite Hc in He. by apply (Hs k1 student_id p1 p).
      * destruct Hc. exists k1, p1. destruct (His _ _ Hl1) as [-> _].
        split; [done|]. split; [done|]. intros ?; simplify_eq.
    + by apply (Hs k1 k2 p1 p2).
  - destruct (decide (is_Some (students st !! student_id))) as [Hsome|Hnone].
    + destruct (delete_student_run _ _ Hwf Hsome)
        as (st1 & -> & _ & Ep & Es & _).
      split; simpl; rewrite ?Ep, ?Es; [done|].
      intros k1 k2 s1 s2 [_ Hl1]%lookup_delete_Some [_ Hl2]%lookup_delete_Some.
      by apply Hs.
    + unfold delete_student. run_endpoint; done.
  - unfold create_course. run_endpoint; done.
  - unfold update_course. run_endpoint; done.
  - destruct (decide (is_Some (courses st !! course_id))) as [Hsome|Hnone].
    + pose proof Hwf as [[_ _ Hk _ _ _] _].
      by rewrite (delete_course_run _ _ Hk Hsome).
    + unfold delete_course. run_endpoint; done.
  - unfold enroll_student_in_course. run_endpoint; done.
  - destruct (get_enrollment_key_by_ids st student_id course_id) as [k|] eqn:Ek.
    + destruct (PyStr.truthy k) eqn:Et.
      * pose proof Hwf as [[_ _ Hk _ _ _] _].
        destruct (find_enrollment_key_wf _ _ _ _ Hk Ek) as (e & Hget & _).
        rewrite (update_enrollment_grade_run _ _ _ _ _ _ Ek Et Hget). simpl.
        by apply emails_distinct_within_with_gpa.
      * rewrite update_enrollment_grade_not_found; [done|]. by rewrite Ek.
    + rewrite update_enrollment_grade_not_found; [done|]. by rewrite Ek.
  - destruct (get_enrollment_key_by_ids st student_id course_id) as [k|] eqn:Ek.
    + destruct (PyStr.truthy k) eqn:Et.
      * rewrite (drop_course_run _ _ _ _ Ek Et). simpl.
        apply emails_distinct_within_with_gpa.
        apply (emails_distinct_within_students_same st); [done | simpl..].
        -- unfold decremented. by destruct (courses st !! course_id).
        -- by rewrite students_decremented.
      * rewrite drop_course_not_found; [done|]. by rewrite Ek.
    + rewrite drop_course_not_found; [done|]. by rewrite Ek.
Qed.

(** *** The invariants together *)

Lemma reachable_more st :
  reachable st -> ids_issued st /\ professors_live st /\ emails_distinct_within st.
Proof.
  induction 1 as [boot|st today r Hr (Hi & Hl & He)].
  - split_and!; [apply ids_issued_init | apply professors_live_init
                 | apply emails_distinct_within_init].
  - pose proof (reachable_wf _ Hr) as Hwf. split_and!.
    + by apply ids_issued_serve.
    + by apply professors_live_serve.
    + by apply emails_distinct_within_serve.
Qed.

End EnhancedEmails.

Module SimpleFrames.
Import Simple SimpleFacts.

(** *** What a cascade leaves in place *)

Lemma simple_add_enrolled_0 c : Course.add_enrolled 0 c = c.
Proof. destruct c. unfold Course.add_enrolled. simpl. f_equal. lia. Qed.

Lemma simple_add_enrolled_add n m c :
  Course.add_enrolled n (Course.add_enrolled m c) = Course.add_enrolled (m + n) c.
Proof. destruct c. unfold Course.add_enrolled. simpl. f_equal. lia. Qed.

Lemma simple_courses_recounted_refl st : courses_recounted st st.
Proof.
  intros k. destruct (courses st !! k) as [c|]; constructor.
  exists 0. by rewrite simple_add_enrolled_0.
Qed.

Lemma simple_courses_recounted_decremented st st0 c :
  courses_recounted st st0 -> courses_recounted st (decremented c st0).
Proof.
  intros H k. specialize (H k). unfold decremented.
  destruct (courses st0 !! c) as [course|] eqn:Ec; [|done]. simpl.
  destruct (decide (c = k)) as [<-|Hne].
  - rewrite lookup_insert_eq. rewrite Ec in H. inversion H as [? c0 [n ->] |]; subst.
    constructor. exists (n + -1). by rewrite simple_add_enrolled_add.
  - by rewrite lookup_insert_ne.
Qed.

Lemma simple_courses_recounted_lookup st st1 k c1 :
  courses_recounted st st1 -> courses st1 !! k = Some c1 ->
  exists c n, courses st !! k = Some c /\ c1 = Course.add_enrolled n c.
Proof.
  intros H Hk. specialize (H k). rewrite Hk in H.
  destruct (courses st !! k) as [c|]; inversion H as [? ? [n ->]|]; subst. eauto.
Qed.

Lemma simple_delete_student_loop_frame sid st :
  wf st ->
  exists st1,
    for_each (keys_where (fun e => Enrollment.student_id e = sid) (enrollments st))
      (fun key => decrement_if_present key.2 ;;! del_enrollment key) st
    = (inr tt, st1)
    /\ wf st1
    /\ professors st1 = professors st /\ students st1 = students st
    /\ next_professor_id st1 = next_professor_id st
    /\ next_student_id st1 = next_student_id st
    /\ next_course_id st1 = next_course_id st
    /\ courses_recounted st st1
    /\ enrollments st1
       = filter (fun kv => Enrollment.student_id kv.2 <> sid) (enrollments st).
Proof.
  intros Hwf.
  set (I := fun (ks : list (Z * Z)) (st1 : db) =>
    wf st1 /\ NoDup ks
    /\ (forall k, k ∈ ks -> exists e, od_get k (enrollments st1) = Some e
                                      /\ Enrollment.student_id e = sid)
    /\ (forall k e, (k, e) ∈ enrollments st1 -> Enrollment.student_id e = sid -> k ∈ ks)
    /\ professors st1 = professors st /\ students st1 = students st
    /\ next_professor_id st1 = next_professor_id st
    /\ next_student_id st1 = next_student_id st
    /\ next_course_id st1 = next_course_id st
    /\ courses_recounted st st1
    /\ enrollments st1 `sublist_of` enrollments st
    /\ (forall kv, kv ∈ enrollments st -> Enrollment.student_id kv.2 <> sid ->
          kv ∈ enrollments st1)).
  destruct (for_each_inv (E := exception) I
              (fun key => decrement_if_present key.2 ;;! del_enrollment key)
              (keys_where (fun e => Enrollment.student_id e = sid) (enrollments st)) st)
    as (st1 & Hrun & Hwf1 & _ & _ & Hnone & Hp & Hs & Hnp & Hns & Hnc & Hcr & Hsub & Hkeep).
  - unfold I. pose proof Hwf as [[_ Hk _ _] _]. split_and!; try done.
    + by apply simple_keys_where_NoDup.
    + intros k (e & Hin & ?)%simple_keys_where_elem.
      rewrite (od_get_wf _ _ _ Hk Hin). eauto.
    + intros k e Hin Hs. apply simple_keys_where_elem. eauto.
    + apply simple_courses_recounted_refl.
  - intros k ks st0
      (Hwf0 & [Hk Hks]%NoDup_cons & Hall & Hcov & Hp & Hs & Hnp & Hns & Hnc & Hcr & Hsub & Hkeep).
    destruct (Hall k) as (e & Hget & Hsid); [left|].
    destruct k as [s c].
    destruct (simple_key_course st0 s c e (proj1 Hwf0) Hget) as [_ Hc].
    exists (set_enrollments (od_del (s, c)) (decremented (Enrollment.course_id e) st0)).
    split.
    + unfold bind. simpl. rewrite Hc.
      rewrite simple_decrement_if_present_run, simple_del_enrollment_run; [done|].
      rewrite simple_enrollments_decremented. eauto.
    + pose proof Hwf0 as [[_ Hwfk _ _] _].
      unfold I. simpl.
      rewrite ?simple_enrollments_decremented, ?simple_students_decremented.
      split_and!; try done.
      * by apply simple_wf_removed.
      * intros k' Hk'. rewrite od_get_del_ne; [apply Hall; by right | intros Heq; by subst k'].
      * intros k' e' Hin Hs'.
        pose proof (od_del_elem_key _ _ _ _ Hwfk Hin) as Hne'.
        apply od_del_elem in Hin.
        pose proof (Hcov _ _ Hin Hs') as Hm. apply elem_of_cons in Hm as [?|?]; done.
      * unfold decremented. by destruct (courses st0 !! _).
      * unfold decremented. by destruct (courses st0 !! _).
      * unfold decremented. by destruct (courses st0 !! _).
      * unfold decremented. by destruct (courses st0 !! _).
      * by apply simple_courses_recounted_decremented.
      * etrans; [apply od_del_sublist | done].
      * intros [k' e'] Hin Hs'. apply od_del_elem_ne; [by apply Hkeep|].
        intros ->. simpl in Hs'.
        pose proof (Hkeep _ Hin Hs') as Hin0.
        rewrite (od_get_wf _ _ _ Hwfk Hin0) in Hget. by simplify_eq.
  - exists st1. split_and!; try done.
    pose proof Hwf as [[_ Hk _ _] _].
    apply sublist_filter_eq; [by apply NoDup_of_keys | done | |].
    + intros kv Hin Hs'. by apply Hkeep.
    + intros [k e] Hin Hs'. simpl in Hs'.
      pose proof (Hnone _ _ Hin Hs') as Hm. by apply elem_of_nil in Hm.
Qed.

Lemma simple_delete_course_loop_frame cid st :
  od_wf (enrollments st) ->
  for_each (keys_where (fun e => Enrollment.course_id e = cid) (enrollments st))
    del_enrollment st
  = (inr tt,
     set_enrollments (filter (fun kv => Enrollment.course_id kv.2 <> cid)) st).
Proof.
  intros Hwf.
  set (I := fun (ks : list (Z * Z)) (st1 : db) =>
    od_wf (enrollments st1) /\ NoDup ks
    /\ (forall k, k ∈ ks -> exists e, od_get k (enrollments st1) = Some e
                                      /\ Enrollment.course_id e = cid)
    /\ (forall k e, (k, e) ∈ enrollments st1 -> Enrollment.course_id e = cid -> k ∈ ks)
    /\ st1 = set_enrollments (fun _ => enrollments st1) st
    /\ enrollments st1 `sublist_of` enrollments st
    /\ (forall kv, kv ∈ enrollments st -> Enrollment.course_id kv.2 <> cid ->
          kv ∈ enrollments st1)).
  destruct (for_each_inv (E := exception) I del_enrollment
              (keys_where (fun e => Enrollment.course_id e = cid) (enrollments st)) st)
    as (st1 & Hrun & _ & _ & _ & Hnone & Hst & Hsub & Hkeep).
  - unfold I. split_and!; try done.
    + by apply simple_keys_where_NoDup.
    + intros k (e & Hin & ?)%simple_keys_where_elem.
      rewrite (od_get_wf _ _ _ Hwf Hin). eauto.
    + intros k e Hin Hs. apply simple_keys_where_elem. eauto.
    + by destruct st.
  - intros k ks st0 (Hwf0 & [Hk Hks]%NoDup_cons & Hall & Hcov & Hst & Hsub & Hkeep).
    destruct (Hall k) as (e & Hget & Hcid); [left|].
    exists (set_enrollments (od_del k) st0). split.
    + apply simple_del_enrollment_run. eauto.
    + unfold I. simpl. split_and!; try done.
      * by apply od_del_wf.
      * intros k' Hk'. rewrite od_get_del_ne; [apply Hall; by right | intros ->; done].
      * intros k' e' Hin Hs'.
        pose proof (od_del_elem_key _ _ _ _ Hwf0 Hin) as Hne'.
        apply od_del_elem in Hin.
        pose proof (Hcov _ _ Hin Hs') as Hm. apply elem_of_cons in Hm as [?|?]; done.
      * rewrite Hst at 1. done.
      * etrans; [apply od_del_sublist | done].
      * intros [k' e'] Hin Hs'. apply od_del_elem_ne; [by apply Hkeep|].
        intros ->. simpl in Hs'.
        pose proof (Hkeep _ Hin Hs') as Hin0.
        rewrite (od_get_wf _ _ _ Hwf0 Hin0) in Hget. by simplify_eq.
  - rewrite Hrun. f_equal. rewrite Hst. unfold set_enrollments. simpl. f_equal.
    apply sublist_filter_eq; [by apply NoDup_of_keys | done | |].
    + intros kv Hin Hs'. by apply Hkeep.
    + intros [k e] Hin Hs'. simpl in Hs'.
      pose proof (Hnone _ _ Hin Hs') as Hm. by apply elem_of_nil in Hm.
Qed.

Lemma simple_delete_course_run cid st :
  od_wf (enrollments st) -> is_Some (courses st !! cid) ->
  delete_course cid st
  = (inr tt,
     set_courses (delete cid)
       (set_enrollments (filter (fun kv => Enrollment.course_id kv.2 <> cid)) st)).
Proof.
  intros Hwf Hc. unfold delete_course, bind at 1, get.
  rewrite decide_True by done. unfold bind.
  by rewrite simple_delete_course_loop_frame.
Qed.

Lemma simple_delete_student_run sid st :
  wf st -> is_Some (students st !! sid) ->
  exists st1,
    delete_student sid st = (inr tt, set_students (delete sid) st1)
    /\ wf st1
    /\ professors st1 = professors st /\ students st1 = students st
    /\ next_professor_id st1 = next_professor_id st
    /\ next_student_id st1 = next_student_id st
    /\ next_course_id st1 = next_course_id st
    /\ courses_recounted st st1
    /\ enrollments st1
       = filter (fun kv => Enrollment.student_id kv.2 <> sid) (enrollments st).
Proof.
  intros Hwf Hs. unfold delete_student, bind at 1, get.
  rewrite decide_True by done.
  destruct (simple_delete_student_loop_frame sid st Hwf) as (st1 & Hrun & H).
  exists st1. split; [|done]. unfold bind at 1. by rewrite Hrun.
Qed.

End SimpleFrames.

Module SimpleIds.
Import Simple SimpleFacts SimpleFrames.

(** *** Ids and counters *)

Lemma simple_ids_issued_init boot : ids_issued (init_db boot).
Proof.
  split; simpl; intros k x [<- <-]%lookup_singleton_Some; done.
Qed.

Ltac simple_ids_goal :=
  intros ? ?; rewrite ?lookup_insert_Some, ?lookup_delete_Some;
  intros; destruct_and?; destruct_or?; destruct_and?; simplify_eq/=;
  try match goal with
      | H : forall k x, ?m !! k = Some x -> _, Hl : ?m !! _ = Some _ |- _ =>
          destruct (H _ _ Hl)
      end; try (split; [done || congruence | lia]).

Lemma simple_ids_issued_with_gpa s st : ids_issued st -> ids_issued (with_gpa s st).
Proof.
  intros [Hp Hs Hc]. unfold with_gpa. destruct (students st !! s) as [x|] eqn:E; [|done].
  split; simpl; [done | | done]. simple_ids_goal.
Qed.

Lemma simple_ids_issued_decremented c st : ids_issued st -> ids_issued (decremented c st).
Proof.
  intros [Hp Hs Hc]. unfold decremented. destruct (courses st !! c) as [x|] eqn:E; [|done].
  split; simpl; [done | done |]. simple_ids_goal.
Qed.

Lemma simple_course_update_professor_id u c :
  Course.professor_id (fold_left Course.setattr (dump_course_update u) c)
  = default (Course.professor_id c) (cu_professor_id u).
Proof. unfold dump_course_update. by destruct (cu_professor_id u). Qed.

(** The three ways [update_enrollment_grade] can go. *)
Lemma simple_update_enrollment_grade_cases s c g st :
  update_enrollment_grade s c g st
  = match GRADE_TO_POINTS (PyStr.upper g), od_get (s, c) (enrollments st) with
    | None, _ =>
        (inl (HTTPException 400 "Invalid grade. Must be one of A, B, C, D, F."), st)
    | Some _, None => (inl (HTTPException 404 "Enrollment record not found"), st)
    | Some _, Some e =>
        (inr (Enrollment.set_grade (PyStr.upper g) e),
         with_gpa s (set_enrollments
                       (od_set (s, c) (Enrollment.set_grade (PyStr.upper g) e)) st))
    end.
Proof.
  destruct (GRADE_TO_POINTS (PyStr.upper g)) as [x|] eqn:Eg.
  - destruct (od_get (s, c) (enrollments st)) as [e|] eqn:Ee.
    + apply simple_update_enrollment_grade_run; [by rewrite Eg | done].
    + apply simple_update_enrollment_grade_not_found; [by rewrite Eg | done].
  - by apply simple_update_enrollment_grade_invalid.
Qed.

Lemma simple_drop_course_cases s c st :
  drop_course s c st
  = match od_get (s, c) (enrollments st) with
    | None => (inl (HTTPException 404 "Enrollment record not found"), st)
    | Some _ =>
        (inr tt, with_gpa s (set_enrollments (od_del (s, c)) (decremented c st)))
    end.
Proof.
  destruct (od_get (s, c) (enrollments st)) as [e|] eqn:Ee.
  - apply simple_drop_course_run. by rewrite Ee.
  - by apply simple_drop_course_not_found.
Qed.

Lemma simple_ids_issued_serve today r st :
  wf st -> ids_issued st -> ids_issued (serve today r st).
Proof.
  intros Hwf Hi. pose proof Hi as [Hp Hs Hc]. destruct r; simpl.
  - unfold create_professor. run_endpoint. split; simpl; simple_ids_goal.
  - unfold update_professor. run_endpoint; try done.
    split; simpl; try done; simple_ids_goal.
  - unfold delete_professor. run_endpoint; try done.
    split; simpl; try done; simple_ids_goal.
  - unfold create_student. run_endpoint. split; simpl; simple_ids_goal.
  - unfold update_student. run_endpoint; try done.
    split; simpl; try done; simple_ids_goal.
  - destruct (decide (is_Some (students st !! student_id))) as [Hsome|Hnone].
    + destruct (simple_delete_student_run _ _ Hwf Hsome)
        as (st1 & -> & _ & Ep & Es & Enp & Ens & Enc & Hcr & _).
      split; simpl.
      * rewrite Ep, Enp. done.
      * rewrite Es, Ens. simple_ids_goal.
      * rewrite Enc. intros k c1 Hk.
        destruct (simple_courses_recounted_lookup _ _ _ _ Hcr Hk) as (c & n & Hk0 & ->).
        simpl. by apply Hc.
    + unfold delete_student. run_endpoint; done.
  - unfold create_course. run_endpoint; try done.
    split; simpl; try done; simple_ids_goal.
  - destruct (courses st !! course_id) as [c|] eqn:Ec;
      [|unfold update_course; run_endpoint; done].
    unfold update_course. unfold bind at 1, get. rewrite Ec.
    assert (Hins : ids_issued (set_courses
              (insert course_id (fold_left Course.setattr
                                   (dump_course_update course_update) c)) st)).
    { generalize (dump_course_update course_update). intros l.
      split; simpl; try done. intros k c'. rewrite lookup_insert_Some.
      intros [[<- <-]|[_ Hk]]; [|eauto].
      destruct (simple_course_setattr_fixed l c) as [-> _]. eauto. }
    run_endpoint; done.
  - destruct (decide (is_Some (courses st !! course_id))) as [Hsome|Hnone].
    + pose proof Hwf as [[_ Hk _ _] _].
      rewrite (simple_delete_course_run _ _ Hk Hsome). simpl.
      split; simpl; try done; simple_ids_goal.
    + unfold delete_course. run_endpoint; done.
  - unfold enroll_student_in_course. run_endpoint; try done.
    split; simpl; try done; simple_ids_goal.
  - rewrite simple_update_enrollment_grade_cases.
    repeat case_match; try done. simpl. by apply simple_ids_issued_with_gpa.
  - rewrite simple_drop_course_cases. case_match; [|done]. simpl.
    apply simple_ids_issued_with_gpa.
    apply (simple_ids_issued_decremented course_id) in Hi. by destruct Hi.
Qed.

End SimpleIds.

Module SimpleGrades.
Import Simple SimpleFacts SimpleFrames SimpleIds.

(** *** The professor of a course *)

Lemma simple_professors_live_init boot : professors_live (init_db boot).
Proof.
  intros k c. simpl. intros [<- <-]%lookup_singleton_Some. simpl.
  by rewrite lookup_singleton_eq.
Qed.

Lemma simple_professors_live_with_gpa s st :
  professors_live st -> professors_live (with_gpa s st).
Proof.
  intros H. unfold with_gpa. by destruct (students st !! s).
Qed.

Lemma simple_professors_live_decremented c st :
  professors_live st -> professors_live (decremented c st).
Proof.
  intros H. unfold decremented. destruct (courses st !! c) as [x|] eqn:E; [|done].
  intros k c'. simpl. rewrite lookup_insert_Some. intros [[<- <-]|[_ Hk]]; simpl; eauto.
Qed.

Lemma simple_professors_live_serve today r st :
  wf st -> professors_live st -> professors_live (serve today r st).
Proof.
  intros Hwf Hl. destruct r; simpl.
  - unfold create_professor. run_endpoint.
    intros k c Hc. simpl in *. rewrite lookup_insert_is_Some'. right. eauto.
  - unfold update_professor. run_endpoint; try done.
    intros k' c Hc; simpl in *; rewrite lookup_insert_is_Some'; right; eauto.
  - unfold delete_professor. run_endpoint; try done.
    intros k c Hc. simpl in *. rewrite lookup_delete_ne; [eauto|].
    intros ->. match goal with H : ¬ map_Exists _ _ |- _ => apply H end.
    by apply (map_Exists_lookup_2 _ _ k c).
  - unfold create_student. run_endpoint. done.
  - unfold update_student. run_endpoint; done.
  - destruct (decide (is_Some (students st !! student_id))) as [Hsome|Hnone].
    + destruct (simple_delete_student_run _ _ Hwf Hsome)
        as (st1 & -> & _ & Ep & _ & _ & _ & _ & Hcr & _).
      intros k c1 Hk. simpl in *. rewrite Ep.
      destruct (simple_courses_recounted_lookup _ _ _ _ Hcr Hk) as (c & n & Hk0 & ->).
      simpl. eauto.
    + unfold delete_student. run_endpoint; done.
  - unfold create_course. run_endpoint; try done.
    intros k c. simpl. rewrite lookup_insert_Some. intros [[<- <-]|[_ Hk]]; simpl; eauto.
  - destruct (courses st !! course_id) as [c|] eqn:Ec;
      [|unfold update_course; run_endpoint; done].
    unfold update_course. unfold bind at 1, get. rewrite Ec.
    pose proof (simple_course_update_professor_id course_update c) as Hpid.
    revert Hpid. generalize (dump_course_update course_update). intros l Hpid.
    run_endpoint; try done.
    all: intros k c'; simpl; rewrite lookup_insert_Some; intros [[<- <-]|[_ Hk]]; eauto.
    all: rewrite Hpid; simpl; eauto.
  - destruct (decide (is_Some (courses st !! course_id))) as [Hsome|Hnone].
    + pose proof Hwf as [[_ Hk _ _] _].
      rewrite (simple_delete_course_run _ _ Hk Hsome). simpl.
      intros k c. simpl. intros [_ Hc]%lookup_delete_Some. eauto.
    + unfold delete_course. run_endpoint; done.
  - unfold enroll_student_in_course. run_endpoint; try done.
    intros k c. simpl. rewrite lookup_insert_Some. intros [[<- <-]|[_ Hk]]; simpl; eauto.
  - rewrite simple_update_enrollment_grade_cases.
    repeat case_match; try done. simpl. by apply simple_professors_live_with_gpa.
  - rewrite simple_drop_course_cases. case_match; [|done]. simpl.
    apply simple_professors_live_with_gpa.
    by apply (simple_professors_live_decremented course_id) in Hl.
Qed.

(** *** Stored grades *)

Lemma simple_grades_valid_sub st st' :
  grades_valid st -> (forall kv, kv ∈ enrollments st' -> kv ∈ enrollments st) ->
  grades_valid st'.
Proof. intros H Hsub k e g Hin. eapply H. by apply Hsub. Qed.

Lemma simple_grades_valid_with_gpa s st : grades_valid st -> grades_valid (with_gpa s st).
Proof.
  intros H. unfold with_gpa. by destruct (students st !! s).
Qed.

Lemma simple_grades_valid_serve today r st :
  wf st -> grades_valid st -> grades_valid (serve today r st).
Proof.
  intros Hwf Hg. destruct r; simpl.
  - unfold create_professor. run_endpoint. done.
  - unfold update_professor. run_endpoint; done.
  - unfold delete_professor. run_endpoint; done.
  - unfold create_student. run_endpoint. done.
  - unfold update_student. run_endpoint; done.
  - destruct (decide (is_Some (students st !! student_id))) as [Hsome|Hnone].
    + destruct (simple_delete_student_run _ _ Hwf Hsome)
        as (st1 & -> & _ & _ & _ & _ & _ & _ & _ & Ee).
      apply (simple_grades_valid_sub st); [done|]. simpl. rewrite Ee.
      intros kv [_ Hin]%list_elem_of_filter. done.
    + unfold delete_student. run_endpoint; done.
  - unfold create_course. run_endpoint; done.
  - unfold update_course. run_endpoint; done.
  - destruct (decide (is_Some (courses st !! course_id))) as [Hsome|Hnone].
    + pose proof Hwf as [[_ Hk _ _] _].
      rewrite (simple_delete_course_run _ _ Hk Hsome). simpl.
      apply (simple_grades_valid_sub st); [done|]. simpl.
      intros kv [_ Hin]%list_elem_of_filter. done.
    + unfold delete_course. run_endpoint; done.
  - unfold enroll_student_in_course. run_endpoint; try done.
    intros k e g. simpl. intros Hin Hgr.
    match goal with H : od_mem _ _ = false |- _ => apply od_mem_false in H;
      rewrite (od_set_fresh _ _ _ H) in Hin end.
    apply elem_of_app in Hin as [Hin|Hin%list_elem_of_singleton]; [eauto|].
    by simplify_eq.
  - rewrite simple_update_enrollment_grade_cases.
    destruct (GRADE_TO_POINTS (PyStr.upper grade)) as [x|] eqn:Egr; [|done].
    destruct (od_get (student_id, course_id) (enrollments st)) as [e0|] eqn:Ee; [|done].
    simpl. apply simple_grades_valid_with_gpa.
    intros k e g. simpl. intros Hin Hgr.
    apply od_set_elem in Hin as [Hin|Heq]; [eauto|].
    simplify_eq. simpl in Hgr. simplify_eq. by rewrite Egr.
  - rewrite simple_drop_course_cases. case_match; [|done]. simpl.
    apply simple_grades_valid_with_gpa.
    apply (simple_grades_valid_sub st); [done|]. simpl.
    rewrite simple_enrollments_decremented. intros [k e] Hin. by eapply od_del_elem.
Qed.

Lemma simple_reachable_more st :
  reachable st -> ids_issued st /\ professors_live st /\ grades_valid st.
Proof.
  induction 1 as [boot|st today r Hr (Hi & Hl & He)].
  - split_and!; [apply simple_ids_issued_init | apply simple_professors_live_init |].
    intros k e g Hin. simpl in Hin. by apply elem_of_nil in Hin.
  - pose proof (simple_reachable_wf _ Hr) as Hwf. split_and!.
    + by apply simple_ids_issued_serve.
    + by apply simple_professors_live_serve.
    + by apply simple_grades_valid_serve.
Qed.

End SimpleGrades.

(** ** What a request that raises leaves behind *)

Module EnhancedErrors.
Import Enhanced EnhancedFacts EnhancedFrames EnhancedCascadeRuns EnhancedEmails.

Lemma enhanced_raise_outcome today r st e :
  wf st -> raised today r st = Some e ->
  serve today r st = st
  /\ (status_code e, error_code e)
     ∈ [(Some 404, Some "PROFESSOR_NOT_FOUND"); (Some 404, Some "STUDENT_NOT_FOUND");
        (Some 404, Some "COURSE_NOT_FOUND"); (Some 404, Some "ENROLLMENT_NOT_FOUND");
        (Some 409, Some "EMAIL_ALREADY_EXISTS"); (Some 409, Some "PROFESSOR_HAS_COURSES");
        (Some 409, Some "ENROLLMENT_CAPACITY_EXCEEDED");
        (Some 409, Some "DUPLICATE_ENROLLMENT")].
Proof.
  intros Hwf. destruct r; simpl.
  - rewrite enhanced_create_professor_run. case_decide; [|done]. simpl.
    intros ?; simplify_eq. split; [done|]. set_solver.
  - destruct (professors st !! professor_id) as [p|] eqn:Ep.
    + destruct (update_professor_cases professor_id professor_update p st Ep)
        as [->|[-> _]]; [|done].
      simpl. intros ?; simplify_eq. split; [done|]. set_solver.
    + unfold update_professor, bind, get, raise. rewrite Ep. simpl.
      intros ?; simplify_eq. split; [done|]. set_solver.
  - unfold delete_professor. run_endpoint; try done.
    all: intros ?; simplify_eq; split; [done|]; set_solver.
  - rewrite enhanced_create_student_run. case_decide; [|done]. simpl.
    intros ?; simplify_eq. split; [done|]. set_solver.
  - destruct (students st !! student_id) as [p|] eqn:Ep.
    + destruct (update_student_cases student_id student_update p st Ep)
        as [->|[-> _]]; [|done].
      simpl. intros ?; simplify_eq. split; [done|]. set_solver.
    + unfold update_student, bind, get, raise. rewrite Ep. simpl.
      intros ?; simplify_eq. split; [done|]. set_solver.
  - destruct (decide (is_Some (students st !! student_id))) as [Hsome|Hnone].
    + by destruct (delete_student_run _ _ Hwf Hsome) as (st1 & -> & _).
    + unfold delete_student. run_endpoint; try done.
      intros ?; simplify_eq. split; [done|]. set_solver.
  - unfold create_course. run_endpoint; try done.
    intros ?; simplify_eq. split; [done|]. set_solver.
  - unfold update_course. run_endpoint; try done.
    all: intros ?; simplify_eq; split; [done|]; set_solver.
  - destruct (decide (is_Some (courses st !! course_id))) as [Hsome|Hnone].
    + pose proof Hwf as [[_ _ Hk _ _ _] _].
      by rewrite (delete_course_run _ _ Hk Hsome).
    + unfold delete_course. run_endpoint; try done.
      intros ?; simplify_eq. split; [done|]. set_solver.
  - destruct enrollment_data as [s c].
    rewrite (enhanced_enroll_table today s c st (proj1 Hwf)).
    repeat (case_match || case_decide); simpl; try done.
    all: intros ?; simplify_eq; split; [done|]; set_solver.
  - destruct (get_enrollment_key_by_ids st student_id course_id) as [k|] eqn:Ek.
    + destruct (PyStr.truthy k) eqn:Et.
      * pose proof Hwf as [[_ _ Hk _ _ _] _].
        destruct (find_enrollment_key_wf _ _ _ _ Hk Ek) as (e0 & Hget & _).
        by rewrite (update_enrollment_grade_run _ _ _ _ _ _ Ek Et Hget).
      * rewrite update_enrollment_grade_not_found by (by rewrite Ek). simpl.
        intros ?; simplify_eq. split; [done|]. set_solver.
    + rewrite update_enrollment_grade_not_found by (by rewrite Ek). simpl.
      intros ?; simplify_eq. split; [done|]. set_solver.
  - destruct (get_enrollment_key_by_ids st student_id course_id) as [k|] eqn:Ek.
    + destruct (PyStr.truthy k) eqn:Et.
      * by rewrite (drop_course_run _ _ _ _ Ek Et).
      * rewrite drop_course_not_found by (by rewrite Ek). simpl.
        intros ?; simplify_eq. split; [done|]. set_solver.
    + rewrite drop_course_not_found by (by rewrite Ek). simpl.
      intros ?; simplify_eq. split; [done|]. set_solver.
Qed.

End EnhancedErrors.

Module SimpleErrors.
Import Simple SimpleFacts SimpleFrames SimpleIds.

Lemma simple_raise_outcome today r st e :
  wf st -> raised today r st = Some e ->
  serve today r st = st
  /\ exists status detail, e = HTTPException status detail /\ (status = 404 \/ status = 400).
Proof.
  intros Hwf. destruct r; simpl.
  - unfold create_professor. run_endpoint. done.
  - unfold update_professor. run_endpoint; try done.
    intros ?; simplify_eq. eauto 10.
  - unfold delete_professor. run_endpoint; try done.
    all: intros ?; simplify_eq; eauto 10.
  - unfold create_student. run_endpoint. done.
  - unfold update_student. run_endpoint; try done.
    intros ?; simplify_eq. eauto 10.
  - destruct (decide (is_Some (students st !! student_id))) as [Hsome|Hnone].
    + by destruct (simple_delete_student_run _ _ Hwf Hsome) as (st1 & -> & _).
    + unfold delete_student. run_endpoint; try done.
      intros ?; simplify_eq. eauto 10.
  - unfold create_course, professor_not_found. run_endpoint; try done.
    intros ?; simplify_eq. eauto 10.
  - unfold update_course, professor_not_found. run_endpoint; try done.
    all: intros ?; simplify_eq; eauto 10.
  - destruct (decide (is_Some (courses st !! course_id))) as [Hsome|Hnone].
    + pose proof Hwf as [[_ Hk _ _] _].
      by rewrite (simple_delete_course_run _ _ Hk Hsome).
    + unfold delete_course. run_endpoint; try done.
      intros ?; simplify_eq. eauto 10.
  - unfold enroll_student_in_course. run_endpoint; try done.
    all: intros ?; simplify_eq; eauto 10.
  - rewrite simple_update_enrollment_grade_cases.
    repeat case_match; try done; simpl; intros ?; simplify_eq; eauto 10.
  - rewrite simple_drop_course_cases. case_match; [done|]. simpl.
    intros ?; simplify_eq. eauto 10.
Qed.

End SimpleErrors.

(** ** Slices and pages *)

Lemma slice_take_drop {A} (start stop : Z) (l : list A) :
  0 <= start <= stop ->
  PyList.slice start stop l = take (Z.to_nat (stop - start)) (drop (Z.to_nat start) l).
Proof.
  intros H. unfold PyList.slice, PyList.clamp.
  rewrite (proj2 (Z.ltb_ge start 0)) by lia.
  rewrite (proj2 (Z.ltb_ge stop 0)) by lia.
  destruct (decide (start <= Z.of_nat (length l))) as [Hs|Hs].
  - rewrite (Z.min_l start) by lia.
    destruct (decide (stop <= Z.of_nat (length l))) as [Ht|Ht].
    + by rewrite (Z.min_l stop) by lia.
    + rewrite (Z.min_r stop) by lia.
      rewrite !take_ge; [done | rewrite length_drop; lia | rewrite length_drop; lia].
  - rewrite (Z.min_r start), (Z.min_r stop) by lia.
    rewrite !drop_ge by lia. by rewrite !take_nil.
Qed.

Lemma page_of_take_drop {A} (page size : Z) (xs : list A) :
  1 <= page -> 0 <= size ->
  Enhanced.page_of page size xs
  = take (Z.to_nat size) (drop (Z.to_nat ((page - 1) * size)) xs).
Proof.
  intros Hp Hs. unfold Enhanced.page_of. cbv zeta.
  rewrite slice_take_drop by nia. do 2 f_equal. lia.
Qed.

Lemma page_of_lookup {A} (page size : Z) (xs : list A) (j : nat) :
  1 <= page -> 0 <= size ->
  Enhanced.page_of page size xs !! j
  = if decide (Z.of_nat j < size)
    then xs !! (Z.to_nat ((page - 1) * size) + j)%nat else None.
Proof.
  intros Hp Hs. rewrite page_of_take_drop by done. case_decide.
  - rewrite lookup_take_lt by lia. by rewrite lookup_drop.
  - rewrite lookup_take_ge; [done | lia].
Qed.

Lemma page_of_length {A} (page size : Z) (xs : list A) :
  1 <= page -> 0 <= size ->
  Z.of_nat (length (Enhanced.page_of page size xs))
  = Z.max 0 (Z.min size (Z.of_nat (length xs) - (page - 1) * size)).
Proof.
  intros Hp Hs. rewrite page_of_take_drop by done.
  rewrite length_take, length_drop.
  assert (0 <= (page - 1) * size) by nia. lia.
Qed.

(** The first [n] pages, one after the other, are the first [n * size]
    items. *)
Lemma pages_concat {A} (size : Z) (xs : list A) (n : nat) :
  0 <= size ->
  concat ((fun p => Enhanced.page_of (Z.of_nat p) size xs) <$> seq 1 n)
  = take (n * Z.to_nat size) xs.
Proof.
  intros Hs. induction n as [|n IH].
  - done.
  - rewrite seq_S, fmap_app, concat_app, IH. simpl. rewrite app_nil_r.
    rewrite page_of_take_drop by lia.
    replace (Z.to_nat ((Z.of_nat (S n) - 1) * size)) with (n * Z.to_nat size)%nat.
    2:{ replace (Z.of_nat (S n) - 1) with (Z.of_nat n) by lia.
        rewrite Z2Nat.inj_mul by lia. by rewrite Nat2Z.id. }
    rewrite take_take_drop. f_equal. simpl. lia.
Qed.

(** ** Looking the ids of a list up in a dictionary *)

Lemma omap_lookup_length {V} (m : gmap Z V) (l : list Z) :
  (forall k, k ∈ l -> is_Some (m !! k)) ->
  length (omap (fun k => m !! k) l) = length l.
Proof.
  induction l as [|k l IH]; intros H; simpl; [done|].
  destruct (H k) as [v ->]; [left|]. simpl. f_equal. apply IH.
  intros k' Hk'. apply H. by right.
Qed.

Lemma omap_lookup_NoDup {V} (m : gmap Z V) (key : V -> Z) (l : list Z) :
  (forall k v, m !! k = Some v -> key v = k) ->
  NoDup l -> NoDup (omap (fun k => m !! k) l).
Proof.
  intros Hkey. induction 1 as [|k l Hk Hl IH]; simpl; [constructor|].
  destruct (m !! k) as [v|] eqn:E; [|done].
  constructor; [|done].
  intros (k' & Hk' & E')%list_elem_of_omap.
  apply Hkey in E, E'. congruence.
Qed.

Lemma filter_fmap_list {A B} (f : A -> B) (P : B -> Prop) `{forall b, Decision (P b)}
    (l : list A) :
  filter P (f <$> l) = f <$> filter (fun a => P (f a)) l.
Proof.
  induction l as [|a l IH]; [done|]. rewrite fmap_cons, !filter_cons.
  case_decide; [rewrite fmap_cons|]; by rewrite IH.
Qed.

(** In a list whose images under [(f, g)] are pairwise distinct, the
    items with a given [f] have pairwise distinct [g]. *)
Lemma NoDup_fiber {T} (f g : T -> Z) (a : Z) (l : list T) :
  NoDup ((fun x => (f x, g x)) <$> l) ->
  NoDup (g <$> filter (fun x => f x = a) l).
Proof.
  induction l as [|x l IH]; [constructor|].
  rewrite fmap_cons. intros [Hx Hl]%NoDup_cons. rewrite filter_cons.
  case_decide as Ha; [|by apply IH].
  rewrite fmap_cons. constructor; [|by apply IH].
  intros (y & Hg & [Hf Hy]%list_elem_of_filter)%list_elem_of_fmap.
  apply Hx. apply list_elem_of_fmap. exists y. split; [|done]. congruence.
Qed.

Module EnhancedReads.
Import Enhanced EnhancedFacts EnhancedFrames EnhancedEmails.

Lemma pairs_values (d : odict string Enrollment.t) :
  pairs d = (fun e => (Enrollment.student_id e, Enrollment.course_id e)) <$> od_values d.
Proof. unfold pairs, od_values. by rewrite <- list_fmap_compose. Qed.

Lemma pairs_swapped_NoDup (d : odict string Enrollment.t) :
  NoDup (pairs d) ->
  NoDup ((fun e => (Enrollment.course_id e, Enrollment.student_id e)) <$> od_values d).
Proof.
  rewrite pairs_values. intros H.
  apply (NoDup_fmap_1 (fun p : Z * Z => (p.2, p.1))).
  by rewrite <- list_fmap_compose.
Qed.

(** The course ids of the enrollments of a student, and the student ids
    of the enrollments of a course. *)
Lemma course_ids_of_student st s c :
  c ∈ Enrollment.course_id
        <$> filter (fun e => Enrollment.student_id e = s) (od_values (enrollments st))
  <-> enrolled st s c.
Proof.
  unfold enrolled. rewrite pairs_values, !list_elem_of_fmap. split.
  - intros (e & -> & [Hs Hin]%list_elem_of_filter). exists e. by rewrite Hs.
  - intros (e & Heq & Hin). simplify_eq. exists e. split; [done|].
    by apply list_elem_of_filter.
Qed.

Lemma student_ids_of_course st s c :
  s ∈ Enrollment.student_id
        <$> filter (fun e => Enrollment.course_id e = c) (od_values (enrollments st))
  <-> enrolled st s c.
Proof.
  unfold enrolled. rewrite pairs_values, !list_elem_of_fmap. split.
  - intros (e & -> & [Hs Hin]%list_elem_of_filter). exists e. by rewrite Hs.
  - intros (e & Heq & Hin). simplify_eq. exists e. split; [done|].
    by apply list_elem_of_filter.
Qed.

Lemma live_enrollments_values c (d : odict string Enrollment.t) :
  live_enrollments c d
  = Z.of_nat (length (filter (fun e => Enrollment.course_id e = c) (od_values d))).
Proof.
  unfold live_enrollments, od_values. by rewrite filter_fmap_list, length_fmap.
Qed.

Lemma get_student_courses_reachable st s :
  consistent st -> is_Some (students st !! s) ->
  exists cs,
    get_student_courses s st = (inr cs, st)
    /\ NoDup cs
    /\ (forall c, c ∈ cs <-> courses st !! Course.id c = Some c
                             /\ enrolled st s (Course.id c))
    /\ length cs
       = length (filter (fun e => Enrollment.student_id e = s)
                        (od_values (enrollments st))).
Proof.
  intros [Hsi Hci Hk Hki Hr Hp] Hs.
  unfold get_student_courses, bind, get, ret. rewrite decide_True by done.
  eexists. split; [reflexivity|]. split_and!.
  - apply (omap_lookup_NoDup _ Course.id); [intros k v Hl; by apply Hci|].
    apply NoDup_fiber. by rewrite <- pairs_values.
  - intros c. rewrite list_elem_of_omap. split.
    + intros (k & Hin%course_ids_of_student & Hl).
      destruct (Hci _ _ Hl) as [-> _]. done.
    + intros [Hl Hen]. exists (Course.id c). split; [|done].
      by apply course_ids_of_student.
  - rewrite omap_lookup_length; [by rewrite length_fmap|].
    intros k (e & -> & [_ Hin]%list_elem_of_filter)%list_elem_of_fmap.
    apply list_elem_of_fmap in Hin as ([k0 e0] & -> & Hin). by apply (Hr k0 e0).
Qed.

Lemma get_course_roster_reachable st c course :
  wf st -> courses st !! c = Some course ->
  exists ss,
    get_course_roster c st = (inr ss, st)
    /\ NoDup ss
    /\ (forall s, s ∈ ss <-> students st !! Student.id s = Some s
                             /\ enrolled st (Student.id s) c)
    /\ Z.of_nat (length ss) = Course.enrolled_students course.
Proof.
  intros [[Hsi Hci Hk Hki Hr Hp] Hcount] Hc.
  unfold get_course_roster, bind, get, ret. rewrite decide_True by (by rewrite Hc).
  eexists. split; [reflexivity|]. split_and!.
  - apply (omap_lookup_NoDup _ Student.id); [done|].
    apply NoDup_fiber. by apply pairs_swapped_NoDup.
  - intros s. rewrite list_elem_of_omap. split.
    + intros (k & Hin%student_ids_of_course & Hl).
      rewrite (Hsi _ _ Hl). done.
    + intros [Hl Hen]. exists (Student.id s). split; [|done].
      by apply student_ids_of_course.
  - rewrite omap_lookup_length.
    + rewrite length_fmap, (Hcount c course I Hc). by rewrite live_enrollments_values.
    + intros k (e & -> & [_ Hin]%list_elem_of_filter)%list_elem_of_fmap.
      apply list_elem_of_fmap in Hin as ([k0 e0] & -> & Hin). by apply (Hr k0 e0).
Qed.

End EnhancedReads.

Module SimpleReads.
Import Simple SimpleFacts SimpleFrames SimpleGrades.

Lemma simple_pairs_values (d : odict (Z * Z) Enrollment.t) :
  pairs d = (fun e => (Enrollment.student_id e, Enrollment.course_id e)) <$> od_values d.
Proof. unfold pairs, od_values. by rewrite <- list_fmap_compose. Qed.

Lemma simple_pairs_NoDup st : consistent st -> NoDup (pairs (enrollments st)).
Proof. intros Hco. rewrite (simple_pairs_keys st Hco). by destruct Hco. Qed.

Lemma simple_pairs_swapped_NoDup (d : odict (Z * Z) Enrollment.t) :
  NoDup (pairs d) ->
  NoDup ((fun e => (Enrollment.course_id e, Enrollment.student_id e)) <$> od_values d).
Proof.
  rewrite simple_pairs_values. intros H.
  apply (NoDup_fmap_1 (fun p : Z * Z => (p.2, p.1))).
  by rewrite <- list_fmap_compose.
Qed.

Lemma simple_course_ids_of_student st s c :
  c ∈ Enrollment.course_id
        <$> filter (fun e => Enrollment.student_id e = s) (od_values (enrollments st))
  <-> enrolled st s c.
Proof.
  unfold enrolled. rewrite simple_pairs_values, !list_elem_of_fmap. split.
  - intros (e & -> & [Hs Hin]%list_elem_of_filter). exists e. by rewrite Hs.
  - intros (e & Heq & Hin). simplify_eq. exists e. split; [done|].
    by apply list_elem_of_filter.
Qed.

Lemma simple_student_ids_of_course st s c :
  s ∈ Enrollment.student_id
        <$> filter (fun e => Enrollment.course_id e = c) (od_values (enrollments st))
  <-> enrolled st s c.
Proof.
  unfold enrolled. rewrite simple_pairs_values, !list_elem_of_fmap. split.
  - intros (e & -> & [Hs Hin]%list_elem_of_filter). exists e. by rewrite Hs.
  - intros (e & Heq & Hin). simplify_eq. exists e. split; [done|].
    by apply list_elem_of_filter.
Qed.

Lemma simple_live_enrollments_values c (d : odict (Z * Z) Enrollment.t) :
  live_enrollments c d
  = Z.of_nat (length (filter (fun e => Enrollment.course_id e = c) (od_values d))).
Proof.
  unfold live_enrollments, od_values. by rewrite filter_fmap_list, length_fmap.
Qed.

Lemma simple_get_student_courses_reachable st s :
  consistent st -> ids_issued st -> is_Some (students st !! s) ->
  exists cs,
    get_student_courses s st = (inr cs, st)
    /\ NoDup cs
    /\ (forall c, c ∈ cs <-> courses st !! Course.id c = Some c
                             /\ enrolled st s (Course.id c))
    /\ length cs
       = length (filter (fun e => Enrollment.student_id e = s)
                        (od_values (enrollments st))).
Proof.
  intros Hco [Hip His Hic] Hs. pose proof (simple_pairs_NoDup _ Hco) as Hp.
  destruct Hco as [Hci Hk Hkf Hr].
  unfold get_student_courses, bind, get, ret. rewrite decide_True by done.
  eexists. split; [reflexivity|]. split_and!.
  - apply (omap_lookup_NoDup _ Course.id); [intros k v Hl; by apply Hic|].
    apply NoDup_fiber. by rewrite <- simple_pairs_values.
  - intros c. rewrite list_elem_of_omap. split.
    + intros (k & Hin%simple_course_ids_of_student & Hl).
      destruct (Hic _ _ Hl) as [-> _]. done.
    + intros [Hl Hen]. exists (Course.id c). split; [|done].
      by apply simple_course_ids_of_student.
  - rewrite omap_lookup_length; [by rewrite length_fmap|].
    intros k (e & -> & [_ Hin]%list_elem_of_filter)%list_elem_of_fmap.
    apply list_elem_of_fmap in Hin as ([k0 e0] & -> & Hin). by apply (Hr k0 e0).
Qed.

Lemma simple_get_course_roster_reachable st c course :
  wf st -> ids_issued st -> courses st !! c = Some course ->
  exists ss,
    get_course_roster c st = (inr ss, st)
    /\ NoDup ss
    /\ (forall s, s ∈ ss <-> students st !! Student.id s = Some s
                             /\ enrolled st (Student.id s) c)
    /\ Z.of_nat (length ss) = Course.enrolled_students course.
Proof.
  intros [Hco Hcount] [Hip His Hic] Hc. pose proof (simple_pairs_NoDup _ Hco) as Hp.
  destruct Hco as [Hci Hk Hkf Hr].
  unfold get_course_roster, bind, get, ret. rewrite decide_True by (by rewrite Hc).
  eexists. split; [reflexivity|]. split_and!.
  - apply (omap_lookup_NoDup _ Student.id); [intros k v Hl; by apply His|].
    apply NoDup_fiber. by apply simple_pairs_swapped_NoDup.
  - intros s. rewrite list_elem_of_omap. split.
    + intros (k & Hin%simple_student_ids_of_course & Hl).
      destruct (His _ _ Hl) as [-> _]. done.
    + intros [Hl Hen]. exists (Student.id s). split; [|done].
      by apply simple_student_ids_of_course.
  - rewrite omap_lookup_length.
    + rewrite length_fmap, (Hcount c course I Hc).
      by rewrite simple_live_enrollments_values.
    + intros k (e & -> & [_ Hin]%list_elem_of_filter)%list_elem_of_fmap.
      apply list_elem_of_fmap in Hin as ([k0 e0] & -> & Hin). by apply (Hr k0 e0).
Qed.

End SimpleReads.

(** ** Counting the enrollments a cascade removes *)

Lemma filter_length_split {A} (P Q : A -> Prop)
    `{forall x, Decision (P x)} `{forall x, Decision (Q x)} (l : list A) :
  length (filter P l)
  = (length (filter (fun x => P x /\ Q x) l)
     + length (filter P (filter (fun x => ~ Q x) l)))%nat.
Proof.
  induction l as [|x l IH]; [done|].
  rewrite !filter_cons.
  destruct (decide (P x)), (decide (Q x)); simpl;
    repeat first [rewrite decide_True by tauto | rewrite decide_False by tauto
                  | rewrite filter_cons]; simpl; lia.
Qed.

Module EnhancedCascade.
Import Enhanced EnhancedFacts EnhancedFrames EnhancedCascadeRuns.

Lemma live_enrollments_without_student st sid k :
  NoDup (pairs (enrollments st)) ->
  live_enrollments k (filter (fun kv => Enrollment.student_id kv.2 <> sid) (enrollments st))
  = live_enrollments k (enrollments st) - (if decide (enrolled st sid k) then 1 else 0).
Proof.
  intros Hnd. unfold live_enrollments.
  rewrite (filter_length_split (fun kv => Enrollment.course_id kv.2 = k)
             (fun kv => Enrollment.student_id kv.2 = sid) (enrollments st)).
  assert (length (filter (fun kv : string * Enrollment.t =>
                     Enrollment.course_id kv.2 = k /\ Enrollment.student_id kv.2 = sid)
                    (enrollments st))
          = if decide (enrolled st sid k) then 1%nat else 0%nat) as ->.
  { case_decide as Hen.
    - unfold enrolled, pairs in Hen. apply list_elem_of_fmap in Hen as (kv & Heq & Hin).
      rewrite (list_filter_iff _
                 (fun y => (fun kv0 : string * Enrollment.t =>
                              (Enrollment.student_id kv0.2, Enrollment.course_id kv0.2)) y
                           = (fun kv0 : string * Enrollment.t =>
                              (Enrollment.student_id kv0.2, Enrollment.course_id kv0.2)) kv)).
      + by rewrite (filter_unique_image _ _ _ Hnd Hin).
      + intros y. simpl. rewrite <- Heq. split; [intros [-> ->]; done|].
        intros ?; by simplify_eq.
    - apply length_zero_iff_nil.
      destruct (filter _ _) as [|kv l] eqn:E; [done|]. exfalso. apply Hen.
      assert (kv ∈ filter (fun kv : string * Enrollment.t =>
                     Enrollment.course_id kv.2 = k /\ Enrollment.student_id kv.2 = sid)
                    (enrollments st)) as [[Hc Hs] Hin]%list_elem_of_filter
        by (rewrite E; left).
      unfold enrolled, pairs. apply list_elem_of_fmap. exists kv. by rewrite Hc, Hs. }
  case_decide; lia.
Qed.

(** [delete_student], exactly. *)
Lemma delete_student_exact sid st :
  wf st -> is_Some (students st !! sid) ->
  exists st',
    delete_student sid st = (inr tt, st')
    /\ students st' = delete sid (students st)
    /\ professors st' = professors st
    /\ enrollments st'
       = filter (fun kv => Enrollment.student_id kv.2 <> sid) (enrollments st)
    /\ (forall k, courses st' !! k
                  = (fun c => if decide (enrolled st sid k)
                              then Course.add_enrolled (-1) c else c)
                      <$> courses st !! k)
    /\ next_professor_id st' = next_professor_id st
    /\ next_student_id st' = next_student_id st
    /\ next_course_id st' = next_course_id st
    /\ next_enrollment_id st' = next_enrollment_id st.
Proof.
  intros Hwf Hs.
  destruct (delete_student_run _ _ Hwf Hs)
    as (st1 & Hrun & Hwf1 & Ep & Es & Enp & Ens & Enc & Ene & Hcr & Ee).
  exists (set_students (delete sid) st1). split; [done|]. simpl.
  rewrite Es. split_and!; try done.
  intros k. specialize (Hcr k).
  destruct (courses st1 !! k) as [c1|] eqn:E1, (courses st !! k) as [c|] eqn:E0;
    inversion Hcr as [? ? [n ->]|]; subst; simpl; [|done].
  f_equal.
  destruct Hwf as [[_ _ _ _ _ Hp] Hc], Hwf1 as [_ Hc1].
  pose proof (Hc1 k _ I E1) as H1. pose proof (Hc k _ I E0) as H0.
  rewrite Ee, (live_enrollments_without_student _ _ _ Hp) in H1. simpl in H1.
  case_decide.
  - replace n with (-1) by lia. done.
  - replace n with 0 by lia. apply add_enrolled_0.
Qed.

End EnhancedCascade.

Module SimpleCascade.
Import Simple SimpleFacts SimpleFrames.

Lemma simple_live_enrollments_without_student st sid k :
  NoDup (pairs (enrollments st)) ->
  live_enrollments k (filter (fun kv => Enrollment.student_id kv.2 <> sid) (enrollments st))
  = live_enrollments k (enrollments st) - (if decide (enrolled st sid k) then 1 else 0).
Proof.
  intros Hnd. unfold live_enrollments.
  rewrite (filter_length_split (fun kv => Enrollment.course_id kv.2 = k)
             (fun kv => Enrollment.student_id kv.2 = sid) (enrollments st)).
  assert (length (filter (fun kv : Z * Z * Enrollment.t =>
                     Enrollment.course_id kv.2 = k /\ Enrollment.student_id kv.2 = sid)
                    (enrollments st))
          = if decide (enrolled st sid k) then 1%nat else 0%nat) as ->.
  { case_decide as Hen.
    - unfold enrolled, pairs in Hen. apply list_elem_of_fmap in Hen as (kv & Heq & Hin).
      rewrite (list_filter_iff _
                 (fun y => (fun kv0 : Z * Z * Enrollment.t =>
                              (Enrollment.student_id kv0.2, Enrollment.course_id kv0.2)) y
                           = (fun kv0 : Z * Z * Enrollment.t =>
                              (Enrollment.student_id kv0.2, Enrollment.course_id kv0.2)) kv)).
      + by rewrite (filter_unique_image _ _ _ Hnd Hin).
      + intros y. simpl. rewrite <- Heq. split; [intros [-> ->]; done|].
        intros ?; by simplify_eq.
    - apply length_zero_iff_nil.
      destruct (filter _ _) as [|kv l] eqn:E; [done|]. exfalso. apply Hen.
      assert (kv ∈ filter (fun kv : Z * Z * Enrollment.t =>
                     Enrollment.course_id kv.2 = k /\ Enrollment.student_id kv.2 = sid)
                    (enrollments st)) as [[Hc Hs] Hin]%list_elem_of_filter
        by (rewrite E; left).
      unfold enrolled, pairs. apply list_elem_of_fmap. exists kv. by rewrite Hc, Hs. }
  case_decide; lia.
Qed.

Lemma simple_consistent_pairs_NoDup st : consistent st -> NoDup (pairs (enrollments st)).
Proof. intros Hco. rewrite (simple_pairs_keys st Hco). by destruct Hco. Qed.

Lemma simple_delete_student_exact sid st :
  wf st -> is_Some (students st !! sid) ->
  exists st',
    delete_student sid st = (inr tt, st')
    /\ students st' = delete sid (students st)
    /\ professors st' = professors st
    /\ enrollments st'
       = filter (fun kv => Enrollment.student_id kv.2 <> sid) (enrollments st)
    /\ (forall k, courses st' !! k
                  = (fun c => if decide (enrolled st sid k)
                              then Course.add_enrolled (-1) c else c)
                      <$> courses st !! k)
    /\ next_professor_id st' = next_professor_id st
    /\ next_student_id st' = next_student_id st
    /\ next_course_id st' = next_course_id st.
Proof.
  intros Hwf Hs.
  destruct (simple_delete_student_run _ _ Hwf Hs)
    as (st1 & Hrun & Hwf1 & Ep & Es & Enp & Ens & Enc & Hcr & Ee).
  exists (set_students (delete sid) st1). split; [done|]. simpl.
  rewrite Es. split_and!; try done.
  intros k. specialize (Hcr k).
  destruct (courses st1 !! k) as [c1|] eqn:E1, (courses st !! k) as [c|] eqn:E0;
    inversion Hcr as [? ? [n ->]|]; subst; simpl; [|done].
  f_equal.
  pose proof (simple_consistent_pairs_NoDup _ (proj1 Hwf)) as Hp.
  destruct Hwf as [_ Hc], Hwf1 as [_ Hc1].
  pose proof (Hc1 k _ I E1) as H1. pose proof (Hc k _ I E0) as H0.
  rewrite Ee, (simple_live_enrollments_without_student _ _ _ Hp) in H1. simpl in H1.
  case_decide.
  - replace n with (-1) by lia. done.
  - replace n with 0 by lia. apply simple_add_enrolled_0.
Qed.

End SimpleCascade.

(** ** Enrolling and dropping again *)

Lemma od_del_app_fresh {K V} `{EqDecision K} (k : K) (v : V) (d : odict K V) :
  od_get k d = None -> od_del k (d ++ [(k, v)]) = d.
Proof.
  induction d as [|[k1 v1] d IH]; simpl.
  - intros _. by rewrite decide_True.
  - case_decide; [done|]. intros Hg. by rewrite IH.
Qed.

Module EnhancedRound.
Import Enhanced EnhancedFacts EnhancedFrames.

Lemma find_enrollment_key_app_new s c d k e :
  (s, c) ∉ pairs d -> Enrollment.student_id e = s -> Enrollment.course_id e = c ->
  find_enrollment_key s c (d ++ [(k, e)]) = Some k.
Proof.
  intros Hn Hs Hc. induction d as [|[k1 e1] d IH]; simpl.
  - by rewrite decide_True.
  - unfold pairs in Hn. rewrite fmap_cons in Hn. apply not_elem_of_cons in Hn as [Hne Hn].
    simpl in Hne. rewrite decide_False; [by apply IH|].
    intros [? ?]. apply Hne. congruence.
Qed.

Lemma with_gpa_bump s st :
  with_gpa s (bump_next_enrollment_id st) = bump_next_enrollment_id (with_gpa s st).
Proof.
  unfold with_gpa. simpl. destruct (students st !! s); [|done].
  unfold set_students, bump_next_enrollment_id. simpl. do 3 f_equal.
Qed.

Lemma enroll_then_drop today s c st student course :
  consistent st ->
  students st !! s = Some student -> courses st !! c = Some course ->
  Course.enrolled_students course < Course.max_capacity course ->
  ~ enrolled st s c ->
  exists r st1,
    enroll_student_in_course today (mkEnrollmentCreate s c) st = (inr r, st1)
    /\ drop_course s c st1 = (inr tt, bump_next_enrollment_id (with_gpa s st)).
Proof.
  intros Hco Hs Hc Hcap Hen.
  pose proof (issued_key_fresh st Hco) as Hfresh.
  assert (truthy_opt (get_enrollment_key_by_ids st (Student.id student) (Course.id course))
          = false) as Hdup.
  { destruct (truthy_opt _) eqn:E; [|done]. exfalso. apply Hen.
    by apply (duplicate_test st s c student course). }
  rewrite (enroll_run today s c st student course Hs Hc Hcap Hdup).
  eexists _, _. split; [reflexivity|].
  set (key := enrollment_key (next_enrollment_id st)) in *.
  assert (get_enrollment_key_by_ids (enrolled_state today s c course st) s c = Some key)
    as Hk.
  { unfold get_enrollment_key_by_ids, enrolled_state. simpl. fold key.
    rewrite (od_set_fresh _ _ _ Hfresh). by apply find_enrollment_key_app_new. }
  rewrite (drop_course_run _ _ _ _ Hk (enrollment_key_truthy _)).
  f_equal. rewrite <- with_gpa_bump. f_equal.
  unfold decremented, enrolled_state. simpl. rewrite lookup_insert_eq. fold key.
  unfold set_enrollments, set_courses, bump_next_enrollment_id. simpl.
  rewrite (od_set_fresh _ _ _ Hfresh), od_del_app_fresh by done.
  rewrite insert_insert_eq, add_enrolled_add. simpl. rewrite add_enrolled_0.
  by rewrite insert_id.
Qed.

End EnhancedRound.

Module SimpleRound.
Import Simple SimpleFacts SimpleFrames.

Lemma simple_enroll_then_drop today s c st course :
  is_Some (students st !! s) -> courses st !! c = Some course ->
  Course.enrolled_students course < Course.max_capacity course ->
  od_get (s, c) (enrollments st) = None ->
  exists r st1,
    enroll_student_in_course today (mkEnrollmentCreate s c) st = (inr r, st1)
    /\ drop_course s c st1 = (inr tt, with_gpa s st).
Proof.
  intros Hs Hc Hcap Hfresh.
  rewrite (simple_enroll_run today s c st course Hs Hc Hcap Hfresh).
  eexists _, _. split; [reflexivity|].
  rewrite simple_drop_course_run.
  2:{ unfold enrolled_state. simpl. rewrite od_get_set_eq. eauto. }
  do 2 f_equal.
  unfold decremented, enrolled_state. simpl. rewrite lookup_insert_eq.
  unfold set_enrollments, set_courses. simpl.
  rewrite (od_set_fresh _ _ _ Hfresh), od_del_app_fresh by done.
  rewrite insert_insert_eq, simple_add_enrolled_add. simpl. rewrite simple_add_enrolled_0.
  rewrite insert_id by done. by destruct st.
Qed.

End SimpleRound.

(** ** Sums, minima and maxima *)

Lemma foldl_add_shift (a : Z) (l : list Z) : foldl Z.add a l = a + foldl Z.add 0 l.
Proof.
  revert a. induction l as [|x l IH]; intros a; simpl; [lia|].
  rewrite (IH (a + x)), (IH (0 + x)). lia.
Qed.

Lemma sum_cons (x : Z) (l : list Z) : PyList.sum (x :: l) = x + PyList.sum l.
Proof. unfold PyList.sum. simpl. rewrite foldl_add_shift. lia. Qed.

Lemma sum_ext {A} (f g : A -> Z) (l : list A) :
  (forall x, x ∈ l -> f x = g x) -> PyList.sum (f <$> l) = PyList.sum (g <$> l).
Proof.
  intros H. induction l as [|x l IH]; [done|]. rewrite !fmap_cons, !sum_cons.
  rewrite (H x) by left. rewrite IH; [done|]. intros y Hy. apply H. by right.
Qed.

Lemma sum_plus {A} (f g : A -> Z) (l : list A) :
  PyList.sum ((fun x => f x + g x) <$> l) = PyList.sum (f <$> l) + PyList.sum (g <$> l).
Proof.
  induction l as [|x l IH]; [done|]. rewrite !fmap_cons, !sum_cons, IH. lia.
Qed.

Lemma sum_indicator (a : Z) (l : list Z) :
  NoDup l ->
  PyList.sum ((fun k => if decide (a = k) then 1 else 0) <$> l)
  = if decide (a ∈ l) then 1 else 0.
Proof.
  induction 1 as [|x l Hx Hl IH]; [done|]. rewrite fmap_cons, sum_cons, IH.
  destruct (decide (a = x)) as [->|Hne].
  - rewrite decide_False by done. rewrite decide_True by left. done.
  - destruct (decide (a ∈ l)).
    + rewrite decide_True by (by right). done.
    + rewrite decide_False; [done|]. by intros [?|?]%elem_of_cons.
Qed.

Lemma sum_bounds (lo hi : Z) (l : list Z) :
  (forall x, x ∈ l -> lo <= x <= hi) ->
  Z.of_nat (length l) * lo <= PyList.sum l <= Z.of_nat (length l) * hi.
Proof.
  induction l as [|x l IH]; intros H; [done|]. rewrite sum_cons. 
  assert (lo <= x <= hi) by (apply H; left).
  assert (Z.of_nat (length l) * lo <= PyList.sum l <= Z.of_nat (length l) * hi).
  { apply IH. intros y Hy. apply H. by right. }
  simpl length. lia.
Qed.

Lemma foldl_min_spec (a : Z) (l : list Z) :
  foldl Z.min a l ∈ a :: l /\ forall x, x ∈ a :: l -> foldl Z.min a l <= x.
Proof.
  revert a. induction l as [|y l IH]; intros a; simpl.
  - split; [left|]. intros x ->%list_elem_of_singleton. lia.
  - destruct (IH (Z.min a y)) as [Hin Hle]. split.
    + apply elem_of_cons in Hin as [->|Hin].
      * destruct (Z.min_spec a y) as [[_ ->]|[_ ->]]; [left | right; left].
      * right. by right.
    + intros x Hx. assert (foldl Z.min (Z.min a y) l <= Z.min a y) by (apply Hle; left).
      apply elem_of_cons in Hx as [->|[->|Hx]%elem_of_cons]; [lia | lia |].
      apply Hle. by right.
Qed.

Lemma foldl_max_spec (a : Z) (l : list Z) :
  foldl Z.max a l ∈ a :: l /\ forall x, x ∈ a :: l -> x <= foldl Z.max a l.
Proof.
  revert a. induction l as [|y l IH]; intros a; simpl.
  - split; [left|]. intros x ->%list_elem_of_singleton. lia.
  - destruct (IH (Z.max a y)) as [Hin Hle]. split.
    + apply elem_of_cons in Hin as [->|Hin].
      * destruct (Z.max_spec a y) as [[_ ->]|[_ ->]]; [right; left | left].
      * right. by right.
    + intros x Hx. assert (Z.max a y <= foldl Z.max (Z.max a y) l) by (apply Hle; left).
      apply elem_of_cons in Hx as [->|[->|Hx]%elem_of_cons]; [lia | lia |].
      apply Hle. by right.
Qed.

(** Every item of [d] counts for exactly one key of [keys]. *)
Lemma sum_of_counts {T} (key : T -> Z) (keys : list Z) (d : list T) :
  NoDup keys -> (forall x, x ∈ d -> key x ∈ keys) ->
  PyList.sum ((fun k => Z.of_nat (length (filter (fun x => key x = k) d))) <$> keys)
  = Z.of_nat (length d).
Proof.
  intros Hnd. induction d as [|x d IH]; intros Hin.
  - clear Hin. simpl. induction keys as [|k keys IHk]; [done|].
    rewrite fmap_cons, sum_cons. apply NoDup_cons in Hnd as [_ Hnd].
    rewrite IHk by done. simpl. lia.
  - rewrite (sum_ext _ (fun k => (if decide (key x = k) then 1 else 0)
                                 + Z.of_nat (length (filter (fun y => key y = k) d)))).
    + rewrite sum_plus, IH, sum_indicator by (done || (intros y Hy; apply Hin; by right)).
      rewrite decide_True by (apply Hin; left). simpl length. lia.
    + intros k _. rewrite filter_cons. case_decide; simpl length; lia.
Qed.

Module EnhancedStats.
Import Enhanced EnhancedFacts.

Lemma total_enrollment_is_length st :
  wf st ->
  PyList.sum (Course.enrolled_students <$> dict_values (courses st))
  = Z.of_nat (length (enrollments st)).
Proof.
  intros [[Hsi Hci Hk Hki Hr Hp] Hc]. unfold dict_values.
  rewrite <- (sum_of_counts (fun kv : string * Enrollment.t => Enrollment.course_id kv.2)
                (dict_items (courses st)).*1 (enrollments st)).
  - rewrite <- !list_fmap_compose. apply sum_ext.
    intros [k c] Hin%elem_of_dict_items. simpl. by apply Hc.
  - apply dict_items_NoDup.
  - intros [k e] Hin. simpl. destruct (Hr k e Hin) as [_ [c Hl]].
    apply list_elem_of_fmap. exists (Enrollment.course_id e, c). split; [done|].
    by apply elem_of_dict_items.
Qed.

Lemma get_course_enrollment_stats_wf st :
  wf st -> courses st <> ∅ ->
  exists lo hi,
    get_course_enrollment_stats st
    = (match PyFloat.truediv (Z.of_nat (length (enrollments st)))
                             (Z.of_nat (size (courses st))) with
       | inl e => inl e
       | inr q => inr (Stats (Z.of_nat (size (courses st)))
                             (Z.of_nat (length (enrollments st)))
                             (PyFloat.Float (PyFloat.round2 q)) lo hi)
       end, st)
    /\ (forall k c, courses st !! k = Some c -> lo <= Course.enrolled_students c <= hi)
    /\ (exists k c, courses st !! k = Some c /\ Course.enrolled_students c = lo)
    /\ (exists k c, courses st !! k = Some c /\ Course.enrolled_students c = hi)
    /\ 0 <= lo
    /\ Z.of_nat (size (courses st)) * lo <= Z.of_nat (length (enrollments st))
       <= Z.of_nat (size (courses st)) * hi.
Proof.
  intros Hwf Hne.
  pose proof (total_enrollment_is_length st Hwf) as Htotal.
  unfold get_course_enrollment_stats, bind at 1, get.
  rewrite decide_False by done.
  set (l := Course.enrolled_students <$> dict_values (courses st)) in *.
  assert (Hlen : length l = size (courses st))
    by (unfold l; by rewrite length_fmap, dict_values_length).
  assert (Hmem : forall x, x ∈ l <-> exists k c, courses st !! k = Some c
                                              /\ Course.enrolled_students c = x).
  { intros x. unfold l. rewrite list_elem_of_fmap. split.
    - intros (c & -> & [k Hk]%elem_of_dict_values). eauto.
    - intros (k & c & Hk & <-). exists c. split; [done|].
      apply elem_of_dict_values. eauto. }
  assert (Hpos : (0 < size (courses st))%nat).
  { destruct (size (courses st)) eqn:E; [|lia]. by apply map_size_empty_iff in E. }
  destruct l as [|x l'] eqn:El; [simpl in Hlen; lia|].
  destruct (foldl_min_spec x l') as [Hmin_in Hmin_le].
  destruct (foldl_max_spec x l') as [Hmax_in Hmax_le].
  exists (foldl Z.min x l'), (foldl Z.max x l').
  assert (Hbounds : forall y, y ∈ x :: l' -> foldl Z.min x l' <= y <= foldl Z.max x l')
    by (intros y Hy; split; [by apply Hmin_le | by apply Hmax_le]).
  split_and!.
  - rewrite Hlen, Htotal. unfold bind.
    rewrite (proj2 (Z.ltb_lt 0 _)) by lia.
    destruct (PyFloat.truediv _ _); reflexivity.
  - intros k c Hk. apply Hbounds, Hmem. eauto.
  - by apply Hmem.
  - by apply Hmem.
  - apply Hmem in Hmin_in as (k & c & Hk & <-).
    destruct Hwf as [_ Hc]. rewrite (Hc k c I Hk). apply live_enrollments_nonneg.
  - pose proof (sum_bounds _ _ _ Hbounds) as Hb. rewrite Hlen, Htotal in Hb. lia.
  - pose proof (sum_bounds _ _ _ Hbounds) as Hb. rewrite Hlen, Htotal in Hb. lia.
Qed.

End EnhancedStats.

(** ** Comparing floats *)

Lemma SFcompare_antisym (x y : spec_float) :
  SFcompare y x = CompOpp <$> SFcompare x y.
Proof.
  destruct x as [sx|sx| |sx mx ex], y as [sy|sy| |sy my ey]; simpl;
    try reflexivity; try (by destruct sx); try (by destruct sy);
    try (by destruct sx, sy).
  destruct sx, sy; try reflexivity; simpl; f_equal.
  - rewrite (Z.compare_antisym ex ey). destruct (ex ?= ey); simpl; try reflexivity.
    f_equal. apply ZC4.
  - rewrite (Z.compare_antisym ex ey). destruct (ex ?= ey); simpl; try reflexivity.
    apply ZC4.
Qed.

Lemma SFltb_false_SFleb (x y : spec_float) :
  SFcompare x y <> None -> SFltb x y = false -> SFleb y x = true.
Proof.
  unfold SFltb, SFleb. rewrite (SFcompare_antisym x y).
  destruct (SFcompare x y) as [[]|]; simpl; done.
Qed.

Lemma SFleb_true_compare (x y : spec_float) :
  SFleb x y = true -> SFcompare x y <> None.
Proof. unfold SFleb. by destruct (SFcompare x y). Qed.

Lemma SFcompare_finite_r (x : spec_float) s m e :
  SFcompare x (S754_zero false) <> None -> SFcompare x (S754_finite s m e) <> None.
Proof. by destruct x. Qed.

Lemma gpa_buckets_cover (g : PyFloat.float) :
  PyFloat.leb PyFloat.zero g = true -> PyFloat.leb g PyFloat.four = true ->
  PyFloat.leb PyFloat.zero g && PyFloat.ltb g PyFloat.one
  || PyFloat.leb PyFloat.one g && PyFloat.ltb g PyFloat.two
  || PyFloat.leb PyFloat.two g && PyFloat.ltb g PyFloat.three
  || PyFloat.leb PyFloat.three g && PyFloat.leb g PyFloat.four = true.
Proof.
  unfold PyFloat.leb, PyFloat.ltb. intros H0 H4. rewrite H0, H4.
  assert (Hg : SFcompare g (S754_zero false) <> None).
  { apply SFleb_true_compare in H0. rewrite (SFcompare_antisym (S754_zero false) g).
    unfold PyFloat.zero in H0. by destruct (SFcompare (S754_zero false) g). }
  assert (H1 : SFcompare g PyFloat.one <> None) by (by apply SFcompare_finite_r).
  assert (H2 : SFcompare g PyFloat.two <> None) by (by apply SFcompare_finite_r).
  assert (H3 : SFcompare g PyFloat.three <> None) by (by apply SFcompare_finite_r).
  destruct (SFltb g PyFloat.one) eqn:E1; [done|].
  rewrite (SFltb_false_SFleb _ _ H1 E1).
  destruct (SFltb g PyFloat.two) eqn:E2; [done|].
  rewrite (SFltb_false_SFleb _ _ H2 E2).
  destruct (SFltb g PyFloat.three) eqn:E3; [done|].
  by rewrite (SFltb_false_SFleb _ _ H3 E3).
Qed.

Module EnhancedDistribution.
Import Enhanced.

Lemma gpa_bucket_total st d s :
  (distribution_total (gpa_bucket st d s) = distribution_total d \/ distribution_total (gpa_bucket st d s) = distribution_total d + 1)
  /\ (PyFloat.leb PyFloat.zero (Student.gpa s) = true ->
      PyFloat.leb (Student.gpa s) PyFloat.four = true ->
      distribution_total (gpa_bucket st d s) = distribution_total d + 1)
  /\ not_graded (gpa_bucket st d s)
     = not_graded d
       + (if decide (PyFloat.eqb (Student.gpa s) PyFloat.zero = true
                     /\ any_grade st s = false) then 1 else 0)
  /\ (0 <= from_0 d -> 0 <= from_0 (gpa_bucket st d s))
  /\ (0 <= from_1 d -> 0 <= from_1 (gpa_bucket st d s))
  /\ (0 <= from_2 d -> 0 <= from_2 (gpa_bucket st d s))
  /\ (0 <= from_3 d -> 0 <= from_3 (gpa_bucket st d s)).
Proof.
  unfold gpa_bucket, distribution_total. cbv zeta.
  destruct (PyFloat.eqb (Student.gpa s) PyFloat.zero) eqn:Ez,
           (any_grade st s) eqn:Ea; cbn [andb negb];
    case_decide as Hd; try (destruct Hd; done); try (exfalso; apply Hd; done).
  2:{ cbn. split_and!; lia. }
  all: split_and!;
    [ repeat case_match; cbn; lia
    | intros H0 H4; pose proof (gpa_buckets_cover _ H0 H4) as Hc;
      repeat case_match; cbn; try lia;
      repeat match goal with H : _ && _ = false |- _ => rewrite H in Hc end; done
    | repeat case_match; cbn; lia
    | repeat case_match; cbn; lia
    | repeat case_match; cbn; lia
    | repeat case_match; cbn; lia
    | repeat case_match; cbn; lia ].
Qed.

End EnhancedDistribution.

Module EnhancedDistributionFold.
Import Enhanced EnhancedDistribution.

Lemma gpa_distribution_fold st l d :
  let d' := foldl (gpa_bucket st) d l in
  distribution_total d <= distribution_total d'
    <= distribution_total d + Z.of_nat (length l)
  /\ (Forall (fun s => PyFloat.leb PyFloat.zero (Student.gpa s) = true
                       /\ PyFloat.leb (Student.gpa s) PyFloat.four = true) l ->
      distribution_total d' = distribution_total d + Z.of_nat (length l))
  /\ not_graded d'
     = not_graded d
       + Z.of_nat (length (filter (fun s => PyFloat.eqb (Student.gpa s) PyFloat.zero = true
                                            /\ any_grade st s = false) l))
  /\ (0 <= from_0 d -> 0 <= from_0 d')
  /\ (0 <= from_1 d -> 0 <= from_1 d')
  /\ (0 <= from_2 d -> 0 <= from_2 d')
  /\ (0 <= from_3 d -> 0 <= from_3 d').
Proof.
  revert d. induction l as [|s l IH]; intros d; cbn [foldl].
  - simpl. split_and!; try done; lia.
  - destruct (IH (gpa_bucket st d s)) as (Ht & Hall & Hng & H0 & H1 & H2 & H3).
    destruct (gpa_bucket_total st d s) as (Hs & Hsall & Hsng & Hs0 & Hs1 & Hs2 & Hs3).
    cbv zeta in *. split_and!.
    + lia.
    + simpl length. lia.
    + intros [[Ha Hb] Hl]%Forall_cons. rewrite (Hall Hl), (Hsall Ha Hb).
      simpl length. lia.
    + rewrite Hng, Hsng, filter_cons. case_decide; simpl length; lia.
    + auto.
    + auto.
    + auto.
    + auto.
Qed.

End EnhancedDistributionFold.

(** ** Strings *)

Module PyStrFacts.
Import PyStr.

Lemma digit_not_upper c : is_digit c = true -> is_upper c = false.
Proof. by destruct c as [[] [] [] [] [] [] [] []]. Qed.

Lemma upper_not_lower c : is_upper c = true -> is_lower c = false.
Proof. by destruct c as [[] [] [] [] [] [] [] []]. Qed.

Lemma digit_not_lower c : is_digit c = true -> is_lower c = false.
Proof. by destruct c as [[] [] [] [] [] [] [] []]. Qed.

Lemma lower_upper_char c : lower_char (upper_char c) = lower_char c.
Proof. by destruct c as [[] [] [] [] [] [] [] []]. Qed.

Lemma lower_lower_char c : lower_char (lower_char c) = lower_char c.
Proof. by destruct c as [[] [] [] [] [] [] [] []]. Qed.

Lemma lower_upper s : lower (upper s) = lower s.
Proof. induction s as [|c s IH]; simpl; [done|]. by rewrite lower_upper_char, IH. Qed.

Lemma lower_lower s : lower (lower s) = lower s.
Proof. induction s as [|c s IH]; simpl; [done|]. by rewrite lower_lower_char, IH. Qed.

Lemma truthy_upper s : truthy (upper s) = truthy s.
Proof. by destruct s. Qed.

Lemma truthy_lower s : truthy (lower s) = truthy s.
Proof. by destruct s. Qed.

Lemma upper_id s : all_chars (fun c => negb (is_lower c)) s = true -> upper s = s.
Proof.
  induction s as [|c s IH]; simpl; [done|].
  intros [Hc Hs]%andb_true_iff. unfold upper_char.
  destruct (is_lower c); [done|]. by rewrite IH.
Qed.

Lemma all_chars_app p a b :
  all_chars p (a +:+ b) = all_chars p a && all_chars p b.
Proof.
  induction a as [|c a IH]; simpl; [done|]. by rewrite IH, andb_assoc.
Qed.

Lemma all_chars_impl (p q : ascii -> bool) s :
  (forall c, p c = true -> q c = true) -> all_chars p s = true -> all_chars q s = true.
Proof.
  intros H. induction s as [|c s IH]; simpl; [done|].
  intros [Hc Hs]%andb_true_iff. by rewrite (H c Hc), IH.
Qed.

Lemma span_spec p s :
  s = (span p s).1 +:+ (span p s).2
  /\ all_chars p (span p s).1 = true
  /\ match (span p s).2 with
     | EmptyString => True
     | String c _ => p c = false
     end.
Proof.
  induction s as [|c s IH]; simpl; [done|].
  destruct (p c) eqn:Ec.
  - destruct (span p s) as [a b]. simpl in *.
    destruct IH as (-> & Ha & Hb). by rewrite Ec, Ha.
  - simpl. by rewrite Ec.
Qed.

Lemma span_app_stop p a b :
  all_chars p a = true ->
  match b with EmptyString => True | String c _ => p c = false end ->
  span p (a +:+ b) = (a, b).
Proof.
  intros Ha Hb. induction a as [|c a IH]; simpl.
  - destruct b as [|c b]; simpl; [done|]. by rewrite Hb.
  - simpl in Ha. apply andb_true_iff in Ha as [Hc Ha]. rewrite Hc, IH by done. done.
Qed.

Lemma length_3 (s : string) :
  String.length s = 3%nat ->
  exists d1 d2 d3, s = String d1 (String d2 (String d3 EmptyString)).
Proof. destruct s as [|d1 [|d2 [|d3 [|]]]]; try done. eauto. Qed.

Lemma match_course_code_pattern v :
  match_course_code v = true <-> course_code_pattern v.
Proof.
  unfold match_course_code, course_code_pattern.
  destruct (span_spec is_upper v) as (Hv & Hup & Hstop).
  destruct (span is_upper v) as [letters rest] eqn:Es.
  cbn [fst snd] in Hv, Hup, Hstop. split.
  - intros [[H2%Nat.leb_le H4%Nat.leb_le]%andb_true_iff H3]%andb_true_iff.
    destruct rest as [|d1 [|d2 [|d3 tail]]]; try done. simpl in H3.
    apply andb_true_iff in H3 as [[[D1 D2]%andb_true_iff D3]%andb_true_iff Ht].
    exists letters, (String d1 (String d2 (String d3 EmptyString))), tail.
    split_and!; try done.
    + simpl. by rewrite D1, D2, D3.
    + destruct tail as [|c [|]]; [by left | | done]. right.
      unfold at_dollar in Ht. by apply bool_decide_eq_true in Ht as ->.
  - intros (letters' & digits & tail & Hv' & [H2 H4] & Hup' & (d1 & d2 & d3 & ->)%length_3
            & Hd & Ht).
    simpl in Hd. apply andb_true_iff in Hd as [D1 [D2 [D3 _]%andb_true_iff]%andb_true_iff].
    assert (span is_upper v
            = (letters', String d1 (String d2 (String d3 EmptyString)) +:+ tail)) as Es'.
    { rewrite Hv'. apply span_app_stop; [done|]. simpl. by apply digit_not_upper. }
    rewrite Es in Es'. simplify_eq.
    rewrite (proj2 (Nat.leb_le _ _) H2), (proj2 (Nat.leb_le _ _) H4).
    change (String d1 (String d2 (String d3 EmptyString)) +:+ tail)
      with (String d1 (String d2 (String d3 tail))).
    cbn. rewrite D1, D2, D3. cbn.
    destruct Ht as [->| ->]; [done|]. cbn. by apply bool_decide_eq_true.
Qed.

Lemma course_code_pattern_upper v : course_code_pattern v -> upper v = v.
Proof.
  intros (letters & digits & tail & -> & _ & Hup & _ & Hd & Ht).
  apply upper_id. rewrite !all_chars_app.
  rewrite (all_chars_impl is_upper _ letters), (all_chars_impl is_digit _ digits); try done.
  - destruct Ht as [->| ->]; done.
  - intros c Hc. by rewrite digit_not_lower.
  - intros c Hc. by rewrite upper_not_lower.
Qed.

End PyStrFacts.

(** ** Dates *)

Lemma date_gtb_spec a b :
  date_gtb a b = true
  <-> year_of b < year_of a
      \/ (year_of a = year_of b
          /\ (month_of b < month_of a
              \/ (month_of a = month_of b /\ day_of b < day_of a))).
Proof.
  unfold date_gtb.
  rewrite !orb_true_iff, !andb_true_iff, !orb_true_iff, !andb_true_iff,
    !Z.ltb_lt, !Z.eqb_eq. done.
Qed.

Lemma date_gtb_irrefl a : date_gtb a a = false.
Proof.
  destruct (date_gtb a a) eqn:E; [|done]. apply date_gtb_spec in E. lia.
Qed.

Lemma date_not_gtb_trans a b c :
  date_gtb a b = false -> date_gtb b c = false -> date_gtb a c = false.
Proof.
  intros Hab Hbc. destruct (date_gtb a c) eqn:E; [|done].
  apply date_gtb_spec in E.
  assert (~ date_gtb a b = true) as Hab' by (by rewrite Hab).
  assert (~ date_gtb b c = true) as Hbc' by (by rewrite Hbc).
  rewrite date_gtb_spec in Hab', Hbc'. lia.
Qed.

(** ** Grouping validation errors by field *)

Lemma od_set_keys {K V} `{EqDecision K} (k : K) (v : V) (d : odict K V) :
  od_keys (od_set k v d)
  = if decide (k ∈ od_keys d) then od_keys d else od_keys d ++ [k].
Proof.
  unfold od_keys. induction d as [|[k1 v1] d IH]; [done|].
  cbn [od_set]. rewrite fmap_cons. cbn [fst].
  destruct (decide (k = k1)) as [->|Hne].
  - rewrite decide_True by left. by rewrite fmap_cons.
  - rewrite fmap_cons, IH. cbn [fst]. destruct (decide (k ∈ d.*1)).
    + rewrite decide_True by (by right). done.
    + rewrite decide_False; [done|]. by intros [?|?]%elem_of_cons.
Qed.

Lemma od_set_wf {K V} `{EqDecision K} (k : K) (v : V) (d : odict K V) :
  od_wf d -> od_wf (od_set k v d).
Proof.
  unfold od_wf. rewrite od_set_keys. case_decide; [done|].
  intros Hd. apply NoDup_app. split_and!; [done | | apply NoDup_singleton].
  intros x Hx ->%list_elem_of_singleton. done.
Qed.

Module EnhancedValidation.
Import Enhanced.

(** The messages of the errors that carry the field name [name], in the
    order of the errors. *)
Lemma field_errors_fold name errors d :
  od_get name (foldl field_errors_step d errors)
  = match msg <$> filter (fun e => field_name_of e = name) errors with
    | [] => od_get name d
    | msgs => Some (default [] (od_get name d) ++ msgs)
    end.
Proof.
  revert d. induction errors as [|e errors IH]; intros d; [done|].
  cbn [foldl]. rewrite IH, filter_cons. unfold field_errors_step.
  destruct (decide (field_name_of e = name)) as [<-|Hne].
  - rewrite fmap_cons.
    destruct (od_get (field_name_of e) d) as [msgs|] eqn:Eg;
      rewrite od_get_set_eq; simpl;
      destruct (msg <$> filter _ errors); simpl; by rewrite <- ?app_assoc.
  - destruct (od_get (field_name_of e) d) as [msgs|] eqn:Eg;
      by rewrite od_get_set_ne.
Qed.

Lemma field_errors_wf errors d :
  od_wf d -> od_wf (foldl field_errors_step d errors).
Proof.
  revert d. induction errors as [|e errors IH]; intros d Hd; [done|].
  cbn [foldl]. apply IH. unfold field_errors_step.
  destruct (od_get (field_name_of e) d); by apply od_set_wf.
Qed.

End EnhancedValidation.

(** ** The gpa of a student with at most one graded course *)

Lemma one_course_average (points : PyFloat.float) (credits : Z) :
  points ∈ [PyFloat.of_int 4; PyFloat.of_int 3; PyFloat.of_int 2; PyFloat.of_int 1;
            PyFloat.zero] ->
  1 <= credits <= 6 ->
  PyFloat.round2
    (PyFloat.div (PyFloat.add PyFloat.zero (PyFloat.mul points (PyFloat.of_int credits)))
                 (PyFloat.of_int (0 + credits)))
  = points.
Proof.
  intros Hp Hc.
  assert (credits = 1 \/ credits = 2 \/ credits = 3 \/ credits = 4 \/ credits = 5
          \/ credits = 6) as Hcases by lia.
  repeat (apply elem_of_cons in Hp as [->|Hp]);
    [| | | | | by apply elem_of_nil in Hp];
    destruct_or!; subst; vm_compute; reflexivity.
Qed.

Module EnhancedGpa.
Import Enhanced.

Lemma GRADE_TO_POINTS_values g points :
  GRADE_TO_POINTS g = Some points ->
  g ∈ ["A"; "B"; "C"; "D"; "F"]
  /\ points ∈ [PyFloat.of_int 4; PyFloat.of_int 3; PyFloat.of_int 2; PyFloat.of_int 1;
               PyFloat.zero].
Proof.
  unfold GRADE_TO_POINTS. repeat case_decide; intros ?; simplify_eq; set_solver.
Qed.

Lemma computed_gpa_none st s :
  student_enrollments s (enrollments st) = [] -> computed_gpa st s = PyFloat.zero.
Proof. unfold computed_gpa. by intros ->. Qed.

Lemma computed_gpa_single st s e course points :
  student_enrollments s (enrollments st) = [e] ->
  courses st !! Enrollment.course_id e = Some course ->
  1 <= Course.credits course <= 6 ->
  Enrollment.grade e ≫= GRADE_TO_POINTS = Some points ->
  computed_gpa st s = points.
Proof.
  intros He Hc Hcr Hg. unfold computed_gpa. rewrite He. cbn [fold_left].
  unfold gpa_step. rewrite Hc, Hg. cbn [fst snd].
  rewrite (proj2 (Z.ltb_lt 0 _)) by lia.
  apply one_course_average; [|done].
  destruct (Enrollment.grade e) as [g|]; [|done]. simpl in Hg.
  by apply GRADE_TO_POINTS_values in Hg as [_ ?].
Qed.

End EnhancedGpa.

Module SimpleGpa.
Import Simple.

Lemma simple_GRADE_TO_POINTS_values g points :
  GRADE_TO_POINTS g = Some points ->
  g ∈ ["A"; "B"; "C"; "D"; "F"]
  /\ points ∈ [PyFloat.of_int 4; PyFloat.of_int 3; PyFloat.of_int 2; PyFloat.of_int 1;
               PyFloat.zero].
Proof.
  unfold GRADE_TO_POINTS. repeat case_decide; intros ?; simplify_eq; set_solver.
Qed.

Lemma simple_computed_gpa_none st s :
  student_enrollments s (enrollments st) = [] -> computed_gpa st s = PyFloat.zero.
Proof. unfold computed_gpa. by intros ->. Qed.

Lemma simple_computed_gpa_single st s e course points :
  student_enrollments s (enrollments st) = [e] ->
  courses st !! Enrollment.course_id e = Some course ->
  1 <= Course.credits course <= 6 ->
  Enrollment.grade e ≫= GRADE_TO_POINTS = Some points ->
  computed_gpa st s = points.
Proof.
  intros He Hc Hcr Hg. unfold computed_gpa. rewrite He. cbn [fold_left].
  unfold gpa_step. rewrite Hc, Hg. cbn [fst snd].
  rewrite (proj2 (Z.ltb_lt 0 _)) by lia.
  apply one_course_average; [|done].
  destruct (Enrollment.grade e) as [g|]; [|done]. simpl in Hg.
  by apply simple_GRADE_TO_POINTS_values in Hg as [_ ?].
Qed.

End SimpleGpa.

(** ** The list endpoints: filters and pages *)

Lemma elem_of_pages {A} (size : Z) (xs : list A) (x : A) :
  1 <= size ->
  x ∈ xs <-> exists page, 1 <= page /\ x ∈ Enhanced.page_of page size xs.
Proof.
  intros Hs. split.
  - intros [i Hi]%list_elem_of_lookup.
    exists (Z.of_nat i `div` size + 1). split; [pose proof (Z.div_pos (Z.of_nat i) size); lia|].
    apply list_elem_of_lookup. exists (Z.to_nat (Z.of_nat i `mod` size)).
    pose proof (Z.mod_pos_bound (Z.of_nat i) size ltac:(lia)) as Hm.
    pose proof (Z.div_pos (Z.of_nat i) size ltac:(lia) ltac:(lia)) as Hd.
    rewrite page_of_lookup by lia. rewrite decide_True by lia.
    rewrite <- Hi. f_equal.
    pose proof (Z.div_mod (Z.of_nat i) size ltac:(lia)) as Hdm.
    replace (Z.of_nat i `div` size + 1 - 1) with (Z.of_nat i `div` size) by lia.
    rewrite <- Z2Nat.inj_add by nia. 
    replace (Z.of_nat i `div` size * size + Z.of_nat i `mod` size) with (Z.of_nat i) by lia.
    apply Nat2Z.id.
  - intros (page & Hp & Hin). rewrite page_of_take_drop in Hin by lia.
    eapply sublist_subseteq; [|exact Hin].
    etrans; [apply sublist_take | apply sublist_drop].
Qed.

Module EnhancedLists.
Import Enhanced PyStrFacts.

Lemma filter_lower_elem {A} (field : A -> string) flt (xs : list A) x :
  x ∈ filter_lower field flt xs
  <-> x ∈ xs
      /\ match flt with
         | Some v => v = "" \/ PyStr.lower (field x) = PyStr.lower v
         | None => True
         end.
Proof.
  unfold filter_lower. destruct flt as [v|]; [|tauto].
  destruct v as [|c v]; simpl; [tauto|].
  rewrite list_elem_of_filter. split; [intros [? ?]; auto | intros [? [?|?]]; done].
Qed.

Lemma filter_lower_case {A} (field : A -> string) v (xs : list A) :
  filter_lower field (Some (PyStr.upper v)) xs = filter_lower field (Some v) xs
  /\ filter_lower field (Some (PyStr.lower v)) xs = filter_lower field (Some v) xs.
Proof.
  unfold filter_lower. rewrite truthy_upper, truthy_lower, lower_upper, lower_lower. done.
Qed.

Lemma filter_int_elem {A} (field : A -> Z) flt (xs : list A) x :
  x ∈ filter_int field flt xs
  <-> x ∈ xs
      /\ match flt with
         | Some v => v = 0 \/ field x = v
         | None => True
         end.
Proof.
  unfold filter_int. destruct flt as [v|]; [|tauto].
  case_decide; [tauto|].
  rewrite list_elem_of_filter. split; [intros [? ?]; auto | intros [? [?|?]]; done].
Qed.

Lemma prof_depts_fold (l : list Professor.t) (m0 : gmap Z string) k :
  NoDup (Professor.id <$> l) ->
  foldl (fun m p => <[Professor.id p := Professor.department p]> m) m0 l !! k
  = match list_find (fun p => Professor.id p = k) l with
    | Some (_, p) => Some (Professor.department p)
    | None => m0 !! k
    end.
Proof.
  revert m0. induction l as [|p l IH]; intros m0; [done|].
  rewrite fmap_cons. intros [Hp Hl]%NoDup_cons. cbn [foldl list_find].
  rewrite IH by done. case_decide as Hk.
  - subst k. simpl. destruct (list_find _ l) as [[i q]|] eqn:E; simpl.
    + apply list_find_Some in E as (Hq & Heq & _). exfalso. apply Hp.
      rewrite <- Heq. apply list_elem_of_fmap. exists q. split; [done|].
      by eapply list_elem_of_lookup_2.
    + by rewrite lookup_insert_eq.
  - destruct (list_find _ l) as [[i q]|]; simpl; [done|]. by rewrite lookup_insert_ne.
Qed.

Lemma prof_depts_lookup st k :
  (forall k p, professors st !! k = Some p -> Professor.id p = k) ->
  prof_depts st !! k = Professor.department <$> professors st !! k.
Proof.
  intros Hid. unfold prof_depts.
  assert (Hids : Professor.id <$> dict_values (professors st)
                 = (dict_items (professors st)).*1).
  { unfold dict_values. rewrite <- list_fmap_compose. apply list_fmap_ext.
    intros i [k0 p] Hl. simpl. apply Hid. apply elem_of_dict_items.
    by eapply list_elem_of_lookup_2. }
  rewrite prof_depts_fold by (rewrite Hids; apply dict_items_NoDup).
  destruct (list_find _ _) as [[i p]|] eqn:E.
  - apply list_find_Some in E as (Hp & Heq & _).
    apply list_elem_of_lookup_2, elem_of_dict_values in Hp as [k0 Hk0].
    rewrite (Hid _ _ Hk0) in Heq. subst k0. by rewrite Hk0.
  - rewrite lookup_empty. destruct (professors st !! k) as [p|] eqn:Ep; [|done].
    exfalso. eapply list_find_None in E. rewrite Forall_forall in E.
    apply (E p); [|by apply Hid]. apply elem_of_dict_values. eauto.
Qed.

End EnhancedLists.

(* ===================================================================== *)
(** * Further properties of the two services *)
(* ===================================================================== *)

(** ** Invariants of the reachable stores *)

(** X1. In every store either service can reach, each professor, student
    and course is stored under its own [id], and every id in use is below
    the counter that issues the ids of its kind.  So the id the next create
    will take is free: a create never overwrites a record, and the key the
    next enrollment of the enhanced service will get is not in use. *)
Theorem X1_ids_are_issued_once (est : Enhanced.db) (sst : Simple.db) :
  Enhanced.reachable est -> Simple.reachable sst ->
  (Enhanced.ids_issued est
   /\ Enhanced.professors est !! Enhanced.next_professor_id est = None
   /\ Enhanced.students est !! Enhanced.next_student_id est = None
   /\ Enhanced.courses est !! Enhanced.next_course_id est = None
   /\ od_get (Enhanced.enrollment_key (Enhanced.next_enrollment_id est))
             (Enhanced.enrollments est) = None)
  /\ (Simple.ids_issued sst
      /\ Simple.professors sst !! Simple.next_professor_id sst = None
      /\ Simple.students sst !! Simple.next_student_id sst = None
      /\ Simple.courses sst !! Simple.next_course_id sst = None).
Proof.
  intros He Hs.
  destruct (EnhancedEmails.reachable_more _ He) as ([Hp Hst Hc] & _ & _).
  destruct (SimpleGrades.simple_reachable_more _ Hs) as ([Hp' Hst' Hc'] & _ & _).
  pose proof (EnhancedFacts.reachable_wf _ He) as [Hco _].
  split; split_and!; try done.
  - destruct (Enhanced.professors est !! _) as [p|] eqn:E; [|done].
    destruct (Hp _ _ E). lia.
  - destruct (Enhanced.students est !! _) as [p|] eqn:E; [|done].
    destruct (Hst _ _ E). lia.
  - destruct (Enhanced.courses est !! _) as [p|] eqn:E; [|done].
    destruct (Hc _ _ E). lia.
  - by apply EnhancedFacts.issued_key_fresh.
  - destruct (Simple.professors sst !! _) as [p|] eqn:E; [|done].
    destruct (Hp' _ _ E). lia.
  - destruct (Simple.students sst !! _) as [p|] eqn:E; [|done].
    destruct (Hst' _ _ E). lia.
  - destruct (Simple.courses sst !! _) as [p|] eqn:E; [|done].
    destruct (Hc' _ _ E). lia.
Qed.

(** X1 on the stores where student 1 took the only seat of a new course. *)
Lemma X1_ids_are_issued_once_witness :
  Enhanced.reachable Scenario.seminar_full
  /\ Simple.reachable Scenario.simple_seminar_full
  /\ Enhanced.courses Scenario.seminar_full
       !! Enhanced.next_course_id Scenario.seminar_full = None
  /\ Simple.courses Scenario.simple_seminar_full
       !! Simple.next_course_id Scenario.simple_seminar_full = None.
Proof.
  assert (Enhanced.reachable Scenario.seminar_full) as He
    by (repeat apply Enhanced.reachable_serve; apply Enhanced.reachable_init).
  assert (Simple.reachable Scenario.simple_seminar_full) as Hs
    by (repeat apply Simple.reachable_serve; apply Simple.reachable_init).
  split; [exact He|]. split; [exact Hs|].
  destruct (X1_ids_are_issued_once _ _ He Hs) as [(_ & _ & _ & Hc & _) (_ & _ & _ & Hc')].
  split; [exact Hc | exact Hc'].
Defined.

(** X2. In every store either service can reach, the [professor_id] of
    every course is the id of a professor in the store: [create_course] and
    [update_course] check it, and [delete_professor] refuses while a course
    names the professor.  So [get_professor] on the professor of a course
    returns a professor. *)
Theorem X2_course_professor_is_live (est : Enhanced.db) (sst : Simple.db) :
  Enhanced.reachable est -> Simple.reachable sst ->
  (forall k c, Enhanced.courses est !! k = Some c ->
     exists p, Enhanced.professors est !! Enhanced.Course.professor_id c = Some p
               /\ Enhanced.get_professor (Enhanced.Course.professor_id c) est
                  = (inr p, est))
  /\ (forall k c, Simple.courses sst !! k = Some c ->
        exists p, Simple.professors sst !! Simple.Course.professor_id c = Some p
                  /\ Simple.get_professor (Simple.Course.professor_id c) sst
                     = (inr p, sst)).
Proof.
  intros He Hs.
  destruct (EnhancedEmails.reachable_more _ He) as (_ & Hl & _).
  destruct (SimpleGrades.simple_reachable_more _ Hs) as (_ & Hl' & _).
  split.
  - intros k c Hk. destruct (Hl k c Hk) as [p Hp]. exists p. split; [done|].
    unfold Enhanced.get_professor, bind, get, ret. by rewrite Hp.
  - intros k c Hk. destruct (Hl' k c Hk) as [p Hp]. exists p. split; [done|].
    unfold Simple.get_professor, bind, get, ret. by rewrite Hp.
Qed.

Lemma X2_course_professor_is_live_witness :
  Enhanced.reachable Scenario.seminar_full
  /\ Simple.reachable Scenario.simple_seminar_full
  /\ (exists p, Enhanced.get_professor 1 Scenario.seminar_full
                = (inr p, Scenario.seminar_full))
  /\ (exists p, Simple.get_professor 1 Scenario.simple_seminar_full
                = (inr p, Scenario.simple_seminar_full)).
Proof.
  assert (Enhanced.reachable Scenario.seminar_full) as He
    by (repeat apply Enhanced.reachable_serve; apply Enhanced.reachable_init).
  assert (Simple.reachable Scenario.simple_seminar_full) as Hs
    by (repeat apply Simple.reachable_serve; apply Simple.reachable_init).
  split; [exact He|]. split; [exact Hs|].
  destruct (X2_course_professor_is_live _ _ He Hs) as [H1 H2].
  split.
  - destruct (H1 2 (Enhanced.Course.mk 2 "Seminar" "CS900" 3 1 1 1)) as (p & _ & Hp);
      [by vm_compute|]. exists p. exact Hp.
  - destruct (H2 2 (Simple.Course.mk 2 "Seminar" "CS900" 3 1 1 1)) as (p & _ & Hp);
      [by vm_compute|]. exists p. exact Hp.
Defined.

(** X3. In every store the enhanced service can reach, no two professors
    hold the same non-empty email, and no two students do:
    [check_unique_email] runs before every create, and before every update
    that carries a non-empty email. *)
Theorem X3_emails_distinct_within_a_collection (est : Enhanced.db) :
  Enhanced.reachable est ->
  (forall k1 k2 p1 p2,
     Enhanced.professors est !! k1 = Some p1 -> Enhanced.professors est !! k2 = Some p2 ->
     Enhanced.Professor.email p1 = Enhanced.Professor.email p2 ->
     Enhanced.Professor.email p1 <> "" -> k1 = k2)
  /\ (forall k1 k2 s1 s2,
        Enhanced.students est !! k1 = Some s1 -> Enhanced.students est !! k2 = Some s2 ->
        Enhanced.Student.email s1 = Enhanced.Student.email s2 ->
        Enhanced.Student.email s1 <> "" -> k1 = k2).
Proof.
  intros He. by destruct (EnhancedEmails.reachable_more _ He) as (_ & _ & Hd).
Qed.

Lemma X3_emails_distinct_within_a_collection_witness :
  Enhanced.reachable Scenario.second_student
  /\ (forall k1 k2 s1 s2,
        Enhanced.students Scenario.second_student !! k1 = Some s1 ->
        Enhanced.students Scenario.second_student !! k2 = Some s2 ->
        Enhanced.Student.email s1 = Enhanced.Student.email s2 ->
        Enhanced.Student.email s1 <> "" -> k1 = k2).
Proof.
  assert (Enhanced.reachable Scenario.second_student) as He
    by (repeat apply Enhanced.reachable_serve; apply Enhanced.reachable_init).
  split; [exact He|].
  exact (proj2 (X3_emails_distinct_within_a_collection _ He)).
Defined.

(** X4. In every store the simple service can reach, every grade that is
    set is one of A, B, C, D and F: [update_enrollment_grade] answers 400 to
    anything else and stores the grade in upper case. *)
Theorem X4_simple_grades_are_valid (sst : Simple.db) :
  Simple.reachable sst ->
  forall k e g, (k, e) ∈ Simple.enrollments sst -> Simple.Enrollment.grade e = Some g ->
    g ∈ ["A"; "B"; "C"; "D"; "F"].
Proof.
  intros Hs k e g Hin Hg.
  destruct (SimpleGrades.simple_reachable_more _ Hs) as (_ & _ & Hv).
  destruct (Hv k e g Hin Hg) as [x Hx].
  by apply SimpleGpa.simple_GRADE_TO_POINTS_values in Hx as [? _].
Qed.

Lemma X4_simple_grades_are_valid_witness :
  Simple.reachable Scenario.simple_graded
  /\ "A" ∈ ["A"; "B"; "C"; "D"; "F"].
Proof.
  assert (Simple.reachable Scenario.simple_graded) as Hs
    by (repeat apply Simple.reachable_serve; apply Simple.reachable_init).
  split; [exact Hs|].
  apply (X4_simple_grades_are_valid _ Hs (1, 1)
           (Simple.Enrollment.mk 1 1 Scenario.day (Some "A")) "A").
  - vm_compute. left.
  - reflexivity.
Defined.

(** ** Requests that raise *)





(** X7. In every store the simple service can reach, whatever a writing
    request raises is an [HTTPException] with status 404 or 400, never a
    [KeyError]. *)
Theorem X7_simple_errors_are_http (sst : Simple.db) today r e :
  Simple.reachable sst -> Simple.raised today r sst = Some e ->
  exists status detail,
    e = Simple.HTTPException status detail /\ (status = 404 \/ status = 400).
Proof.
  intros Hs%SimpleFacts.simple_reachable_wf Hr.
  by destruct (SimpleErrors.simple_raise_outcome _ _ _ _ Hs Hr) as [_ ?].
Qed.

Lemma X7_simple_errors_are_http_witness :
  Simple.reachable (Simple.init_db Scenario.day)
  /\ Simple.raised Scenario.day (Simple.Grade 1 1 "E") (Simple.init_db Scenario.day)
     = Some (Simple.HTTPException 400 "Invalid grade. Must be one of A, B, C, D, F.")
  /\ exists status detail,
       Simple.HTTPException 400 "Invalid grade. Must be one of A, B, C, D, F."
       = Simple.HTTPException status detail /\ (status = 404 \/ status = 400).
Proof.
  pose proof (Simple.reachable_init Scenario.day) as Hs.
  assert (Simple.raised Scenario.day (Simple.Grade 1 1 "E") (Simple.init_db Scenario.day)
          = Some (Simple.HTTPException 400 "Invalid grade. Must be one of A, B, C, D, F."))
    as Hr by (by vm_compute).
  split; [exact Hs|]. split; [exact Hr|].
  exact (X7_simple_errors_are_http _ _ _ _ Hs Hr).
Defined.

(** ** Cascading deletes *)

(** X8. In every store either service can reach, [delete_student] of a
    live student returns, and afterwards the student is gone, the
    enrollments are those of the other students, in their order, each
    course the student was enrolled in has one enrolled student less and
    every other course is as it was, and the professors and the counters
    are untouched.  For an id that is not in the store the service raises
    its not-found error. *)
Theorem X8_delete_student_cascade (est : Enhanced.db) (sst : Simple.db) (sid : Z) :
  Enhanced.reachable est -> Simple.reachable sst ->
  (is_Some (Enhanced.students est !! sid) ->
   exists st',
     Enhanced.delete_student sid est = (inr tt, st')
     /\ Enhanced.students st' = delete sid (Enhanced.students est)
     /\ Enhanced.professors st' = Enhanced.professors est
     /\ Enhanced.enrollments st'
        = filter (fun kv => Enhanced.Enrollment.student_id kv.2 <> sid)
                 (Enhanced.enrollments est)
     /\ (forall k, Enhanced.courses st' !! k
                   = (fun c => if decide (Enhanced.enrolled est sid k)
                               then Enhanced.Course.add_enrolled (-1) c else c)
                       <$> Enhanced.courses est !! k)
     /\ Enhanced.next_professor_id st' = Enhanced.next_professor_id est
     /\ Enhanced.next_student_id st' = Enhanced.next_student_id est
     /\ Enhanced.next_course_id st' = Enhanced.next_course_id est
     /\ Enhanced.next_enrollment_id st' = Enhanced.next_enrollment_id est)
  /\ (Enhanced.students est !! sid = None ->
      Enhanced.delete_student sid est
      = (inl (Enhanced.NotFound "Student" (pretty sid)), est))
  /\ (is_Some (Simple.students sst !! sid) ->
      exists st',
        Simple.delete_student sid sst = (inr tt, st')
        /\ Simple.students st' = delete sid (Simple.students sst)
        /\ Simple.professors st' = Simple.professors sst
        /\ Simple.enrollments st'
           = filter (fun kv => Simple.Enrollment.student_id kv.2 <> sid)
                    (Simple.enrollments sst)
        /\ (forall k, Simple.courses st' !! k
                      = (fun c => if decide (Simple.enrolled sst sid k)
                                  then Simple.Course.add_enrolled (-1) c else c)
                          <$> Simple.courses sst !! k)
        /\ Simple.next_professor_id st' = Simple.next_professor_id sst
        /\ Simple.next_student_id st' = Simple.next_student_id sst
        /\ Simple.next_course_id st' = Simple.next_course_id sst)
  /\ (Simple.students sst !! sid = None ->
      Simple.delete_student sid sst
      = (inl (Simple.HTTPException 404 "Student not found"), sst)).
Proof.
  intros He%EnhancedFacts.reachable_wf Hs%SimpleFacts.simple_reachable_wf.
  split_and!.
  - intros Hl. by apply EnhancedCascade.delete_student_exact.
  - intros Hn. unfold Enhanced.delete_student, bind, get, raise.
    rewrite decide_False; [done|]. rewrite Hn. by intros [? ?].
  - intros Hl. by apply SimpleCascade.simple_delete_student_exact.
  - intros Hn. unfold Simple.delete_student, bind, get, raise.
    rewrite decide_False; [done|]. rewrite Hn. by intros [? ?].
Qed.

(** X8 where student 1 holds the only seat of course 2: after the
    delete no enrollment is left in either service. *)
Lemma X8_delete_student_cascade_witness :
  Enhanced.reachable Scenario.seminar_full
  /\ Simple.reachable Scenario.simple_seminar_full
  /\ (exists st', Enhanced.delete_student 1 Scenario.seminar_full = (inr tt, st')
                  /\ Enhanced.enrollments st' = [])
  /\ (exists st', Simple.delete_student 1 Scenario.simple_seminar_full = (inr tt, st')
                  /\ Simple.enrollments st' = []).
Proof.
  assert (Enhanced.reachable Scenario.seminar_full) as He
    by (repeat apply Enhanced.reachable_serve; apply Enhanced.reachable_init).
  assert (Simple.reachable Scenario.simple_seminar_full) as Hs
    by (repeat apply Simple.reachable_serve; apply Simple.reachable_init).
  split; [exact He|]. split; [exact Hs|].
  destruct (X8_delete_student_cascade _ _ 1 He Hs) as (H1 & _ & H2 & _).
  split.
  - destruct H1 as (st' & Hrun & _ & _ & He' & _); [vm_compute; eexists; reflexivity|].
    exists st'. split; [exact Hrun|]. rewrite He'. by vm_compute.
  - destruct H2 as (st' & Hrun & _ & _ & He' & _); [vm_compute; eexists; reflexivity|].
    exists st'. split; [exact Hrun|]. rewrite He'. by vm_compute.
Defined.

(** X9. In every store either service can reach, [delete_course] of a
    live course returns, and the store afterwards is the store before
    without the course and without the enrollments of the course, in their
    order: no student record, no other course, no professor and no counter
    changes.  For an id that is not in the store the service raises its
    not-found error. *)
Theorem X9_delete_course_cascade (est : Enhanced.db) (sst : Simple.db) (cid : Z) :
  Enhanced.reachable est -> Simple.reachable sst ->
  (is_Some (Enhanced.courses est !! cid) ->
   Enhanced.delete_course cid est
   = (inr tt,
      Enhanced.set_courses (delete cid)
        (Enhanced.set_enrollments
           (filter (fun kv => Enhanced.Enrollment.course_id kv.2 <> cid)) est)))
  /\ (Enhanced.courses est !! cid = None ->
      Enhanced.delete_course cid est
      = (inl (Enhanced.NotFound "Course" (pretty cid)), est))
  /\ (is_Some (Simple.courses sst !! cid) ->
      Simple.delete_course cid sst
      = (inr tt,
         Simple.set_courses (delete cid)
           (Simple.set_enrollments
              (filter (fun kv => Simple.Enrollment.course_id kv.2 <> cid)) sst)))
  /\ (Simple.courses sst !! cid = None ->
      Simple.delete_course cid sst
      = (inl (Simple.HTTPException 404 "Course not found"), sst)).
Proof.
  intros He%EnhancedFacts.reachable_wf Hs%SimpleFacts.simple_reachable_wf.
  destruct He as [[_ _ Hk _ _ _] _], Hs as [[_ Hk' _ _] _].
  split_and!.
  - intros Hl. by apply EnhancedCascadeRuns.delete_course_run.
  - intros Hn. unfold Enhanced.delete_course, bind, get, raise.
    rewrite decide_False; [done|]. rewrite Hn. by intros [? ?].
  - intros Hl. by apply SimpleFrames.simple_delete_course_run.
  - intros Hn. unfold Simple.delete_course, bind, get, raise.
    rewrite decide_False; [done|]. rewrite Hn. by intros [? ?].
Qed.

Lemma X9_delete_course_cascade_witness :
  Enhanced.reachable Scenario.seminar_full
  /\ Simple.reachable Scenario.simple_seminar_full
  /\ Enhanced.enrollments (Enhanced.delete_course 2 Scenario.seminar_full).2
     = [("ENR1", Enhanced.Enrollment.mk "ENR1" 1 1 Scenario.day None)]
  /\ Simple.enrollments (Simple.delete_course 2 Scenario.simple_seminar_full).2 = [].
Proof.
  assert (Enhanced.reachable Scenario.seminar_full) as He
    by (repeat apply Enhanced.reachable_serve; apply Enhanced.reachable_init).
  assert (Simple.reachable Scenario.simple_seminar_full) as Hs
    by (repeat apply Simple.reachable_serve; apply Simple.reachable_init).
  split; [exact He|]. split; [exact Hs|].
  destruct (X9_delete_course_cascade _ _ 2 He Hs) as (H1 & _ & H2 & _).
  split.
  - rewrite H1 by (vm_compute; eexists; reflexivity). by vm_compute.
  - rewrite H2 by (vm_compute; eexists; reflexivity). by vm_compute.
Defined.

(** X10. In any store of either service, [get_professor_teaching_schedule]
    of a live professor lists the courses whose [professor_id] is the
    professor's id, and [delete_professor] removes the professor, and
    nothing else, exactly when that list is empty; otherwise it raises the
    conflict (409 [PROFESSOR_HAS_COURSES], or 400 in the simple service)
    and changes nothing.  For an id that is not in the store both
    endpoints raise the not-found error. *)
Theorem X10_delete_professor_needs_empty_schedule
    (est : Enhanced.db) (sst : Simple.db) (pid : Z) :
  (is_Some (Enhanced.professors est !! pid) ->
   exists cs,
     Enhanced.get_professor_teaching_schedule pid est = (inr cs, est)
     /\ (forall c, c ∈ cs <-> Enhanced.Course.professor_id c = pid
                              /\ exists k, Enhanced.courses est !! k = Some c)
     /\ Enhanced.delete_professor pid est
        = match cs with
          | [] => (inr tt, Enhanced.set_professors (delete pid) est)
          | _ :: _ => (inl (Enhanced.Conflict "PROFESSOR_HAS_COURSES"), est)
          end)
  /\ (Enhanced.professors est !! pid = None ->
      Enhanced.get_professor_teaching_schedule pid est
      = (inl (Enhanced.NotFound "Professor" (pretty pid)), est)
      /\ Enhanced.delete_professor pid est
         = (inl (Enhanced.NotFound "Professor" (pretty pid)), est))
  /\ (is_Some (Simple.professors sst !! pid) ->
      exists cs,
        Simple.get_professor_teaching_schedule pid sst = (inr cs, sst)
        /\ (forall c, c ∈ cs <-> Simple.Course.professor_id c = pid
                                 /\ exists k, Simple.courses sst !! k = Some c)
        /\ exists r, Simple.delete_professor pid sst = r
             /\ match cs with
                | [] => r = (inr tt, Simple.set_professors (delete pid) sst)
                | _ :: _ => exists detail,
                              r = (inl (Simple.HTTPException 400 detail), sst)
                end)
  /\ (Simple.professors sst !! pid = None ->
      Simple.get_professor_teaching_schedule pid sst
      = (inl (Simple.HTTPException 404 "Professor not found"), sst)
      /\ Simple.delete_professor pid sst
         = (inl (Simple.HTTPException 404 "Professor not found"), sst)).
Proof.
  split_and!.
  - intros Hl.
    unfold Enhanced.get_professor_teaching_schedule, Enhanced.delete_professor,
      bind, get, ret, raise, modify.
    rewrite !decide_True by done. eexists. split; [reflexivity|].
    assert (Hmem : forall c,
              c ∈ filter (fun c => Enhanced.Course.professor_id c = pid)
                         (dict_values (Enhanced.courses est))
              <-> Enhanced.Course.professor_id c = pid
                  /\ exists k, Enhanced.courses est !! k = Some c).
    { intros c. by rewrite list_elem_of_filter, elem_of_dict_values. }
    split; [exact Hmem|].
    destruct (filter _ _) as [|c cs] eqn:E.
    + rewrite decide_False; [done|]. intros (k & c & Hk & Hp)%map_Exists_lookup.
      assert (c ∈ @nil Enhanced.Course.t) as Hin by (apply Hmem; eauto).
      by apply elem_of_nil in Hin.
    + rewrite decide_True; [done|]. destruct (proj1 (Hmem c)) as [Hp [k Hk]]; [left|].
      apply map_Exists_lookup. eauto.
  - intros Hn.
    unfold Enhanced.get_professor_teaching_schedule, Enhanced.delete_professor,
      bind, get, ret, raise.
    rewrite !decide_False; [done | |]; rewrite Hn; by intros [? ?].
  - intros Hl.
    unfold Simple.get_professor_teaching_schedule, Simple.delete_professor,
      bind, get, ret, raise, modify.
    rewrite !decide_True by done. eexists. split; [reflexivity|].
    assert (Hmem : forall c,
              c ∈ filter (fun c => Simple.Course.professor_id c = pid)
                         (dict_values (Simple.courses sst))
              <-> Simple.Course.professor_id c = pid
                  /\ exists k, Simple.courses sst !! k = Some c).
    { intros c. by rewrite list_elem_of_filter, elem_of_dict_values. }
    split; [exact Hmem|]. eexists. split; [reflexivity|].
    destruct (filter _ _) as [|c cs] eqn:E.
    + rewrite decide_False; [done|]. intros (k & c & Hk & Hp)%map_Exists_lookup.
      assert (c ∈ @nil Simple.Course.t) as Hin by (apply Hmem; eauto).
      by apply elem_of_nil in Hin.
    + rewrite decide_True; [eauto|]. destruct (proj1 (Hmem c)) as [Hp [k Hk]]; [left|].
      apply map_Exists_lookup. eauto.
  - intros Hn.
    unfold Simple.get_professor_teaching_schedule, Simple.delete_professor,
      bind, get, ret, raise.
    rewrite !decide_False; [done | |]; rewrite Hn; by intros [? ?].
Qed.

(** X10 at the initial stores, where professor 1 teaches course 1. *)
Lemma X10_delete_professor_needs_empty_schedule_witness :
  (exists cs, Enhanced.get_professor_teaching_schedule 1 (Enhanced.init_db Scenario.day)
              = (inr cs, Enhanced.init_db Scenario.day))
  /\ (exists cs, Simple.get_professor_teaching_schedule 1 (Simple.init_db Scenario.day)
                 = (inr cs, Simple.init_db Scenario.day)).
Proof.
  destruct (X10_delete_professor_needs_empty_schedule
              (Enhanced.init_db Scenario.day) (Simple.init_db Scenario.day) 1)
    as (H1 & _ & H2 & _).
  split.
  - destruct H1 as (cs & Hcs & _); [vm_compute; eexists; reflexivity|]. eauto.
  - destruct H2 as (cs & Hcs & _); [vm_compute; eexists; reflexivity|]. eauto.
Defined.

(** ** Round trips *)

(** X11. In every store the enhanced service can reach, a create that
    does not raise stores the new record under the id of the counter,
    which no record held before, and advances the counter by one;
    [get_professor], [get_student], [get_course] on that id then return
    the record that the create returned.  [create_professor] and
    [create_student] raise only the email conflict, [create_course] only
    the not-found of the professor, and then nothing changes. *)
Theorem X11_enhanced_create_then_get (est : Enhanced.db) :
  Enhanced.reachable est ->
  (forall d,
     Enhanced.create_professor d est
     = (inl (Enhanced.Conflict "EMAIL_ALREADY_EXISTS"), est)
     \/ exists p st',
          Enhanced.create_professor d est = (inr p, st')
          /\ Enhanced.Professor.id p = Enhanced.next_professor_id est
          /\ Enhanced.professors est !! Enhanced.Professor.id p = None
          /\ Enhanced.professors st'
             = <[Enhanced.Professor.id p := p]> (Enhanced.professors est)
          /\ Enhanced.next_professor_id st' = Enhanced.next_professor_id est + 1
          /\ Enhanced.get_professor (Enhanced.Professor.id p) st' = (inr p, st'))
  /\ (forall d,
        Enhanced.create_student d est
        = (inl (Enhanced.Conflict "EMAIL_ALREADY_EXISTS"), est)
        \/ exists s st',
             Enhanced.create_student d est = (inr s, st')
             /\ Enhanced.Student.id s = Enhanced.next_student_id est
             /\ Enhanced.students est !! Enhanced.Student.id s = None
             /\ Enhanced.students st'
                = <[Enhanced.Student.id s := s]> (Enhanced.students est)
             /\ Enhanced.next_student_id st' = Enhanced.next_student_id est + 1
             /\ Enhanced.get_student (Enhanced.Student.id s) st' = (inr s, st'))
  /\ (forall d,
        Enhanced.create_course d est
        = (inl (Enhanced.NotFound "Professor" (pretty (Enhanced.cc_professor_id d))), est)
        \/ exists c st',
             Enhanced.create_course d est = (inr c, st')
             /\ Enhanced.Course.id c = Enhanced.next_course_id est
             /\ Enhanced.Course.enrolled_students c = 0
             /\ Enhanced.courses est !! Enhanced.Course.id c = None
             /\ Enhanced.courses st'
                = <[Enhanced.Course.id c := c]> (Enhanced.courses est)
             /\ Enhanced.next_course_id st' = Enhanced.next_course_id est + 1
             /\ Enhanced.get_course (Enhanced.Course.id c) st' = (inr c, st')).
Proof.
  intros He.
  destruct (EnhancedEmails.reachable_more _ He) as ([Hp Hs Hc] & _ & _).
  split_and!.
  - intros d. rewrite enhanced_create_professor_run. case_decide; [by left|]. right.
    eexists _, _. split; [reflexivity|]. simpl. split_and!; try done.
    + destruct (Enhanced.professors est !! _) as [p|] eqn:E; [|done].
      destruct (Hp _ _ E). lia.
    + unfold Enhanced.get_professor, bind, get, ret. simpl.
      by rewrite lookup_insert_eq.
  - intros d. rewrite enhanced_create_student_run. case_decide; [by left|]. right.
    eexists _, _. split; [reflexivity|]. simpl. split_and!; try done.
    + destruct (Enhanced.students est !! _) as [p|] eqn:E; [|done].
      destruct (Hs _ _ E). lia.
    + unfold Enhanced.get_student, bind, get, ret. simpl.
      by rewrite lookup_insert_eq.
  - intros d. unfold Enhanced.create_course, bind, get, ret, raise, modify.
    case_decide; [right|by left].
    eexists _, _. split; [reflexivity|]. simpl. split_and!; try done.
    + destruct (Enhanced.courses est !! _) as [p|] eqn:E; [|done].
      destruct (Hc _ _ E). lia.
    + unfold Enhanced.get_course, bind, get, ret. simpl.
      by rewrite lookup_insert_eq.
Qed.

(** X11 at the initial store: the student created gets id 2. *)
Lemma X11_enhanced_create_then_get_witness :
  Enhanced.reachable (Enhanced.init_db Scenario.day)
  /\ exists s st',
       Enhanced.create_student
         (Enhanced.mkStudentCreate "Ada Lovelace" "ada@example.com" "Mathematics" 1)
         (Enhanced.init_db Scenario.day) = (inr s, st')
       /\ Enhanced.get_student 2 st' = (inr s, st').
Proof.
  pose proof (Enhanced.reachable_init Scenario.day) as He.
  split; [exact He|].
  destruct (X11_enhanced_create_then_get _ He) as (_ & H & _).
  destruct (H (Enhanced.mkStudentCreate "Ada Lovelace" "ada@example.com" "Mathematics" 1))
    as [Hc|(s & st' & Hrun & Hid & _ & _ & _ & Hget)].
  - exfalso. vm_compute in Hc. discriminate Hc.
  - exists s, st'. split; [exact Hrun|]. rewrite <- Hget. rewrite Hid. reflexivity.
Defined.

(** X12. The same in the simple service, whose [create_professor] and
    [create_student] never raise. *)
Theorem X12_simple_create_then_get (sst : Simple.db) (today : date) :
  Simple.reachable sst ->
  (forall d, exists p st',
     Simple.create_professor today d sst = (inr p, st')
     /\ Simple.Professor.id p = Simple.next_professor_id sst
     /\ Simple.Professor.hire_date p = today
     /\ Simple.professors sst !! Simple.Professor.id p = None
     /\ Simple.professors st' = <[Simple.Professor.id p := p]> (Simple.professors sst)
     /\ Simple.next_professor_id st' = Simple.next_professor_id sst + 1
     /\ Simple.get_professor (Simple.Professor.id p) st' = (inr p, st'))
  /\ (forall d, exists s st',
        Simple.create_student d sst = (inr s, st')
        /\ Simple.Student.id s = Simple.next_student_id sst
        /\ Simple.Student.gpa s = PyFloat.zero
        /\ Simple.students sst !! Simple.Student.id s = None
        /\ Simple.students st' = <[Simple.Student.id s := s]> (Simple.students sst)
        /\ Simple.next_student_id st' = Simple.next_student_id sst + 1
        /\ Simple.get_student (Simple.Student.id s) st' = (inr s, st'))
  /\ (forall d,
        Simple.create_course d sst
        = (inl (Simple.professor_not_found (Simple.cc_professor_id d)), sst)
        \/ exists c st',
             Simple.create_course d sst = (inr c, st')
             /\ Simple.Course.id c = Simple.next_course_id sst
             /\ Simple.Course.enrolled_students c = 0
             /\ Simple.courses sst !! Simple.Course.id c = None
             /\ Simple.courses st' = <[Simple.Course.id c := c]> (Simple.courses sst)
             /\ Simple.next_course_id st' = Simple.next_course_id sst + 1
             /\ Simple.get_course (Simple.Course.id c) st' = (inr c, st')).
Proof.
  intros Hs.
  destruct (SimpleGrades.simple_reachable_more _ Hs) as ([Hp Hst Hc] & _ & _).
  split_and!.
  - intros d. unfold Simple.create_professor, bind, get, ret, modify.
    eexists _, _. split; [reflexivity|]. simpl. split_and!; try done.
    + destruct (Simple.professors sst !! _) as [p|] eqn:E; [|done].
      destruct (Hp _ _ E). lia.
    + unfold Simple.get_professor, bind, get, ret. simpl.
      by rewrite lookup_insert_eq.
  - intros d. unfold Simple.create_student, bind, get, ret, modify.
    eexists _, _. split; [reflexivity|]. simpl. split_and!; try done.
    + destruct (Simple.students sst !! _) as [p|] eqn:E; [|done].
      destruct (Hst _ _ E). lia.
    + unfold Simple.get_student, bind, get, ret. simpl.
      by rewrite lookup_insert_eq.
  - intros d. unfold Simple.create_course, bind, get, ret, raise, modify.
    case_decide; [right|by left].
    eexists _, _. split; [reflexivity|]. simpl. split_and!; try done.
    + destruct (Simple.courses sst !! _) as [p|] eqn:E; [|done].
      destruct (Hc _ _ E). lia.
    + unfold Simple.get_course, bind, get, ret. simpl.
      by rewrite lookup_insert_eq.
Qed.

Lemma X12_simple_create_then_get_witness :
  Simple.reachable (Simple.init_db Scenario.day)
  /\ exists s st',
       Simple.create_student Scenario.twin (Simple.init_db Scenario.day) = (inr s, st')
       /\ Simple.get_student 2 st' = (inr s, st').
Proof.
  pose proof (Simple.reachable_init Scenario.day) as Hs.
  split; [exact Hs|].
  destruct (X12_simple_create_then_get _ Scenario.day Hs) as (_ & H & _).
  destruct (H Scenario.twin) as (s & st' & Hrun & Hid & _ & _ & _ & _ & Hget).
  exists s, st'. split; [exact Hrun|]. rewrite <- Hget. rewrite Hid. reflexivity.
Defined.



(** ** The reading endpoints *)

(** X14. In every store either service can reach, [get_student_courses]
    of a live student returns the courses the student is enrolled in:
    each of them once, all of them live (the guard [cid in db["courses"]]
    drops nothing), as many as the student has enrollments; and it leaves
    the store alone.  For an id that is not a student it raises the
    not-found error. *)
Theorem X14_student_courses_are_the_enrollments
    (est : Enhanced.db) (sst : Simple.db) (s : Z) :
  Enhanced.reachable est -> Simple.reachable sst ->
  (is_Some (Enhanced.students est !! s) ->
   exists cs,
     Enhanced.get_student_courses s est = (inr cs, est)
     /\ NoDup cs
     /\ (forall c, c ∈ cs <-> Enhanced.courses est !! Enhanced.Course.id c = Some c
                              /\ Enhanced.enrolled est s (Enhanced.Course.id c))
     /\ length cs
        = length (filter (fun e => Enhanced.Enrollment.student_id e = s)
                         (od_values (Enhanced.enrollments est))))
  /\ (Enhanced.students est !! s = None ->
      Enhanced.get_student_courses s est
      = (inl (Enhanced.NotFound "Student" (pretty s)), est))
  /\ (is_Some (Simple.students sst !! s) ->
      exists cs,
        Simple.get_student_courses s sst = (inr cs, sst)
        /\ NoDup cs
        /\ (forall c, c ∈ cs <-> Simple.courses sst !! Simple.Course.id c = Some c
                                 /\ Simple.enrolled sst s (Simple.Course.id c))
        /\ length cs
           = length (filter (fun e => Simple.Enrollment.student_id e = s)
                            (od_values (Simple.enrollments sst))))
  /\ (Simple.students sst !! s = None ->
      Simple.get_student_courses s sst
      = (inl (Simple.HTTPException 404 "Student not found"), sst)).
Proof.
  intros He Hs.
  pose proof (EnhancedFacts.reachable_wf _ He) as [Hco _].
  pose proof (SimpleFacts.simple_reachable_wf _ Hs) as [Hco' _].
  destruct (SimpleGrades.simple_reachable_more _ Hs) as (Hi & _ & _).
  split_and!.
  - intros Hl. by apply EnhancedReads.get_student_courses_reachable.
  - intros Hn. unfold Enhanced.get_student_courses, bind, get, raise.
    rewrite decide_False; [done|]. rewrite Hn. by intros [? ?].
  - intros Hl. by apply SimpleReads.simple_get_student_courses_reachable.
  - intros Hn. unfold Simple.get_student_courses, bind, get, raise.
    rewrite decide_False; [done|]. rewrite Hn. by intros [? ?].
Qed.

(** X14 where student 1 is enrolled in courses 1 and 2 of the enhanced
    service, and in course 2 of the simple one. *)
Lemma X14_student_courses_are_the_enrollments_witness :
  Enhanced.reachable Scenario.seminar_full
  /\ Simple.reachable Scenario.simple_seminar_full
  /\ (exists cs, Enhanced.get_student_courses 1 Scenario.seminar_full
                 = (inr cs, Scenario.seminar_full) /\ length cs = 2%nat)
  /\ (exists cs, Simple.get_student_courses 1 Scenario.simple_seminar_full
                 = (inr cs, Scenario.simple_seminar_full) /\ length cs = 1%nat).
Proof.
  assert (Enhanced.reachable Scenario.seminar_full) as He
    by (repeat apply Enhanced.reachable_serve; apply Enhanced.reachable_init).
  assert (Simple.reachable Scenario.simple_seminar_full) as Hs
    by (repeat apply Simple.reachable_serve; apply Simple.reachable_init).
  split; [exact He|]. split; [exact Hs|].
  destruct (X14_student_courses_are_the_enrollments _ _ 1 He Hs) as (H1 & _ & H2 & _).
  split.
  - destruct H1 as (cs & Hrun & _ & _ & Hlen); [vm_compute; eexists; reflexivity|].
    exists cs. split; [exact Hrun|]. rewrite Hlen. by vm_compute.
  - destruct H2 as (cs & Hrun & _ & _ & Hlen); [vm_compute; eexists; reflexivity|].
    exists cs. split; [exact Hrun|]. rewrite Hlen. by vm_compute.
Defined.

(** X15. In every store either service can reach, [get_course_roster]
    of a live course returns the students enrolled in the course: each of
    them once, all of them live, and their number is the
    [enrolled_students] of the course.  For an id that is not a course it
    raises the not-found error. *)
Theorem X15_roster_has_enrolled_students_entries
    (est : Enhanced.db) (sst : Simple.db) (c : Z) :
  Enhanced.reachable est -> Simple.reachable sst ->
  (forall course, Enhanced.courses est !! c = Some course ->
   exists ss,
     Enhanced.get_course_roster c est = (inr ss, est)
     /\ NoDup ss
     /\ (forall s, s ∈ ss <-> Enhanced.students est !! Enhanced.Student.id s = Some s
                              /\ Enhanced.enrolled est (Enhanced.Student.id s) c)
     /\ Z.of_nat (length ss) = Enhanced.Course.enrolled_students course)
  /\ (Enhanced.courses est !! c = None ->
      Enhanced.get_course_roster c est
      = (inl (Enhanced.NotFound "Course" (pretty c)), est))
  /\ (forall course, Simple.courses sst !! c = Some course ->
      exists ss,
        Simple.get_course_roster c sst = (inr ss, sst)
        /\ NoDup ss
        /\ (forall s, s ∈ ss <-> Simple.students sst !! Simple.Student.id s = Some s
                                 /\ Simple.enrolled sst (Simple.Student.id s) c)
        /\ Z.of_nat (length ss) = Simple.Course.enrolled_students course)
  /\ (Simple.courses sst !! c = None ->
      Simple.get_course_roster c sst
      = (inl (Simple.HTTPException 404 "Course not found"), sst)).
Proof.
  intros He Hs.
  pose proof (EnhancedFacts.reachable_wf _ He) as Hwf.
  pose proof (SimpleFacts.simple_reachable_wf _ Hs) as Hwf'.
  destruct (SimpleGrades.simple_reachable_more _ Hs) as (Hi & _ & _).
  split_and!.
  - intros course Hl. by apply EnhancedReads.get_course_roster_reachable.
  - intros Hn. unfold Enhanced.get_course_roster, bind, get, raise.
    rewrite decide_False; [done|]. rewrite Hn. by intros [? ?].
  - intros course Hl. by apply SimpleReads.simple_get_course_roster_reachable.
  - intros Hn. unfold Simple.get_course_roster, bind, get, raise.
    rewrite decide_False; [done|]. rewrite Hn. by intros [? ?].
Qed.

Lemma X15_roster_has_enrolled_students_entries_witness :
  Enhanced.reachable Scenario.seminar_full
  /\ Simple.reachable Scenario.simple_seminar_full
  /\ (exists ss, Enhanced.get_course_roster 2 Scenario.seminar_full
                 = (inr ss, Scenario.seminar_full) /\ Z.of_nat (length ss) = 1)
  /\ (exists ss, Simple.get_course_roster 2 Scenario.simple_seminar_full
                 = (inr ss, Scenario.simple_seminar_full) /\ Z.of_nat (length ss) = 1).
Proof.
  assert (Enhanced.reachable Scenario.seminar_full) as He
    by (repeat apply Enhanced.reachable_serve; apply Enhanced.reachable_init).
  assert (Simple.reachable Scenario.simple_seminar_full) as Hs
    by (repeat apply Simple.reachable_serve; apply Simple.reachable_init).
  split; [exact He|]. split; [exact Hs|].
  destruct (X15_roster_has_enrolled_students_entries _ _ 2 He Hs) as (H1 & _ & H2 & _).
  split.
  - destruct (H1 (Enhanced.Course.mk 2 "Seminar" "CS900" 3 1 1 1))
      as (ss & Hrun & _ & _ & Hlen); [by vm_compute|].
    exists ss. split; [exact Hrun | exact Hlen].
  - destruct (H2 (Simple.Course.mk 2 "Seminar" "CS900" 3 1 1 1))
      as (ss & Hrun & _ & _ & Hlen); [by vm_compute|].
    exists ss. split; [exact Hrun | exact Hlen].
Defined.

(** X16. The pages of the three list endpoints of the enhanced service,
    for a page size [size >= 1] and pages numbered from 1: a page has at
    most [size] items; item [j] of page [page] is item
    [(page - 1) * size + j] of the filtered list; the first [n] pages, one
    after the other, are the first [n * size] items of that list, so every
    item is on exactly one page and in the order of the list; a page past
    the end is empty. *)
Theorem X16_pages_partition_the_list
    (est : Enhanced.db) (department major : option string) (year credits : option Z)
    (size : Z) :
  1 <= size ->
  let professors :=
    Enhanced.filter_lower Enhanced.Professor.department department
      (dict_values (Enhanced.professors est)) in
  let students :=
    Enhanced.filter_int Enhanced.Student.year year
      (Enhanced.filter_lower Enhanced.Student.major major
         (dict_values (Enhanced.students est))) in
  let courses :=
    Enhanced.filter_int Enhanced.Course.credits credits
      (Enhanced.filter_lower
         (fun c => default "" (Enhanced.prof_depts est !! Enhanced.Course.professor_id c))
         department (dict_values (Enhanced.courses est))) in
  (forall page, 1 <= page ->
     Enhanced.get_all_professors department page size est
     = (inr (take (Z.to_nat size) (drop (Z.to_nat ((page - 1) * size)) professors)), est)
     /\ Enhanced.get_all_students major year page size est
        = (inr (take (Z.to_nat size) (drop (Z.to_nat ((page - 1) * size)) students)), est)
     /\ Enhanced.get_all_courses department credits page size est
        = (inr (take (Z.to_nat size) (drop (Z.to_nat ((page - 1) * size)) courses)), est))
  /\ (forall A (xs : list A) page, 1 <= page ->
        Z.of_nat (length (Enhanced.page_of page size xs)) <= size
        /\ (forall j : nat, Z.of_nat j < size ->
              Enhanced.page_of page size xs !! j
              = xs !! (Z.to_nat ((page - 1) * size) + j)%nat)
        /\ (Z.of_nat (length xs) <= (page - 1) * size ->
            Enhanced.page_of page size xs = []))
  /\ (forall A (xs : list A) (n : nat),
        concat ((fun p => Enhanced.page_of (Z.of_nat p) size xs) <$> seq 1 n)
        = take (n * Z.to_nat size) xs)
  /\ (forall A (xs : list A) (n : nat), Z.of_nat (length xs) <= Z.of_nat n * size ->
        concat ((fun p => Enhanced.page_of (Z.of_nat p) size xs) <$> seq 1 n) = xs).
Proof.
  intros Hs professors students courses. split_and!.
  - intros page Hp.
    unfold Enhanced.get_all_professors, Enhanced.get_all_students,
      Enhanced.get_all_courses, bind, get, ret.
    rewrite !page_of_take_drop by lia. done.
  - intros A xs page Hp. split_and!.
    + rewrite page_of_length by lia. lia.
    + intros j Hj. rewrite page_of_lookup by lia. by rewrite decide_True.
    + intros Hlen. apply length_zero_iff_nil.
      apply Nat2Z.inj. rewrite page_of_length by lia. lia.
  - intros A xs n. apply pages_concat. lia.
  - intros A xs n Hlen. rewrite pages_concat by lia. apply take_ge.
    apply Nat2Z.inj_le. rewrite Nat2Z.inj_mul, Z2Nat.id by lia. done.
Qed.

(** X16 on the three professors of [Scenario.faculty], two to a page. *)
Lemma X16_pages_partition_the_list_witness :
  1 <= 2
  /\ (exists ps, Enhanced.get_all_professors None 2 2 Scenario.faculty
                 = (inr ps, Scenario.faculty)
                 /\ Enhanced.Professor.id <$> ps = [3])
  /\ concat ((fun p => Enhanced.page_of (Z.of_nat p) 2
                         (dict_values (Enhanced.professors Scenario.faculty)))
               <$> seq 1 2)
     = dict_values (Enhanced.professors Scenario.faculty).
Proof.
  assert (1 <= 2) as Hs by lia.
  split; [exact Hs|].
  destruct (X16_pages_partition_the_list Scenario.faculty None None None None 2 Hs)
    as (H1 & _ & _ & H4).
  split.
  - destruct (H1 2) as (Hp & _); [lia|]. eexists. split; [exact Hp|]. by vm_compute.
  - apply H4. by vm_compute.
Defined.





(** ** The analytics endpoints *)

(** X19. [get_course_enrollment_stats] of the enhanced service.  With no
    course it returns the message.  In every store the service can reach
    that has a course, [total_courses] is the number of courses,
    [total_enrollment] is the number of enrollment records, the average is
    [round(total / count, 2)] of these two numbers, and [min_enrollment]
    and [max_enrollment] are the [enrolled_students] of some course, bound
    those of every course, are not negative, and bracket the total:
    [count * min <= total <= count * max].  The guards [if count > 0] and
    [if enrollments] are always true there.  The one exception the
    endpoint can raise is that of the division. *)
Theorem X19_enrollment_stats (est : Enhanced.db) :
  (Enhanced.courses est = ∅ ->
   Enhanced.get_course_enrollment_stats est
   = (inr (Enhanced.NoCourses "No courses available."), est))
  /\ (Enhanced.reachable est -> Enhanced.courses est <> ∅ ->
      exists lo hi,
        Enhanced.get_course_enrollment_stats est
        = (match PyFloat.truediv (Z.of_nat (length (Enhanced.enrollments est)))
                                 (Z.of_nat (size (Enhanced.courses est))) with
           | inl e => inl e
           | inr q =>
               inr (Enhanced.Stats (Z.of_nat (size (Enhanced.courses est)))
                      (Z.of_nat (length (Enhanced.enrollments est)))
                      (PyFloat.Float (PyFloat.round2 q)) lo hi)
           end, est)
        /\ (forall k c, Enhanced.courses est !! k = Some c ->
              lo <= Enhanced.Course.enrolled_students c <= hi)
        /\ (exists k c, Enhanced.courses est !! k = Some c
                        /\ Enhanced.Course.enrolled_students c = lo)
        /\ (exists k c, Enhanced.courses est !! k = Some c
                        /\ Enhanced.Course.enrolled_students c = hi)
        /\ 0 <= lo
        /\ Z.of_nat (size (Enhanced.courses est)) * lo
           <= Z.of_nat (length (Enhanced.enrollments est))
           <= Z.of_nat (size (Enhanced.courses est)) * hi).
Proof.
  split.
  - intros Hn. unfold Enhanced.get_course_enrollment_stats, bind, get, ret.
    by rewrite decide_True.
  - intros He%EnhancedFacts.reachable_wf Hne.
    by apply EnhancedStats.get_course_enrollment_stats_wf.
Qed.

(** X19 where student 1 is enrolled in both courses: two courses, two
    enrollments, one student in each, an average of 1.0. *)
Lemma X19_enrollment_stats_witness :
  Enhanced.reachable Scenario.seminar_full
  /\ Enhanced.courses Scenario.seminar_full <> ∅
  /\ exists lo hi,
       Enhanced.get_course_enrollment_stats Scenario.seminar_full
       = (inr (Enhanced.Stats 2 2 (PyFloat.Float (PyFloat.of_int 1)) lo hi),
          Scenario.seminar_full)
       /\ 0 <= lo.
Proof.
  assert (Enhanced.reachable Scenario.seminar_full) as He
    by (repeat apply Enhanced.reachable_serve; apply Enhanced.reachable_init).
  assert (Enhanced.courses Scenario.seminar_full <> ∅) as Hne.
  { intros Heq. apply (f_equal (fun m => m !! 1)) in Heq. vm_compute in Heq.
    discriminate Heq. }
  split; [exact He|]. split; [exact Hne|].
  destruct (proj2 (X19_enrollment_stats Scenario.seminar_full) He Hne)
    as (lo & hi & Hrun & _ & _ & _ & Hlo & _).
  exists lo, hi. split; [|exact Hlo]. rewrite Hrun. clear Hrun. by vm_compute.
Defined.

(** X20. [get_gpa_distribution] of the enhanced service, in any store.
    Every student is counted at most once, so the five counts, none of
    them negative, add up to at most the number of students; they add up
    to exactly that number when the gpa of every student lies between 0.0
    and 4.0.  ["Not Graded"] counts the students whose gpa is 0 and none of
    whose enrollments has a grade; such a student is not counted under
    ["0.0-0.99"]. *)
Theorem X20_gpa_distribution_counts (est : Enhanced.db) :
  exists d,
    Enhanced.get_gpa_distribution est = (inr d, est)
    /\ 0 <= Enhanced.from_0 d /\ 0 <= Enhanced.from_1 d /\ 0 <= Enhanced.from_2 d
    /\ 0 <= Enhanced.from_3 d /\ 0 <= Enhanced.not_graded d
    /\ Enhanced.distribution_total d <= Z.of_nat (size (Enhanced.students est))
    /\ ((forall k s, Enhanced.students est !! k = Some s ->
           PyFloat.leb PyFloat.zero (Enhanced.Student.gpa s) = true
           /\ PyFloat.leb (Enhanced.Student.gpa s) PyFloat.four = true) ->
        Enhanced.distribution_total d = Z.of_nat (size (Enhanced.students est)))
    /\ Enhanced.not_graded d
       = Z.of_nat (length (filter
                     (fun s => PyFloat.eqb (Enhanced.Student.gpa s) PyFloat.zero = true
                               /\ Enhanced.any_grade est s = false)
                     (dict_values (Enhanced.students est)))).
Proof.
  unfold Enhanced.get_gpa_distribution, bind, get, ret.
  eexists. split; [reflexivity|].
  destruct (EnhancedDistributionFold.gpa_distribution_fold est
              (dict_values (Enhanced.students est)) (Enhanced.mkDistribution 0 0 0 0 0))
    as (Ht & Hall & Hng & H0 & H1 & H2 & H3).
  cbv zeta in *. rewrite dict_values_length in Ht, Hall.
  change (Enhanced.distribution_total (Enhanced.mkDistribution 0 0 0 0 0)) with 0
    in Ht, Hall.
  change (Enhanced.not_graded (Enhanced.mkDistribution 0 0 0 0 0)) with 0 in Hng.
  split_and!.
  - by apply H0.
  - by apply H1.
  - by apply H2.
  - by apply H3.
  - rewrite Hng. lia.
  - lia.
  - intros Hrange. rewrite Hall; [lia|]. apply Forall_forall.
    intros s [k Hk]%elem_of_dict_values. eauto.
  - rewrite Hng. lia.
Qed.

(** X20 after student 1 got an A and a second student was created: both
    gpas lie between 0.0 and 4.0, and the counts add up to the two
    students. *)
Lemma X20_gpa_distribution_counts_witness :
  exists d,
    Enhanced.get_gpa_distribution
      (Enhanced.serve Scenario.day
         (Enhanced.CreateStudent
            (Enhanced.mkStudentCreate "Ada Lovelace" "ada@example.com" "Mathematics" 1))
         Scenario.graded)
    = (inr d,
       Enhanced.serve Scenario.day
         (Enhanced.CreateStudent
            (Enhanced.mkStudentCreate "Ada Lovelace" "ada@example.com" "Mathematics" 1))
         Scenario.graded)
    /\ Enhanced.distribution_total d = 2.
Proof.
  destruct (X20_gpa_distribution_counts
              (Enhanced.serve Scenario.day
                 (Enhanced.CreateStudent
                    (Enhanced.mkStudentCreate "Ada Lovelace" "ada@example.com"
                       "Mathematics" 1))
                 Scenario.graded))
    as (d & Hrun & _ & _ & _ & _ & _ & _ & Hall & _).
  exists d. split; [exact Hrun|].
  rewrite Hall; [reflexivity|].
  apply map_Forall_lookup. apply map_Forall_to_list.
  apply Forall_forall. intros [k s] Hin. vm_compute in Hin.
  repeat (apply elem_of_cons in Hin as [Hin|Hin];
          [injection Hin as -> ->; split; reflexivity|]).
  inversion Hin.
Defined.

(** After student 1 got an A and a second student was created: one
    student in ["3.0-4.0"], one not graded. *)
Example gpa_distribution_example :
  (Enhanced.get_gpa_distribution
     (Enhanced.serve Scenario.day
        (Enhanced.CreateStudent
           (Enhanced.mkStudentCreate "Ada Lovelace" "ada@example.com" "Mathematics" 1))
        Scenario.graded)).1
  = inr (Enhanced.mkDistribution 0 0 0 1 1).
Proof. by vm_compute. Qed.

(** ** Validation *)

(** X21. [validate_course_code] accepts exactly the texts the pattern
    describes: two to four capital letters, three digits, and then the end
    of the text or one final newline, which [$] of [re.match] lets pass.
    Whatever it accepts it returns unchanged: the [upper()] it ends with
    changes no text that matched; every other text raises the
    [ValueError]. *)
Theorem X21_course_code_pattern (v : string) :
  (Enhanced.validate_course_code v = inr v <-> PyStr.course_code_pattern v)
  /\ (~ PyStr.course_code_pattern v <-> Enhanced.validate_course_code v = inl tt)
  /\ (forall w, Enhanced.validate_course_code v = inr w -> w = v).
Proof.
  unfold Enhanced.validate_course_code.
  pose proof (PyStrFacts.match_course_code_pattern v) as Hm.
  destruct (PyStr.match_course_code v) eqn:E; simpl.
  - pose proof (proj1 Hm eq_refl) as Hp.
    rewrite (PyStrFacts.course_code_pattern_upper v Hp). split_and!.
    + done.
    + split; [done | intros ?; discriminate].
    + by intros w [= <-].
  - assert (~ PyStr.course_code_pattern v) as Hn by (intros Hp; by apply Hm in Hp).
    split_and!.
    + split; [intros ?; discriminate | done].
    + done.
    + intros w ?; discriminate.
Qed.

(** X21 on ["MATH203"]: four capital letters and three digits. *)
Lemma X21_course_code_pattern_witness :
  PyStr.course_code_pattern "MATH203"
  /\ Enhanced.validate_course_code "MATH203" = inr "MATH203".
Proof.
  assert (PyStr.course_code_pattern "MATH203") as Hp.
  { exists "MATH", "203", "". vm_compute. split_and!; auto. }
  split; [exact Hp|].
  destruct (X21_course_code_pattern "MATH203") as ((_ & H) & _).
  exact (H Hp).
Defined.

(** ["MATH203"] and ["CS101"] followed by a newline are accepted as they
    are; ["cs101"], ["C101"], ["ABCDE101"] and ["CS1011"] are rejected. *)
Example validate_course_code_examples :
  Enhanced.validate_course_code "MATH203" = inr "MATH203"
  /\ Enhanced.validate_course_code (String.append "CS101" (String PyStr.newline ""))
     = inr (String.append "CS101" (String PyStr.newline ""))
  /\ Enhanced.validate_course_code "cs101" = inl tt
  /\ Enhanced.validate_course_code "C101" = inl tt
  /\ Enhanced.validate_course_code "ABCDE101" = inl tt
  /\ Enhanced.validate_course_code "CS1011" = inl tt.
Proof. split_and!; by vm_compute. Qed.

(** X22. [hire_date_not_in_future] compares dates as Python does, by
    year, then month, then day.  It returns the date unchanged or raises;
    the day itself is accepted; a date accepted on some day is accepted on
    every later day; and a date after today is rejected. *)
Theorem X22_hire_date_validator (today today' v : date) :
  (Enhanced.hire_date_not_in_future today v = inr v
   \/ Enhanced.hire_date_not_in_future today v = inl tt)
  /\ Enhanced.hire_date_not_in_future today today = inr today
  /\ (Enhanced.hire_date_not_in_future today v = inr v ->
      date_gtb today today' = false ->
      Enhanced.hire_date_not_in_future today' v = inr v)
  /\ (Enhanced.hire_date_not_in_future today v = inl tt
      <-> year_of today < year_of v
          \/ (year_of v = year_of today
              /\ (month_of today < month_of v
                  \/ (month_of v = month_of today /\ day_of today < day_of v)))).
Proof.
  unfold Enhanced.hire_date_not_in_future. split_and!.
  - destruct (date_gtb v today); auto.
  - by rewrite date_gtb_irrefl.
  - destruct (date_gtb v today) eqn:E1; [done|]. intros _ E2.
    by rewrite (date_not_gtb_trans v today today' E1 E2).
  - rewrite <- date_gtb_spec. destruct (date_gtb v today); split; done.
Qed.

(** X22: hired on 30 September 1936, accepted on 1 September 2025 and on
    any later day, such as 1 January 2026. *)
Lemma X22_hire_date_validator_witness :
  Enhanced.hire_date_not_in_future Scenario.day (Date 1936 9 30) = inr (Date 1936 9 30)
  /\ date_gtb Scenario.day (Date 2026 1 1) = false
  /\ Enhanced.hire_date_not_in_future (Date 2026 1 1) (Date 1936 9 30)
     = inr (Date 1936 9 30).
Proof.
  assert (Enhanced.hire_date_not_in_future Scenario.day (Date 1936 9 30)
          = inr (Date 1936 9 30)) as H1 by reflexivity.
  assert (date_gtb Scenario.day (Date 2026 1 1) = false) as H2 by reflexivity.
  split; [exact H1|]. split; [exact H2|].
  destruct (X22_hire_date_validator Scenario.day (Date 2026 1 1) (Date 1936 9 30))
    as (_ & _ & H & _).
  exact (H H1 H2).
Defined.

(** X23. [validation_exception_handler] answers 422 with the detail
    ["Validation failed"], and groups the messages by field name: the
    field names of [field_errors] are pairwise distinct, a name is there
    exactly when some error carries it, and its list holds the messages of
    the errors that carry it, all of them and in the order of the errors.
    The field name of an error is its location without the first item,
    joined by [" -> "]. *)
Theorem X23_validation_errors_grouped
    (now : string) (errors : list Enhanced.validation_error) (name : string) :
  let r := Enhanced.validation_exception_handler now errors in
  Enhanced.vr_status_code r = 422
  /\ Enhanced.vr_detail r = "Validation failed"
  /\ NoDup (od_keys (Enhanced.vr_field_errors r))
  /\ od_get name (Enhanced.vr_field_errors r)
     = match Enhanced.msg
               <$> filter (fun e => Enhanced.field_name_of e = name) errors with
       | [] => None
       | msgs => Some msgs
       end
  /\ (name ∈ od_keys (Enhanced.vr_field_errors r)
      <-> exists e, e ∈ errors /\ Enhanced.field_name_of e = name).
Proof.
  intros r. unfold r, Enhanced.validation_exception_handler,
    Enhanced.collect_field_errors.
  cbn [Enhanced.vr_status_code Enhanced.vr_detail Enhanced.vr_field_errors].
  pose proof (EnhancedValidation.field_errors_fold name errors []) as Hget.
  split_and!; try done.
  - apply (EnhancedValidation.field_errors_wf errors []). apply NoDup_nil_2.
  - rewrite <- od_get_is_Some, Hget. split.
    + destruct (filter _ errors) as [|e l] eqn:E; simpl; [by intros [? ?]|].
      intros _. exists e.
      assert (e ∈ filter (fun e => Enhanced.field_name_of e = name) errors)
        as [? ?]%list_elem_of_filter by (rewrite E; left). done.
    + intros (e & Hin & Hn).
      assert (e ∈ filter (fun e => Enhanced.field_name_of e = name) errors) as Hf
        by (by apply list_elem_of_filter).
      destruct (filter _ errors) as [|e' l]; [by apply elem_of_nil in Hf|].
      simpl. eauto.
Qed.

(** Two complaints about [credits] and one about [code]: two field
    names, [credits] first, with its two messages in order. *)
Example validation_errors_example :
  Enhanced.vr_field_errors (Enhanced.validation_exception_handler "" Scenario.body_errors)
  = [("credits", ["Input should be greater than or equal to 1";
                  "Input should be a valid integer"]);
     ("code", ["Value error, Invalid course code format."])]
  /\ Enhanced.field_name_of
       (Enhanced.mkValidationError
          [Enhanced.LocStr "body"; Enhanced.LocStr "items"; Enhanced.LocInt 0;
           Enhanced.LocStr "name"] "Field required")
     = "items -> 0 -> name".
Proof. split; by vm_compute. Qed.

(** ** The gpa of one course *)

(** X24. What [calculate_gpa] stores for a student in the store, in
    both services.  With no graded enrollment the gpa is 0.0, and the
    enhanced service sets [academic_probation], since 0.0 < 2.0.  With
    exactly one graded enrollment, in a live course of 1 to 6 credits and
    with a grade of the table, the gpa is the points of that grade,
    whatever the credits, and the enhanced service sets
    [academic_probation] exactly for D and F. *)
Theorem X24_gpa_of_at_most_one_course (est : Enhanced.db) (sst : Simple.db) (s : Z) :
  (forall student, Enhanced.students est !! s = Some student ->
     (Enhanced.student_enrollments s (Enhanced.enrollments est) = [] ->
      Enhanced.calculate_gpa s est
      = (inr tt, Enhanced.set_students
                   (insert s (Enhanced.Student.set_gpa PyFloat.zero student)) est)
      /\ Enhanced.Student.academic_probation
           (Enhanced.Student.set_gpa PyFloat.zero student) = true)
     /\ (forall e course points,
           Enhanced.student_enrollments s (Enhanced.enrollments est) = [e] ->
           Enhanced.courses est !! Enhanced.Enrollment.course_id e = Some course ->
           1 <= Enhanced.Course.credits course <= 6 ->
           Enhanced.Enrollment.grade e ≫= Enhanced.GRADE_TO_POINTS = Some points ->
           Enhanced.calculate_gpa s est
           = (inr tt, Enhanced.set_students
                        (insert s (Enhanced.Student.set_gpa points student)) est)
           /\ (Enhanced.Student.academic_probation
                 (Enhanced.Student.set_gpa points student) = true
               <-> Enhanced.Enrollment.grade e = Some "D"
                   \/ Enhanced.Enrollment.grade e = Some "F")))
  /\ (forall student, Simple.students sst !! s = Some student ->
        (Simple.student_enrollments s (Simple.enrollments sst) = [] ->
         Simple.calculate_gpa s sst
         = (inr tt, Simple.set_students
                      (insert s (Simple.Student.set_gpa PyFloat.zero student)) sst))
        /\ (forall e course points,
              Simple.student_enrollments s (Simple.enrollments sst) = [e] ->
              Simple.courses sst !! Simple.Enrollment.course_id e = Some course ->
              1 <= Simple.Course.credits course <= 6 ->
              Simple.Enrollment.grade e ≫= Simple.GRADE_TO_POINTS = Some points ->
              Simple.calculate_gpa s sst
              = (inr tt, Simple.set_students
                           (insert s (Simple.Student.set_gpa points student)) sst))).
Proof.
  split.
  - intros student Hs. split.
    + intros Hnone. split; [|reflexivity].
      rewrite EnhancedFacts.calculate_gpa_run. unfold Enhanced.with_gpa. rewrite Hs.
      by rewrite (EnhancedGpa.computed_gpa_none _ _ Hnone).
    + intros e course points He Hc Hcr Hg. split.
      * rewrite EnhancedFacts.calculate_gpa_run. unfold Enhanced.with_gpa. rewrite Hs.
        by rewrite (EnhancedGpa.computed_gpa_single _ _ _ _ _ He Hc Hcr Hg).
      * destruct (Enhanced.Enrollment.grade e) as [g|]; [|done]. simpl in Hg.
        unfold Enhanced.GRADE_TO_POINTS in Hg.
        repeat case_decide; simplify_eq; simpl;
          (split; [intros Hp; vm_compute in Hp; first [discriminate Hp | auto]
                  | intros [?|?]; simplify_eq; reflexivity]).
  - intros student Hs. split.
    + intros Hnone.
      rewrite SimpleFacts.simple_calculate_gpa_run. unfold Simple.with_gpa. rewrite Hs.
      by rewrite (SimpleGpa.simple_computed_gpa_none _ _ Hnone).
    + intros e course points He Hc Hcr Hg.
      rewrite SimpleFacts.simple_calculate_gpa_run. unfold Simple.with_gpa. rewrite Hs.
      by rewrite (SimpleGpa.simple_computed_gpa_single _ _ _ _ _ He Hc Hcr Hg).
Qed.

(** X24 where student 1 of the enhanced service has one grade left, a B
    in the 4-credit course 2: the gpa is 3.0. *)
Lemma X24_gpa_of_at_most_one_course_witness :
  Enhanced.calculate_gpa 1 Scenario.one_grade_left
  = (inr tt,
     Enhanced.set_students
       (insert 1 (Enhanced.Student.set_gpa (PyFloat.of_int 3)
                    (Enhanced.Student.mk 1 "Joan Clarke" "joan.clarke@example.com"
                       "Mathematics" 2 (PyFloat.of_int 3) false)))
       Scenario.one_grade_left).
Proof.
  destruct (X24_gpa_of_at_most_one_course Scenario.one_grade_left
              (Simple.init_db Scenario.day) 1) as [H _].
  destruct (H (Enhanced.Student.mk 1 "Joan Clarke" "joan.clarke@example.com"
                 "Mathematics" 2 (PyFloat.of_int 3) false)) as [_ H1];
    [by vm_compute|].
  destruct (H1 (Enhanced.Enrollment.mk "ENR2" 1 2 Scenario.day (Some "B"))
               (Enhanced.Course.mk 2 "Algorithms" "CS201" 4 30 1 1)
               (PyFloat.of_int 3)) as [Hrun _].
  - by vm_compute.
  - by vm_compute.
  - simpl. lia.
  - by vm_compute.
  - exact Hrun.
Defined.

(** ** Grades and the case of their letter *)

Lemma upper_upper s : PyStr.upper (PyStr.upper s) = PyStr.upper s.
Proof.
  induction s as [|c s IH]; simpl; [done|]. rewrite IH. f_equal.
  by destruct c as [[] [] [] [] [] [] [] []].
Qed.

(** X25. [update_enrollment_grade] stores [grade.upper()]: in both
    services, from any store, a grade gives the same result and the same
    store as the grade in upper case, and the enrollment returned carries
    the grade in upper case.  In the simple service a grade is accepted
    exactly when its upper case is one of A, B, C, D and F; anything else
    is answered 400 and changes nothing. *)
Theorem X25_grade_is_stored_in_upper_case
    (est : Enhanced.db) (sst : Simple.db) (s c : Z) (g : string) :
  Enhanced.update_enrollment_grade s c (PyStr.upper g) est
  = Enhanced.update_enrollment_grade s c g est
  /\ Simple.update_enrollment_grade s c (PyStr.upper g) sst
     = Simple.update_enrollment_grade s c g sst
  /\ (forall e st', Enhanced.update_enrollment_grade s c g est = (inr e, st') ->
        Enhanced.Enrollment.grade e = Some (PyStr.upper g))
  /\ (forall e st', Simple.update_enrollment_grade s c g sst = (inr e, st') ->
        Simple.Enrollment.grade e = Some (PyStr.upper g)
        /\ PyStr.upper g ∈ ["A"; "B"; "C"; "D"; "F"])
  /\ (PyStr.upper g ∉ ["A"; "B"; "C"; "D"; "F"] ->
      Simple.update_enrollment_grade s c g sst
      = (inl (Simple.HTTPException 400 "Invalid grade. Must be one of A, B, C, D, F."),
         sst)).
Proof.
  split_and!.
  - unfold Enhanced.update_enrollment_grade. by rewrite upper_upper.
  - unfold Simple.update_enrollment_grade. by rewrite upper_upper.
  - intros e st'. unfold Enhanced.update_enrollment_grade, Enhanced.enrollment_at,
      Enhanced.calculate_gpa, bind, get, raise, ret, modify.
    repeat case_match; intros ?; simplify_eq; done.
  - intros e st'. rewrite SimpleIds.simple_update_enrollment_grade_cases.
    destruct (Simple.GRADE_TO_POINTS (PyStr.upper g)) as [x|] eqn:Eg; [|done].
    destruct (od_get _ _); [|done]. intros ?; simplify_eq. split; [done|].
    by apply SimpleGpa.simple_GRADE_TO_POINTS_values in Eg as [? _].
  - intros Hn. apply SimpleFacts.simple_update_enrollment_grade_invalid.
    destruct (Simple.GRADE_TO_POINTS (PyStr.upper g)) as [x|] eqn:Eg; [|done].
    by apply SimpleGpa.simple_GRADE_TO_POINTS_values in Eg as [? _].
Qed.

(** X25 on the grade ["e"], which the simple service refuses. *)
Lemma X25_grade_is_stored_in_upper_case_witness :
  (PyStr.upper "e" ∉ ["A"; "B"; "C"; "D"; "F"])
  /\ Simple.update_enrollment_grade 1 1 "e" (Simple.init_db Scenario.day)
     = (inl (Simple.HTTPException 400 "Invalid grade. Must be one of A, B, C, D, F."),
        Simple.init_db Scenario.day).
Proof.
  assert (PyStr.upper "e" ∉ ["A"; "B"; "C"; "D"; "F"]) as Hn.
  { vm_compute. intros H. repeat (apply elem_of_cons in H as [H|H]; [discriminate H|]).
    by apply elem_of_nil in H. }
  split; [exact Hn|].
  destruct (X25_grade_is_stored_in_upper_case (Enhanced.init_db Scenario.day)
              (Simple.init_db Scenario.day) 1 1 "e") as (_ & _ & _ & _ & H).
  exact (H Hn).
Defined.
